(** * pyipn.constellation: satellites, constellations and collections

    A shallow embedding of [src/pyipn/constellation.py].  Python integers are
    [Z], Python floats are IEEE-754 binary64 values (the kernel's primitive
    [float]), a number that may be either is a [pynum], and a Python
    exception is the [Raise] branch of [result].  The two external
    collaborators, the orbital propagator and the celestial frame converter,
    are the fields of an [externals] record that the constructors take as
    their first argument.  File output and the 3D display are left out. *)

From Stdlib Require Import ZArith List Bool Lia String Ascii Floats.
From Stdlib Require Import DecimalString.
From Stdlib Require DecimalZ DecimalPos.
Import ListNotations.

Local Open Scope Z_scope.

(** ** Exceptions and the error monad *)

Inductive exn : Type :=
| ZeroDivisionError
| OverflowError
| ValueError
| IndexError
| KeyError
| TypeError
| ExternalError (tag : nat).

Inductive result (A : Type) : Type :=
| Ok (a : A)
| Raise (e : exn).

Arguments Ok {A} a.
Arguments Raise {A} e.

Definition bind {A B : Type} (m : result A) (k : A -> result B) : result B :=
  match m with
  | Ok a => k a
  | Raise e => Raise e
  end.

Declare Scope result_scope.
Delimit Scope result_scope with result.
Notation "x <- m ;; k" := (bind m (fun x => k))
  (at level 61, m at next level, right associativity) : result_scope.
Notation "' p <- m ;; k" := (bind m (fun x => match x with p => k end))
  (at level 61, p pattern, m at next level, right associativity) : result_scope.
Local Open Scope result_scope.

Definition is_ok {A : Type} (m : result A) : bool :=
  match m with Ok _ => true | Raise _ => false end.

(** [for x in xs: acc = body(acc, x)], stopping at the first exception. *)
Fixpoint foldM {A B : Type} (body : A -> B -> result A) (xs : list B) (acc : A)
  : result A :=
  match xs with
  | [] => Ok acc
  | x :: xs' => acc' <- body acc x ;; foldM body xs' acc'
  end.

(** [[f(x) for x in xs]] built by successive [append]s. *)
Fixpoint mapM {A B : Type} (f : A -> result B) (xs : list A) : result (list B) :=
  match xs with
  | [] => Ok []
  | x :: xs' => y <- f x ;; ys <- mapM f xs' ;; Ok (y :: ys)
  end.

(** ** Python numbers *)

Module PyNum.

(** A Python [int] as a float operand of an exact operation: the integer
    itself as mantissa, exponent 0. *)
Definition Z2SF (z : Z) : spec_float :=
  match z with
  | Z0 => S754_zero false
  | Zpos p => S754_finite false p 0
  | Zneg p => S754_finite true p 0
  end.

(** A binary64 result, or [OverflowError] when it is out of range. *)
Definition checked (x : spec_float) : result float :=
  match x with
  | S754_infinity _ => Raise OverflowError
  | _ => Ok (SF2Prim x)
  end.

(** [float(z)] for an [int] z: the nearest binary64, ties to even. *)
Definition float_of_int (z : Z) : result float :=
  checked (binary_normalize prec emax z 0 false).

(** [a / b] for two [int]s: the correctly rounded quotient. *)
Definition int_truediv (a b : Z) : result float :=
  if b =? 0 then Raise ZeroDivisionError
  else checked (SF64div (Z2SF a) (Z2SF b)).

(** [int(x)] for a [float] x: truncation toward zero. *)
Definition int_of_float (x : float) : result Z :=
  match Prim2SF x with
  | S754_zero _ => Ok 0
  | S754_finite s m e => Ok (cond_Zopp s (Z.shiftl (Zpos m) e))
  | S754_infinity _ => Raise OverflowError
  | S754_nan => Raise ValueError
  end.

(** [x == z] for a [float] x and an [int] z: exact comparison. *)
Definition float_eqb_int (x : float) (z : Z) : bool :=
  match Prim2SF x with
  | S754_zero _ => z =? 0
  | S754_finite s m e =>
      if 0 <=? e then z =? cond_Zopp s (Zpos m * 2 ^ e)
      else (Zpos m mod 2 ^ (- e) =? 0) && (z =? cond_Zopp s (Zpos m / 2 ^ (- e)))
  | _ => false
  end.

Inductive pynum : Type :=
| PyInt (z : Z)
| PyFloat (f : float).

Definition py_float (x : pynum) : result float :=
  match x with
  | PyInt z => float_of_int z
  | PyFloat f => Ok f
  end.

Definition py_int (x : pynum) : result Z :=
  match x with
  | PyInt z => Ok z
  | PyFloat f => int_of_float f
  end.

Definition py_add (x y : pynum) : result pynum :=
  match x, y with
  | PyInt a, PyInt b => Ok (PyInt (a + b))
  | _, _ => a <- py_float x ;; b <- py_float y ;; Ok (PyFloat (a + b)%float)
  end.

Definition py_mul (x y : pynum) : result pynum :=
  match x, y with
  | PyInt a, PyInt b => Ok (PyInt (a * b))
  | _, _ => a <- py_float x ;; b <- py_float y ;; Ok (PyFloat (a * b)%float)
  end.

Definition py_truediv (x y : pynum) : result pynum :=
  match x, y with
  | PyInt a, PyInt b => q <- int_truediv a b ;; Ok (PyFloat q)
  | _, _ =>
      a <- py_float x ;; b <- py_float y ;;
      if (b =? 0)%float then Raise ZeroDivisionError
      else Ok (PyFloat (a / b)%float)
  end.

Definition py_eqb (x y : pynum) : bool :=
  match x, y with
  | PyInt a, PyInt b => a =? b
  | PyFloat a, PyFloat b => (a =? b)%float
  | PyInt a, PyFloat b => float_eqb_int b a
  | PyFloat a, PyInt b => float_eqb_int a b
  end.

(** [xs == ys] for two lists of numbers. *)
Fixpoint py_list_eqb (xs ys : list pynum) : bool :=
  match xs, ys with
  | [], [] => true
  | x :: xs', y :: ys' => py_eqb x y && py_list_eqb xs' ys'
  | _, _ => false
  end.

(** [math.pi] *)
Definition pi : float := 0x1.921fb54442d18p+1%float.

End PyNum.
Import PyNum.

Arguments float_of_int : simpl never.
Arguments int_truediv : simpl never.
Arguments int_of_float : simpl never.
Arguments float_eqb_int : simpl never.

(** ** Python sequences, dictionaries and strings *)

Module PySeq.

(** [range(start, stop)] *)
Definition range2 (start stop : Z) : list Z :=
  map (fun k => start + Z.of_nat k) (seq 0 (Z.to_nat (stop - start))).

(** [range(n)] *)
Definition range1 (n : Z) : list Z := range2 0 n.

(** [len(range(start, stop, step))] for a non-zero step *)
Definition range3_len (start stop step : Z) : Z :=
  if 0 <? step then
    if start <? stop then (stop - start - 1) / step + 1 else 0
  else
    if stop <? start then (start - stop - 1) / (- step) + 1 else 0.

(** [list(range(start, stop, step))]; a zero step is a [ValueError]. *)
Definition range3 (start stop step : Z) : result (list Z) :=
  if step =? 0 then Raise ValueError
  else Ok (map (fun k => start + Z.of_nat k * step)
               (seq 0 (Z.to_nat (range3_len start stop step)))).

(** [[x] * n] *)
Definition list_mul {A : Type} (x : A) (n : Z) : list A := repeat x (Z.to_nat n).

(** The position a Python index denotes in a list of length [n]:
    negative indices count from the end. *)
Definition norm_index (n i : Z) : option nat :=
  let j := if i <? 0 then i + n else i in
  if (0 <=? j) && (j <? n) then Some (Z.to_nat j) else None.

(** [l[i]] *)
Definition getitem {A : Type} (l : list A) (i : Z) : result A :=
  match norm_index (Z.of_nat (List.length l)) i with
  | Some k => match nth_error l k with
              | Some x => Ok x
              | None => Raise IndexError
              end
  | None => Raise IndexError
  end.

Fixpoint update {A : Type} (l : list A) (k : nat) (x : A) : list A :=
  match l, k with
  | [], _ => []
  | _ :: l', O => x :: l'
  | y :: l', S k' => y :: update l' k' x
  end.

(** [l[i] = x] *)
Definition setitem {A : Type} (l : list A) (i : Z) (x : A) : result (list A) :=
  match norm_index (Z.of_nat (List.length l)) i with
  | Some k => Ok (update l k x)
  | None => Raise IndexError
  end.

(** An insertion-ordered dictionary with string keys ([OrderedDict], and
    [dict] since Python 3.7): assigning to an existing key keeps its place. *)
Definition odict (V : Type) : Type := list (string * V).

Fixpoint od_set {V : Type} (d : odict V) (k : string) (v : V) : odict V :=
  match d with
  | [] => [(k, v)]
  | (k', v') :: d' =>
      if String.eqb k' k then (k, v) :: d' else (k', v') :: od_set d' k v
  end.

Fixpoint od_get {V : Type} (d : odict V) (k : string) : result V :=
  match d with
  | [] => Raise KeyError
  | (k', v') :: d' => if String.eqb k' k then Ok v' else od_get d' k
  end.

Definition od_keys {V : Type} (d : odict V) : list string := map fst d.

(** [len(d)] *)
Definition od_len {V : Type} (d : odict V) : Z := Z.of_nat (List.length d).

(** [str.lower] on one character (ASCII letters; other bytes are kept). *)
Definition lower_ascii (c : ascii) : ascii :=
  let n := nat_of_ascii c in
  if (65 <=? n)%nat && (n <=? 90)%nat then ascii_of_nat (n + 32) else c.

Fixpoint lower (s : string) : string :=
  match s with
  | EmptyString => EmptyString
  | String c s' => String (lower_ascii c) (lower s')
  end.

(** [s.replace(old, new)] for a one-character [old]. *)
Fixpoint replace (old : ascii) (new : string) (s : string) : string :=
  match s with
  | EmptyString => EmptyString
  | String c s' =>
      if Ascii.eqb c old then String.append new (replace old new s')
      else String c (replace old new s')
  end.

(** [str(z)] for an [int] z *)
Definition str_of_int (z : Z) : string := NilZero.string_of_int (Z.to_int z).

End PySeq.
Import PySeq.

(** ** The external collaborators *)

(** [ke_r alt e i arg_pe raan] is
    [KeplerianElements.with_altitude(alt, e=e, i=i, arg_pe=arg_pe, raan=raan,
    body=earth).r], a position in metres; [spherical_deg x y z] is the
    [(spherical.lon.deg, spherical.lat.deg)] of
    [SkyCoord(x=x, y=y, z=z, unit='km', frame='gcrs',
    representation_type='cartesian')].  Either may raise. *)
Record externals : Type := {
  ke_r : pynum -> pynum -> pynum -> pynum -> pynum -> result (float * float * float);
  spherical_deg : float -> float -> float -> result (float * float)
}.

Definition heavenly_body_radius : odict Z :=
  [ ("earth", 6371); ("luna", 1737); ("mars", 3390); ("venus", 6052);
    ("mercury", 2440); ("sol", 695700); ("jupiter", 69911); ("saturn", 58232);
    ("uranus", 25362); ("neptune", 24622); ("pluto", 1188) ]%string.

(** [clean_name] *)
Definition clean_name (name : string) : string :=
  replace ")" "" (replace "(" "" (replace " " "_" name)).

(** A tracking-element record as the core reads it ([tletools.TLE]). *)
Record TLE : Type := {
  tle_name : string;
  tle_a : float;
  tle_ecc : float;
  tle_inc : float;
  tle_raan : float;
  tle_argp : float
}.

(** ** class Satellite *)

Module Satellite.

Record t : Type := {
  _name : string;
  _altitude : pynum;
  _focus : string;
  _true_alt : pynum;
  _eccentricity : pynum;
  _effective_area : pynum;
  _inclination : pynum;
  _right_ascension : pynum;
  _perigee : pynum;
  _ta : pynum;
  _inclination_r : pynum;
  _right_ascension_r : pynum;
  _perigee_r : pynum;
  _ta_r : pynum;
  _ra : float;
  _dec : float;
  _xyz : float * float * float
}.

(** What a conversion method returns: the converted [value] when one is
    given (and truthy), the four stored angles otherwise. *)
Inductive converted : Type :=
| One (x : pynum)
| Four (inclination right_ascension perigee ta : pynum).

(** [a, b, c, d = ...] on what a conversion method returned *)
Definition unpack4 (c : converted) : result (pynum * pynum * pynum * pynum) :=
  match c with
  | Four i r p a => Ok (i, r, p, a)
  | One _ => Raise TypeError
  end.

(** [if value:] *)
Definition truthy (value : option pynum) : option pynum :=
  match value with
  | Some v => if py_eqb v (PyInt 0) then None else Some v
  | None => None
  end.

(** [_convert_to_rads(self, value=None)], reading the four degree fields *)
Definition _convert_to_rads (inclination right_ascension perigee ta : pynum)
    (value : option pynum) : result converted :=
  to_rad <- py_truediv (PyFloat pi) (PyInt 180) ;;
  match truthy value with
  | Some v => x <- py_mul v to_rad ;; Ok (One x)
  | None =>
      i <- py_mul inclination to_rad ;;
      r <- py_mul right_ascension to_rad ;;
      p <- py_mul perigee to_rad ;;
      a <- py_mul ta to_rad ;;
      Ok (Four i r p a)
  end.

(** [_convert_to_degs(self, value=None)], reading the four radian fields *)
Definition _convert_to_degs (inclination_r right_ascension_r perigee_r ta_r : pynum)
    (value : option pynum) : result converted :=
  to_deg <- py_truediv (PyInt 180) (PyFloat pi) ;;
  match truthy value with
  | Some v => x <- py_mul v to_deg ;; Ok (One x)
  | None =>
      i <- py_mul inclination_r to_deg ;;
      r <- py_mul right_ascension_r to_deg ;;
      p <- py_mul perigee_r to_deg ;;
      a <- py_mul ta_r to_deg ;;
      Ok (Four i r p a)
  end.

(** [_get_radius(self)] *)
Definition _get_radius (focus : string) : result Z :=
  od_get heavenly_body_radius (lower focus).

Section WithExternals.
Variable ext : externals.

(** [_compute_position(self)]: the new [(_ra, _dec, _xyz)].  It reads
    the altitude, the eccentricity and the three radian angles below. *)
Definition _compute_position
    (altitude eccentricity inclination_r perigee_r right_ascension_r : pynum)
  : result (float * float * (float * float * float)) :=
  alt_m <- py_mul altitude (PyFloat 1000) ;;
  '(x, y, z) <- ke_r ext alt_m eccentricity inclination_r perigee_r right_ascension_r ;;
  '(lon, lat) <- spherical_deg ext (x / 1000)%float (y / 1000)%float (z / 1000)%float ;;
  Ok (lon, lat, ((x / 1000)%float, (y / 1000)%float, (z / 1000)%float)).

(** [Satellite(name, altitude, eccentricity, inclination, right_ascension,
    perigee, ta, effective_area=1., focus="earth", rads=True)] *)
Definition __init__ (name : string)
    (altitude eccentricity inclination right_ascension perigee ta : pynum)
    (effective_area : pynum) (focus : string) (rads : bool) : result t :=
  alt <- py_float altitude ;;
  radius <- _get_radius focus ;;
  true_alt <- py_add (PyFloat alt) (PyInt radius) ;;
  angles <-
    (if negb rads then
       c <- _convert_to_rads inclination right_ascension perigee ta None ;;
       rad <- unpack4 c ;;
       Ok (inclination, right_ascension, perigee, ta, rad)
     else
       c <- _convert_to_degs inclination right_ascension perigee ta None ;;
       deg <- unpack4 c ;;
       Ok (deg, (inclination, right_ascension, perigee, ta))) ;;
  let '(inc, raan, per, ta_d, (inc_r, raan_r, per_r, ta_r)) := angles in
  '(ra, dec, xyz) <- _compute_position altitude eccentricity inc_r per_r raan_r ;;
  Ok {| _name := name; _altitude := altitude; _focus := focus;
        _true_alt := true_alt; _eccentricity := eccentricity;
        _effective_area := effective_area;
        _inclination := inc; _right_ascension := raan;
        _perigee := per; _ta := ta_d;
        _inclination_r := inc_r; _right_ascension_r := raan_r;
        _perigee_r := per_r; _ta_r := ta_r;
        _ra := ra; _dec := dec; _xyz := xyz |}.

(** [Satellite.from_TLE(tle)] *)
Definition from_TLE (tle : TLE) : result t :=
  __init__ (clean_name (tle_name tle))
    (PyFloat (tle_a tle)) (PyFloat (tle_ecc tle)) (PyFloat (tle_inc tle))
    (PyFloat (tle_raan tle)) (PyFloat (tle_argp tle)) (PyInt 0)
    (PyFloat 1) "earth" false.

End WithExternals.

(** The read-only properties. *)
Definition name (self : t) : string := _name self.
Definition altitude (self : t) : result float := py_float (_altitude self).
Definition ra (self : t) : float := _ra self.
Definition dec (self : t) : float := _dec self.
Definition xyz (self : t) : float * float * float := _xyz self.
Definition true_alt (self : t) : result float := py_float (_true_alt self).
Definition eccentricity (self : t) : result float := py_float (_eccentricity self).
Definition inclination (self : t) : result float := py_float (_inclination self).
Definition right_ascension (self : t) : result float := py_float (_right_ascension self).
Definition perigee (self : t) : result float := py_float (_perigee self).
Definition ta (self : t) : result float := py_float (_ta self).
Definition effective_area (self : t) : result float := py_float (_effective_area self).

(** The [effective_area] setter. *)
Definition set_effective_area (self : t) (value : pynum) : t :=
  {| _name := _name self; _altitude := _altitude self; _focus := _focus self;
     _true_alt := _true_alt self; _eccentricity := _eccentricity self;
     _effective_area := value;
     _inclination := _inclination self; _right_ascension := _right_ascension self;
     _perigee := _perigee self; _ta := _ta self;
     _inclination_r := _inclination_r self;
     _right_ascension_r := _right_ascension_r self;
     _perigee_r := _perigee_r self; _ta_r := _ta_r self;
     _ra := _ra self; _dec := _dec self; _xyz := _xyz self |}.

End Satellite.

Arguments Satellite._convert_to_rads : simpl never.
Arguments Satellite._convert_to_degs : simpl never.
Arguments Satellite._get_radius : simpl never.
Arguments Satellite._compute_position : simpl never.

(** ** class Constellation *)

Module Constellation.

Record t : Type := {
  _num_sats : Z;
  _num_planes : Z;
  _phasing : pynum;
  _inclination : pynum;
  _altitude : pynum;
  _e : pynum;
  _focus : string;
  _start_num : Z;
  _constellation_name : string;
  _sats_per_plane : Z;
  _correct_phasing : pynum;
  _perigee_positions_tbl : list pynum;
  _raan : list pynum;
  _ta : list pynum;
  _satellites : list Satellite.t
}.

(** [_corrected_planes(self)] *)
Definition _corrected_planes (num_sats num_planes : Z) (phasing : pynum)
  : result (Z * pynum) :=
  q <- py_truediv (PyInt num_sats) (PyInt num_planes) ;;
  sats_per_plane <- py_int q ;;
  p <- py_mul (PyInt 360) phasing ;;
  corrected_phasing <- py_truediv p (PyInt num_sats) ;;
  Ok (sats_per_plane, corrected_phasing).

(** [_perigee_positions(self)] *)
Definition _perigee_positions (sats_per_plane num_sats : Z) : result (list pynum) :=
  q <- py_truediv (PyInt 360) (PyInt sats_per_plane) ;;
  step <- py_int q ;;
  perigees <- range3 0 360 step ;;
  Ok (fold_left (fun all_perigees _ => all_perigees ++ map PyInt perigees)
                (range1 num_sats) []).

(** [_calculate_raan(self)] *)
Definition _calculate_raan (num_sats sats_per_plane num_planes : Z)
  : result (list pynum) :=
  foldM (fun raan i =>
           prev <- getitem raan (i - sats_per_plane) ;;
           d <- py_truediv (PyInt 360) (PyInt num_planes) ;;
           v <- py_add prev d ;;
           setitem raan i v)
        (range2 sats_per_plane num_sats)
        (list_mul (PyInt 0) num_sats).

(** [_calculate_ta(self)] *)
Definition _calculate_ta (num_sats sats_per_plane : Z) (correct_phasing : pynum)
  : result (list pynum) :=
  foldM (fun ta i =>
           prev <- getitem ta (i - sats_per_plane) ;;
           v <- py_add prev correct_phasing ;;
           setitem ta i v)
        (range2 sats_per_plane num_sats)
        (list_mul (PyInt 0) num_sats).

Section WithExternals.
Variable ext : externals.

(** [_build_satellites(self)] *)
Definition _build_satellites (num_sats start_num : Z) (constellation_name : string)
    (altitude e inclination : pynum) (raan perigee_positions ta : list pynum)
    (focus : string) : result (list Satellite.t) :=
  mapM (fun i =>
          let sat_num := i + start_num + 1 in
          let sat_name := String.append constellation_name (str_of_int sat_num) in
          raan_i <- getitem raan i ;;
          perigee_i <- getitem perigee_positions i ;;
          ta_i <- getitem ta i ;;
          Satellite.__init__ ext sat_name altitude e inclination
            raan_i perigee_i ta_i (PyFloat 1) focus true)
       (range1 num_sats).

(** [Constellation(num_sats, num_planes, phasing, inclination, altitude,
    eccentricity, name="det")] *)
Definition __init__ (num_sats num_planes : Z)
    (phasing inclination altitude eccentricity : pynum) (name : string)
  : result t :=
  let focus := "earth"%string in
  let starting_number := 0 in
  '(sats_per_plane, correct_phasing) <- _corrected_planes num_sats num_planes phasing ;;
  perigee_positions <- _perigee_positions sats_per_plane num_sats ;;
  raan <- _calculate_raan num_sats sats_per_plane num_planes ;;
  ta <- _calculate_ta num_sats sats_per_plane correct_phasing ;;
  satellites <- _build_satellites num_sats starting_number name
                  altitude eccentricity inclination raan perigee_positions ta focus ;;
  Ok {| _num_sats := num_sats; _num_planes := num_planes; _phasing := phasing;
        _inclination := inclination; _altitude := altitude; _e := eccentricity;
        _focus := focus; _start_num := starting_number;
        _constellation_name := name;
        _sats_per_plane := sats_per_plane; _correct_phasing := correct_phasing;
        _perigee_positions_tbl := perigee_positions;
        _raan := raan; _ta := ta; _satellites := satellites |}.

End WithExternals.

(** The [satellites] property. *)
Definition satellites (self : t) : list Satellite.t := _satellites self.

End Constellation.

(** ** class SatelliteCollection *)

Module SatelliteCollection.

Record t : Type := {
  _n_satellites : Z;
  _satellites : odict Satellite.t;
  _normal_pointing : bool
}.

Definition satellites (self : t) : odict Satellite.t := _satellites self.
Definition n_satellites (self : t) : Z := _n_satellites self.

(** [add_satellite(self, satellite)] *)
Definition add_satellite (self : t) (satellite : Satellite.t) : t :=
  {| _n_satellites := _n_satellites self + 1;
     _satellites := od_set (_satellites self) (Satellite.name satellite) satellite;
     _normal_pointing := _normal_pointing self |}.

(** [SatelliteCollection(sat_1, ..., sat_n, normal_pointing=False)].  The flag is
    stored last in the source; no step before that reads it. *)
Definition __init__ (satellites : list Satellite.t) (normal_pointing : bool) : t :=
  let self := fold_left add_satellite satellites
                {| _n_satellites := 0; _satellites := [];
                   _normal_pointing := normal_pointing |} in
  {| _n_satellites := od_len (_satellites self);
     _satellites := _satellites self;
     _normal_pointing := normal_pointing |}.

(** The exported configuration mapping. *)
Record pointing_dict : Type := { p_ra : pynum; p_dec : pynum }.

Record sat_dict : Type := {
  d_ra : float;
  d_dec : float;
  d_altitude : float;
  d_time : string;
  d_pointing : pointing_dict;
  d_effective_area : pynum
}.

Record group_dict : Type := {
  g_seed : Z;
  g_grb : odict pynum;
  g_detectors : odict sat_dict
}.

Definition default_grb : odict pynum :=
  od_set (od_set (od_set (od_set (od_set (od_set []
    "ra" (PyInt 80)) "dec" (PyInt (-30))) "distance" (PyInt 500))
    "K" (PyInt 500)) "t_rise" (PyInt 1)) "t_decay" (PyInt 7).

(** [as_dict(self, grb_dict=None)] *)
Definition as_dict (self : t) (grb_dict : option (odict pynum)) : result group_dict :=
  let grb := match grb_dict with
             | None => default_grb
             | Some g => g
             end in
  det_dict <-
    foldM (fun det_dict item =>
             let '(name, sat) := item in
             alt <- Satellite.altitude sat ;;
             let pointing :=
               if _normal_pointing self
               then {| p_ra := PyFloat (Satellite.ra sat);
                       p_dec := PyFloat (Satellite.dec sat) |}
               else {| p_ra := PyInt 80; p_dec := PyInt (-30) |} in
             Ok (od_set det_dict name
                   {| d_ra := Satellite.ra sat; d_dec := Satellite.dec sat;
                      d_altitude := alt; d_time := "2010-01-01T00:00:00";
                      d_pointing := pointing;
                      d_effective_area := Satellite._effective_area sat |}))
          (_satellites self) [] ;;
  Ok {| g_seed := 1234; g_grb := grb; g_detectors := det_dict |}.

Section WithExternals.
Variable ext : externals.

(** [add_satellite_from_tle(self, tle)] *)
Definition add_satellite_from_tle (self : t) (tle : TLE) : result t :=
  sat <- Satellite.from_TLE ext tle ;;
  Ok (add_satellite self sat).

(** [SatelliteCollection.from_tle_file(tle_file, normal_pointing=False)],
    on the records [TLE.load(tle_file)] returned. *)
Definition from_tle_file (tles : list TLE) (normal_pointing : bool) : result t :=
  sats <- mapM (Satellite.from_TLE ext) tles ;;
  Ok (__init__ sats false).

(** [SatelliteCollection.from_constellation(num_sats, num_planes, phasing,
    inclination, altitude, eccentricity, name="det", normal_pointing=False)] *)
Definition from_constellation (num_sats num_planes : Z)
    (phasing inclination altitude eccentricity : pynum) (name : string)
    (normal_pointing : bool) : result t :=
  constellation <- Constellation.__init__ ext num_sats num_planes phasing
                     inclination altitude eccentricity name ;;
  Ok (__init__ (Constellation.satellites constellation) normal_pointing).

End WithExternals.

End SatelliteCollection.

(** ** A collaborator for closed examples *)

(** The position of a body at perigee of an equatorial orbit with both node
    and perigee on the x axis: [(6371000 + altitude, 0, 0)] metres, seen at
    longitude 0 and latitude 0. *)
Definition on_x_axis : externals :=
  {| ke_r := fun alt _ _ _ _ =>
               a <- py_float alt ;; Ok ((6371000 + a)%float, 0%float, 0%float);
     spherical_deg := fun _ _ _ => Ok (0%float, 0%float) |}.

(** ** Vocabulary of the statements *)

(** [c in s] for a character [c] *)
Fixpoint has (c : ascii) (s : string) : bool :=
  match s with
  | EmptyString => false
  | String c' s' => Ascii.eqb c' c || has c s'
  end.

(** One detector entry, as [as_dict] builds it. *)
Definition detector_of (normal_pointing : bool) (sat : Satellite.t) (alt : float)
  : SatelliteCollection.sat_dict :=
  {| SatelliteCollection.d_ra := Satellite.ra sat;
     SatelliteCollection.d_dec := Satellite.dec sat;
     SatelliteCollection.d_altitude := alt;
     SatelliteCollection.d_time := "2010-01-01T00:00:00";
     SatelliteCollection.d_pointing :=
       if normal_pointing
       then {| SatelliteCollection.p_ra := PyFloat (Satellite.ra sat);
               SatelliteCollection.p_dec := PyFloat (Satellite.dec sat) |}
       else {| SatelliteCollection.p_ra := PyInt 80;
               SatelliteCollection.p_dec := PyInt (-30) |};
     SatelliteCollection.d_effective_area := Satellite._effective_area sat |}.

(** The tail of [binary_round_aux]: renormalising a rounded mantissa. *)
Definition round_finish (M1 e : Z) : spec_float :=
  let '(mrs, e') := shr_fexp prec emax M1 e loc_Exact in
  match shr_m mrs with
  | Z0 => S754_zero false
  | Zpos m => if e' <=? emax - prec then S754_finite false m e' else S754_infinity false
  | Zneg _ => S754_nan
  end.

(** Two floats agree to within a relative error of [2 ^ -50]: both are zero,
    or both are finite of one sign and the distance of their magnitudes is
    at most [2 ^ -50] times the magnitude of the first. *)
Definition close (x y : float) : bool :=
  match Prim2SF x, Prim2SF y with
  | S754_zero _, S754_zero _ => true
  | S754_finite sx mx ex, S754_finite sy my ey =>
      let e := Z.min ex ey in
      let a := Zpos mx * 2 ^ (ex - e) in
      let b := Zpos my * 2 ^ (ey - e) in
      Bool.eqb sx sy && (2 ^ 50 * Z.abs (b - a) <=? a)
  | _, _ => false
  end.

(** A float that the conversions keep in the normal range: zero, or of
    magnitude at least [2 ^ -1000] and below [2 ^ 1000]. *)
Definition float_in_range (f : float) : bool :=
  match Prim2SF f with
  | S754_zero _ => true
  | S754_finite _ m e => (2 ^ 52 <=? Zpos m) && (-1052 <=? e) && (e <=? 947)
  | _ => false
  end.

(** An angle whose float value is in that range. *)
Definition angle_in_range (x : pynum) : bool :=
  match py_float x with
  | Ok f => float_in_range f
  | Raise _ => false
  end.

(** One angle stored twice: [derived] is exactly [given] times [factor],
    and, for a [given] in range, [derived] times [inverse] is [given] again
    to within [2 ^ -50]. *)
Definition stored_pair (factor inverse : float) (given derived : pynum) : Prop :=
  py_mul given (PyFloat factor) = Ok derived /\
  (angle_in_range given = true ->
   exists g back,
     py_float given = Ok g /\
     py_mul derived (PyFloat inverse) = Ok (PyFloat back) /\
     close g back = true).

(** A table entry the loops produce: the initial [0] or a float. *)
Definition zero_or_float (x : pynum) : Prop :=
  match x with
  | PyInt z => z = 0
  | PyFloat _ => True
  end.

(** The table after the loop has handled the indices below [k]. *)
Definition plane_table_upto (spp : Z) (d : float) (n k : Z) (T : list pynum) : Prop :=
  List.length T = Z.to_nat n /\
  (forall i, 0 <= i < n -> i < spp \/ k <= i -> getitem T i = Ok (PyInt 0)) /\
  (forall i, spp <= i < k ->
     exists x y, getitem T (i - spp) = Ok x /\ py_add x (PyFloat d) = Ok y /\
                 getitem T i = Ok y) /\
  Forall zero_or_float T.

(** The finished table: zero on the first plane, then the recurrence. *)
Definition plane_table (spp : Z) (d : float) (n : Z) (T : list pynum) : Prop :=
  List.length T = Z.to_nat n /\
  (forall i, 0 <= i < n -> i < spp -> getitem T i = Ok (PyInt 0)) /\
  (forall i, spp <= i < n ->
     exists x y, getitem T (i - spp) = Ok x /\ py_add x (PyFloat d) = Ok y /\
                 getitem T i = Ok y) /\
  Forall zero_or_float T.

(** The body shared by [_calculate_raan] and [_calculate_ta]. *)
Definition plane_step (spp : Z) (d : pynum) (T : list pynum) (i : Z)
  : result (list pynum) :=
  prev <- getitem T (i - spp) ;;
  v <- py_add prev d ;;
  setitem T i v.

(** An angle the constructor of a constellation hands to a satellite: an
    [int] of the perigee table or a float. *)
Definition angle_like (x : pynum) : Prop :=
  match x with
  | PyInt z => 0 <= z < 360
  | PyFloat _ => True
  end.

(** The corrected phasing angle can be computed. *)
Definition phasing_ok (num_sats : Z) (phasing : pynum) : bool :=
  is_ok (p <- py_mul (PyInt 360) phasing ;; py_truediv p (PyInt num_sats)).

(** Slot [i] of a constellation: its name and the radian fields its
    satellite received. *)
Definition slot_of (c : Constellation.t) (i : Z) (s : Satellite.t) : Prop :=
  getitem (Constellation.satellites c) i = Ok s /\
  Satellite.name s
  = String.append (Constellation._constellation_name c)
      (str_of_int (i + Constellation._start_num c + 1)) /\
  Satellite._inclination_r s = Constellation._inclination c /\
  getitem (Constellation._raan c) i = Ok (Satellite._right_ascension_r s) /\
  getitem (Constellation._perigee_positions_tbl c) i = Ok (Satellite._perigee_r s) /\
  getitem (Constellation._ta c) i = Ok (Satellite._ta_r s).

(** ** Vocabulary of the further properties *)

(** The names of a list in the order of their first occurrence, leaving out
    those already [seen]: the keys a dictionary ends with when the names are
    assigned one after another. *)
Fixpoint first_occurrences (names : list string) (seen : list string) : list string :=
  match names with
  | [] => []
  | n :: names' =>
      if in_dec string_dec n seen then first_occurrences names' seen
      else n :: first_occurrences names' (n :: seen)
  end.

(** The last satellite of a list that bears the name [k]. *)
Fixpoint last_named (k : string) (sats : list Satellite.t) : option Satellite.t :=
  match sats with
  | [] => None
  | s :: sats' =>
      match last_named k sats' with
      | Some s' => Some s'
      | None => if String.eqb (Satellite.name s) k then Some s else None
      end
  end.

(** Every key is met once and is the name of the satellite stored under it. *)
Definition well_keyed (d : odict Satellite.t) : Prop :=
  NoDup (od_keys d) /\ forall k s, In (k, s) d -> k = Satellite.name s.

(** One pass over a name: a space becomes an underscore, a parenthesis is
    dropped, any other character is kept. *)
Fixpoint sanitize_pass (s : string) : string :=
  match s with
  | EmptyString => EmptyString
  | String c s' =>
      if Ascii.eqb c " " then String "_" (sanitize_pass s')
      else if Ascii.eqb c "(" || Ascii.eqb c ")" then sanitize_pass s'
      else String c (sanitize_pass s')
  end.

(** The names [_build_satellites] gives: the constellation name followed by
    the numbers 1 to [num_sats]. *)
Definition slot_names (name : string) (num_sats : Z) : list string :=
  map (fun i => String.append name (str_of_int (i + 1))) (range1 num_sats).

(** * Properties *)

(** ** The error monad *)

Lemma bind_Ok {A B : Type} (m : result A) (k : A -> result B) (b : B) :
  bind m k = Ok b -> exists a, m = Ok a /\ k a = Ok b.
Proof.
  destruct m as [a|e]; simpl; intros H; [exists a; auto | discriminate].
Qed.

Lemma is_ok_Ok {A : Type} (m : result A) :
  is_ok m = true -> exists a, m = Ok a.
Proof.
  destruct m as [a|e]; simpl; intros H; [exists a; auto | discriminate].
Qed.

(** Splits a hypothesis [x <- m ;; k = Ok b] into [m = Ok x] and [k x = Ok b]. *)
Ltac bind_inv H :=
  let a := fresh "v" in
  let Ha := fresh "E" in
  apply bind_Ok in H; destruct H as (a & Ha & H).

Lemma mapM_length {A B : Type} (f : A -> result B) (xs : list A) (ys : list B) :
  mapM f xs = Ok ys -> List.length ys = List.length xs.
Proof.
  revert ys; induction xs as [|x xs IH]; simpl; intros ys H.
  - inversion H; reflexivity.
  - bind_inv H. bind_inv H. inversion H; subst; simpl. now rewrite (IH v0).
Qed.

(** ** Integer division in binary64 *)

Module FloatFacts.

Lemma digits2_pos_size p : digits2_pos p = Pos.size p.
Proof. induction p; simpl; congruence. Qed.

Lemma Zdigits2_log2 p : Zdigits2 (Zpos p) = Z.log2 (Zpos p) + 1.
Proof.
  unfold Zdigits2. rewrite digits2_pos_size.
  destruct p; simpl; lia.
Qed.

Lemma Zdigits2_bounds p :
  2 ^ (Zdigits2 (Zpos p) - 1) <= Zpos p < 2 ^ Zdigits2 (Zpos p).
Proof.
  rewrite Zdigits2_log2.
  replace (Z.log2 (Z.pos p) + 1 - 1) with (Z.log2 (Zpos p)) by lia.
  apply Z.log2_spec. lia.
Qed.

Lemma Zdigits2_unique x d :
  2 ^ (d - 1) <= x < 2 ^ d -> 0 < d -> Zdigits2 x = d.
Proof.
  intros H Hd. assert (0 < x) by (pose proof (Z.pow_pos_nonneg 2 (d - 1)); lia).
  destruct x as [|p|p]; try lia.
  rewrite Zdigits2_log2.
  rewrite (Z.log2_unique (Zpos p) (d - 1)); try lia.
  replace (Z.succ (d - 1)) with d by lia. exact H.
Qed.

Lemma shr_1_nonneg m r s :
  0 <= m -> shr_1 {| shr_m := m; shr_r := r; shr_s := s |}
  = {| shr_m := m / 2; shr_r := Z.odd m; shr_s := r || s |}.
Proof.
  intros H. destruct m as [|p|p]; try lia; simpl.
  - reflexivity.
  - destruct p; simpl.
    + f_equal. rewrite Pos2Z.inj_xI. apply Z.div_unique with 1; lia.
    + f_equal. rewrite Pos2Z.inj_xO. apply Z.div_unique with 0; lia.
    + reflexivity.
Qed.

Lemma new_location_0 n : new_location n 0 = loc_Exact.
Proof.
  unfold new_location, new_location_even, new_location_odd.
  destruct (Z.even n); reflexivity.
Qed.

Lemma fexp_val x : fexp prec emax x = Z.max (x - 53) (-1074).
Proof. reflexivity. Qed.

Lemma shr_fexp_53 m e l :
  2 ^ 52 <= m < 2 ^ 53 -> -1074 <= e ->
  shr_fexp prec emax m e l = (shr_record_of_loc m l, e).
Proof.
  intros Hm He. unfold shr_fexp.
  rewrite (Zdigits2_unique m 53), fexp_val by (try exact Hm; lia).
  replace (Z.max (53 + e - 53) (-1074) - e) with 0 by lia. reflexivity.
Qed.

Lemma shr_fexp_54 m e l :
  2 ^ 53 <= m < 2 ^ 54 -> -1075 <= e ->
  shr_fexp prec emax m e l = (shr_1 (shr_record_of_loc m l), e + 1).
Proof.
  intros Hm He. unfold shr_fexp.
  rewrite (Zdigits2_unique m 54), fexp_val by (try exact Hm; lia).
  replace (Z.max (54 + e - 53) (-1074) - e) with 1 by lia. reflexivity.
Qed.

Lemma loc_of_shr_record_of_loc m l :
  loc_of_shr_record (shr_record_of_loc m l) = l.
Proof. destruct l as [|[]]; reflexivity. Qed.

Lemma shr_m_of_loc m l : shr_m (shr_record_of_loc m l) = m.
Proof. destruct l as [|[]]; reflexivity. Qed.

Lemma binary_round_aux_finish Q e l :
  binary_round_aux prec emax false Q e l
  = let '(mrs, e') := shr_fexp prec emax Q e l in
    round_finish (round_nearest_even (shr_m mrs) (loc_of_shr_record mrs)) e'.
Proof.
  unfold binary_round_aux, round_finish.
  destruct (shr_fexp prec emax Q e l) as [mrs e']. reflexivity.
Qed.

Lemma round_finish_spec M1 e :
  2 ^ 52 <= M1 <= 2 ^ 53 -> -1074 <= e <= 960 ->
  exists M k,
    round_finish M1 e = S754_finite false M (e + k) /\
    2 ^ 52 <= Zpos M < 2 ^ 53 /\ 0 <= k <= 1 /\ Zpos M * 2 ^ k = M1.
Proof.
  intros HM He. unfold round_finish.
  destruct (Z.ltb_spec M1 (2 ^ 53)) as [Hlt|Hge].
  - rewrite shr_fexp_53 by lia. cbn [shr_record_of_loc shr_m].
    destruct M1 as [|M|M]; try lia.
    exists M, 0. replace (e + 0) with e by lia.
    replace (e <=? emax - prec) with true
      by (symmetry; apply Z.leb_le; change (emax - prec) with 971; lia).
    repeat split; lia.
  - assert (M1 = 2 ^ 53) by lia. subst M1.
    rewrite shr_fexp_54 by lia. cbn [shr_record_of_loc].
    rewrite shr_1_nonneg by lia. cbn [shr_m].
    change (2 ^ 53 / 2) with (Zpos (2 ^ 52)).
    exists (2 ^ 52)%positive, 1.
    replace (e + 1 <=? emax - prec) with true
      by (symmetry; apply Z.leb_le; change (emax - prec) with 971; lia).
    repeat split; try lia; reflexivity.
Qed.

Lemma round_nearest_even_cases m l :
  round_nearest_even m l = m \/
  (round_nearest_even m l = m + 1 /\
   (l = loc_Inexact Eq \/ l = loc_Inexact Gt)).
Proof.
  destruct l as [|[]]; simpl; auto.
  destruct (Z.even m); auto.
Qed.

Lemma binary_round_aux_spec Q e l :
  2 ^ 52 <= Q < 2 ^ 54 -> -1074 <= e <= 900 ->
  exists M k,
    binary_round_aux prec emax false Q e l = S754_finite false M (e + k) /\
    2 ^ 52 <= Zpos M < 2 ^ 53 /\ 0 <= k <= 2 /\
    (Zpos M = Q / 2 ^ k \/
     (Zpos M * 2 ^ k = Q + 1 /\ (l <> loc_Exact \/ Z.odd Q = true))).
Proof.
  intros HQ He. rewrite binary_round_aux_finish.
  destruct (Z.ltb_spec Q (2 ^ 53)) as [Hlt|Hge].
  - rewrite shr_fexp_53 by lia.
    rewrite shr_m_of_loc, loc_of_shr_record_of_loc.
    destruct (round_nearest_even_cases Q l) as [R|[R L]]; rewrite R.
    + destruct (round_finish_spec Q e) as (M & k & F & B & K & V); try lia.
      exists M, k. rewrite F. repeat split; try lia.
      left. assert (k = 0) by (destruct (Z.eq_dec k 0); [auto|];
        assert (k = 1) by lia; subst k; change (2 ^ 1) with 2 in V; lia).
      subst k. change (2 ^ 0) with 1 in *. rewrite Z.div_1_r. lia.
    + destruct (round_finish_spec (Q + 1) e) as (M & k & F & B & K & V); try lia.
      exists M, k. rewrite F. repeat split; try lia.
      right. split; [exact V|]. left. destruct L as [-> | ->]; discriminate.
  - rewrite shr_fexp_54 by lia.
    assert (S1 : shr_1 (shr_record_of_loc Q l)
                 = {| shr_m := Q / 2; shr_r := Z.odd Q;
                      shr_s := shr_r (shr_record_of_loc Q l)
                               || shr_s (shr_record_of_loc Q l) |}).
    { destruct l as [|[]]; cbn [shr_record_of_loc shr_r shr_s];
        apply shr_1_nonneg; lia. }
    rewrite S1. cbn [shr_m].
    assert (HQ2 : 2 ^ 52 <= Q / 2 < 2 ^ 53).
    { split.
      - change (2 ^ 52) with (2 ^ 53 / 2). apply Z.div_le_mono; lia.
      - apply Z.div_lt_upper_bound; [lia|]. change (2 * 2 ^ 53) with (2 ^ 54). lia. }
    match goal with |- context [round_nearest_even ?m ?l'] =>
      destruct (round_nearest_even_cases m l') as [R|[R L]]; rewrite R end.
    + destruct (round_finish_spec (Q / 2) (e + 1)) as (M & k & F & B & K & V); try lia.
      exists M, (1 + k). replace (e + (1 + k)) with (e + 1 + k) by lia.
      rewrite F. repeat split; try lia.
      left. assert (k = 0) by (destruct (Z.eq_dec k 0); [auto|];
        assert (k = 1) by lia; subst k; change (2 ^ 1) with 2 in V; lia).
      subst k. change (2 ^ 0) with 1 in V. change (2 ^ (1 + 0)) with 2. lia.
    + destruct (round_finish_spec (Q / 2 + 1) (e + 1)) as (M & k & F & B & K & V); try lia.
      exists M, (1 + k). replace (e + (1 + k)) with (e + 1 + k) by lia.
      rewrite F. repeat split; try lia.
      right.
      assert (O : Z.odd Q = true).
      { destruct (Z.odd Q); [reflexivity|].
        destruct L as [L|L]; simpl in L;
          destruct (shr_r (shr_record_of_loc Q l) || shr_s (shr_record_of_loc Q l));
          discriminate. }
      split; [|auto].
      rewrite Z.pow_add_r by lia. change (2 ^ 1) with 2.
      pose proof (Zdiv2_odd_eqn Q) as D. rewrite O in D.
      rewrite Z.div2_div in D. lia.
Qed.

Lemma div_eucl_div_mod a b : Z.div_eucl a b = (a / b, a mod b).
Proof. unfold Z.div, Z.modulo. destruct (Z.div_eucl a b); reflexivity. Qed.

Lemma SF64div_ints (a b : positive) s :
  s = - Z.min (Z.max (Zdigits2 (Zpos a) - Zdigits2 (Zpos b) - 53) (-1074)) 0 ->
  1 <= s ->
  SF64div (Z2SF (Zpos a)) (Z2SF (Zpos b))
  = binary_round_aux prec emax false ((Zpos a * 2 ^ s) / Zpos b) (- s)
      (new_location (Zpos b) ((Zpos a * 2 ^ s) mod Zpos b)).
Proof.
  intros Hs Hr.
  unfold SF64div, SFdiv, Z2SF, SFdiv_core_binary. cbv zeta.
  rewrite fexp_val.
  replace (Z.min (Z.max (Zdigits2 (Z.pos a) + 0 - (Zdigits2 (Z.pos b) + 0) - 53) (-1074)) (0 - 0))
    with (- s) by lia.
  replace (0 - 0 - - s) with s by lia.
  destruct s as [|p|p] eqn:Es; try lia.
  rewrite Z.shiftl_mul_pow2 by lia.
  rewrite div_eucl_div_mod. reflexivity.
Qed.

Lemma quotient_window (a b : positive) s :
  Zpos b <= Zpos a -> Zpos a / Zpos b < 2 ^ 50 ->
  s = 53 - Zdigits2 (Zpos a) + Zdigits2 (Zpos b) ->
  3 <= s <= 53 /\
  2 ^ 52 <= (Zpos a * 2 ^ s) / Zpos b < 2 ^ 54 /\
  (Zpos a < 2 ^ 53 -> Zpos b < 2 ^ s).
Proof.
  intros Hle Hq Hs.
  pose proof (Zdigits2_bounds a) as Ha. pose proof (Zdigits2_bounds b) as Hb.
  set (d1 := Zdigits2 (Zpos a)) in *. set (d2 := Zdigits2 (Zpos b)) in *.
  assert (D1 : 1 <= d1) by (unfold d1; simpl; lia).
  assert (D2 : 1 <= d2) by (unfold d2; simpl; lia).
  assert (L : d2 <= d1).
  { destruct (Z_le_gt_dec d2 d1) as [|G]; [assumption|].
    assert (2 ^ d1 <= 2 ^ (d2 - 1)) by (apply Z.pow_le_mono_r; lia). lia. }
  assert (U : d1 <= d2 + 50).
  { destruct (Z_le_gt_dec d1 (d2 + 50)) as [|G]; [assumption|].
    assert (2 ^ (d2 + 50) <= 2 ^ (d1 - 1)) by (apply Z.pow_le_mono_r; lia).
    rewrite Z.pow_add_r in H by lia.
    pose proof (Z.div_mod (Zpos a) (Zpos b) ltac:(lia)) as E.
    pose proof (Z.mod_pos_bound (Zpos a) (Zpos b) ltac:(lia)) as R.
    assert (0 <= Zpos a / Zpos b) by (apply Z.div_pos; lia).
    nia. }
  assert (S3 : 3 <= s <= 53) by lia.
  split; [exact S3|].
  assert (PS : 2 ^ (d1 - 1) * 2 ^ s = 2 ^ 53 * 2 ^ (d2 - 1)).
  { rewrite <- !Z.pow_add_r by lia. f_equal. lia. }
  assert (E1 : 2 ^ d1 = 2 * 2 ^ (d1 - 1)).
  { replace d1 with (1 + (d1 - 1)) at 1 by lia. rewrite Z.pow_add_r by lia. reflexivity. }
  assert (E2 : 2 ^ d2 = 2 * 2 ^ (d2 - 1)).
  { replace d2 with (1 + (d2 - 1)) at 1 by lia. rewrite Z.pow_add_r by lia. reflexivity. }
  assert (PS0 : 0 < 2 ^ s) by (apply Z.pow_pos_nonneg; lia).
  assert (P10 : 0 < 2 ^ (d1 - 1)) by (apply Z.pow_pos_nonneg; lia).
  assert (P20 : 0 < 2 ^ (d2 - 1)) by (apply Z.pow_pos_nonneg; lia).
  split; [split|].
  - apply Z.div_le_lower_bound; [lia|].
    change (2 ^ 52) with 4503599627370496. change (2 ^ 53) with 9007199254740992 in PS. nia.
  - apply Z.div_lt_upper_bound; [lia|].
    change (2 ^ 54) with 18014398509481984. change (2 ^ 53) with 9007199254740992 in PS. nia.
  - intros A53.
    assert (d1 <= 53).
    { destruct (Z_le_gt_dec d1 53) as [|G]; [assumption|].
      assert (2 ^ 53 <= 2 ^ (d1 - 1)) by (apply Z.pow_le_mono_r; lia). lia. }
    assert (2 ^ d2 <= 2 ^ s) by (apply Z.pow_le_mono_r; lia). lia.
Qed.

Lemma valid_53 (M : positive) e :
  2 ^ 52 <= Zpos M < 2 ^ 53 -> -1074 <= e <= 971 ->
  valid_binary (S754_finite false M e) = true.
Proof.
  intros HM He. unfold valid_binary, bounded, canonical_mantissa.
  change (Zpos (digits2_pos M)) with (Zdigits2 (Zpos M)).
  rewrite (Zdigits2_unique (Zpos M) 53), fexp_val by (try exact HM; lia).
  apply andb_true_iff. split.
  - apply Z.eqb_eq. lia.
  - apply Z.leb_le. change (emax - prec) with 971. lia.
Qed.

Lemma int_of_float_finite (M : positive) e :
  2 ^ 52 <= Zpos M < 2 ^ 53 -> -1074 <= e <= 0 ->
  int_of_float (SF2Prim (S754_finite false M e)) = Ok (Zpos M / 2 ^ (- e)).
Proof.
  intros HM He. unfold int_of_float.
  rewrite Prim2SF_SF2Prim by (apply valid_53; lia).
  unfold cond_Zopp. f_equal.
  replace e with (- - e) at 1 by lia.
  change (Z.shiftl (Zpos M) (- - e)) with (Z.shiftr (Zpos M) (- e)).
  apply Z.shiftr_div_pow2. lia.
Qed.

(** [int(a / b)] is the integer quotient, for positive operands whose
    quotient is below [2 ^ 50], when the division is exact or the dividend
    is below [2 ^ 53]. *)
Lemma int_truediv_floor a b :
  0 < b -> b <= a -> a / b < 2 ^ 50 -> (a mod b = 0 \/ a < 2 ^ 53) ->
  exists f, int_truediv a b = Ok f /\ int_of_float f = Ok (a / b).
Proof.
  intros Hb Hab Hq Hcase.
  destruct a as [|a|a]; try lia. destruct b as [|b|b]; try lia.
  set (s := 53 - Zdigits2 (Zpos a) + Zdigits2 (Zpos b)).
  destruct (quotient_window a b s Hab Hq eq_refl) as (S3 & HQ & Hbs).
  unfold int_truediv. replace (Z.pos b =? 0) with false by reflexivity.
  rewrite (SF64div_ints a b s) by (unfold s in *; lia).
  set (Q := Zpos a * 2 ^ s / Zpos b) in *.
  set (l := new_location (Zpos b) ((Zpos a * 2 ^ s) mod Zpos b)).
  destruct (binary_round_aux_spec Q (- s) l HQ ltac:(lia))
    as (M & k & F & BM & K & V).
  rewrite F. cbn [checked]. eexists. split; [reflexivity|].
  rewrite int_of_float_finite by lia. f_equal.
  replace (- (- s + k)) with (s - k) by lia.
  assert (PS : 2 ^ s = 2 ^ k * 2 ^ (s - k)).
  { rewrite <- Z.pow_add_r by lia. f_equal. lia. }
  assert (Pk : 0 < 2 ^ k) by (apply Z.pow_pos_nonneg; lia).
  assert (Psk : 0 < 2 ^ (s - k)) by (apply Z.pow_pos_nonneg; lia).
  assert (Ps : 0 < 2 ^ s) by (apply Z.pow_pos_nonneg; lia).
  assert (QS : Q / 2 ^ s = Zpos a / Zpos b).
  { unfold Q. rewrite Z.div_div by lia. apply Z.div_mul_cancel_r; lia. }
  destruct V as [V|[V C]].
  - rewrite V, Z.div_div, <- PS by lia. exact QS.
  - assert (E : Zpos M / 2 ^ (s - k) = (Q + 1) / 2 ^ s).
    { rewrite <- V, PS, (Z.mul_comm (2 ^ k)). symmetry.
      apply Z.div_mul_cancel_r; lia. }
    rewrite E.
    destruct Hcase as [Hex|H53].
    + exfalso.
      apply Z.mod_divide in Hex; [|lia]. destruct Hex as [q Hq'].
      assert (R0 : (Zpos a * 2 ^ s) mod Zpos b = 0).
      { rewrite Hq'. replace (q * Zpos b * 2 ^ s) with (q * 2 ^ s * Zpos b) by ring.
        apply Z.mod_mul. lia. }
      assert (QE : Q = q * 2 ^ s).
      { unfold Q. rewrite Hq'.
        replace (q * Zpos b * 2 ^ s) with (q * 2 ^ s * Zpos b) by ring.
        apply Z.div_mul. lia. }
      destruct C as [C|C].
      * apply C. unfold l. rewrite R0. apply new_location_0.
      * rewrite QE, Z.odd_mul, Z.odd_pow in C by lia.
        rewrite andb_false_r in C. discriminate.
    + specialize (Hbs H53).
      symmetry. apply Z.div_unique with (Q + 1 - Zpos a / Zpos b * 2 ^ s); [|ring].
      left.
      pose proof (Z.div_mod (Zpos a) (Zpos b) ltac:(lia)) as Ea.
      pose proof (Z.mod_pos_bound (Zpos a) (Zpos b) ltac:(lia)) as Ra.
      set (q := Zpos a / Zpos b) in *. set (r := Zpos a mod Zpos b) in *.
      assert (QE : Q = q * 2 ^ s + (r * 2 ^ s) / Zpos b).
      { unfold Q. rewrite Ea.
        replace ((Zpos b * q + r) * 2 ^ s) with (q * 2 ^ s * Zpos b + r * 2 ^ s) by ring.
        apply Z.div_add_l. lia. }
      assert (RL : 0 <= (r * 2 ^ s) / Zpos b) by (apply Z.div_pos; nia).
      assert (RU : (r * 2 ^ s) / Zpos b < 2 ^ s - 1).
      { apply Z.div_lt_upper_bound; [lia|]. nia. }
      lia.
Qed.

Lemma Zdigits2_le_53 m : 0 <= m < 2 ^ 53 -> 0 <= Zdigits2 m <= 53.
Proof.
  intros H. destruct m as [|p|p]; try lia; [simpl; lia|].
  pose proof (Zdigits2_bounds p) as B.
  assert (1 <= Zdigits2 (Zpos p)) by (simpl; lia).
  destruct (Z_le_gt_dec (Zdigits2 (Zpos p)) 53) as [|G]; [lia|].
  assert (2 ^ 53 <= 2 ^ (Zdigits2 (Zpos p) - 1)) by (apply Z.pow_le_mono_r; lia).
  lia.
Qed.

Lemma shr_fexp_small m l :
  0 <= m < 2 ^ 53 ->
  shr_fexp prec emax m (-1074) l = (shr_record_of_loc m l, -1074).
Proof.
  intros Hm. unfold shr_fexp. rewrite fexp_val.
  pose proof (Zdigits2_le_53 m Hm).
  replace (Z.max (Zdigits2 m + -1074 - 53) (-1074) - -1074) with 0 by lia.
  reflexivity.
Qed.

(** At the smallest exponent a quotient below [2 ^ 53] rounds to zero or to
    a finite value. *)
Lemma binary_round_aux_small Q l :
  0 <= Q < 2 ^ 53 ->
  is_ok (checked (binary_round_aux prec emax false Q (-1074) l)) = true.
Proof.
  intros HQ. rewrite binary_round_aux_finish, shr_fexp_small by exact HQ.
  rewrite shr_m_of_loc, loc_of_shr_record_of_loc.
  set (M1 := round_nearest_even Q l).
  assert (HM : 0 <= M1 <= 2 ^ 53).
  { unfold M1. destruct (round_nearest_even_cases Q l) as [R|[R _]]; rewrite R; lia. }
  destruct (Z.ltb_spec M1 (2 ^ 53)) as [Hlt|Hge].
  - unfold round_finish. rewrite shr_fexp_small by lia.
    cbn [shr_record_of_loc shr_m].
    destruct M1 as [|M|M]; try lia; reflexivity.
  - destruct (round_finish_spec M1 (-1074)) as (M & k & F & _); try lia.
    rewrite F. reflexivity.
Qed.

(** [a / b] raises nothing for a positive dividend below [2 ^ 53] and a
    positive divisor of any size. *)
Lemma int_truediv_ok a b :
  0 < a < 2 ^ 53 -> 0 < b -> is_ok (int_truediv a b) = true.
Proof.
  intros Ha Hb.
  destruct a as [|a|a]; try lia. destruct b as [|b|b]; try lia.
  unfold int_truediv. replace (Z.pos b =? 0) with false by reflexivity.
  pose proof (Zdigits2_bounds a) as Da. pose proof (Zdigits2_bounds b) as Db.
  pose proof (Zdigits2_le_53 (Zpos a) ltac:(lia)) as D53.
  set (d1 := Zdigits2 (Zpos a)) in *. set (d2 := Zdigits2 (Zpos b)) in *.
  assert (D1 : 1 <= d1) by (unfold d1; simpl; lia).
  assert (D2 : 1 <= d2) by (unfold d2; simpl; lia).
  set (s := - Z.min (Z.max (d1 - d2 - 53) (-1074)) 0).
  rewrite (SF64div_ints a b s) by (fold d1 d2; lia).
  assert (PS0 : 0 < 2 ^ s) by (apply Z.pow_pos_nonneg; lia).
  assert (P10 : 0 < 2 ^ (d1 - 1)) by (apply Z.pow_pos_nonneg; lia).
  assert (P20 : 0 < 2 ^ (d2 - 1)) by (apply Z.pow_pos_nonneg; lia).
  assert (E1 : 2 ^ d1 = 2 * 2 ^ (d1 - 1)).
  { replace d1 with (1 + (d1 - 1)) at 1 by lia. rewrite Z.pow_add_r by lia. reflexivity. }
  assert (E2 : 2 ^ d2 = 2 * 2 ^ (d2 - 1)).
  { replace d2 with (1 + (d2 - 1)) at 1 by lia. rewrite Z.pow_add_r by lia. reflexivity. }
  destruct (Z_le_gt_dec (d2 - d1) 1021) as [N|U].
  - (* the quotient has 53 or 54 bits *)
    assert (Hs : s = 53 - d1 + d2) by lia.
    assert (PS : 2 ^ (d1 - 1) * 2 ^ s = 2 ^ 53 * 2 ^ (d2 - 1)).
    { rewrite <- !Z.pow_add_r by lia. f_equal. lia. }
    assert (HQ : 2 ^ 52 <= (Zpos a * 2 ^ s) / Zpos b < 2 ^ 54).
    { split.
      - apply Z.div_le_lower_bound; [lia|].
        change (2 ^ 52) with 4503599627370496.
        change (2 ^ 53) with 9007199254740992 in PS. nia.
      - apply Z.div_lt_upper_bound; [lia|].
        change (2 ^ 54) with 18014398509481984.
        change (2 ^ 53) with 9007199254740992 in PS. nia. }
    destruct (binary_round_aux_spec _ (- s)
                (new_location (Zpos b) ((Zpos a * 2 ^ s) mod Zpos b)) HQ ltac:(lia))
      as (M & k & F & _).
    rewrite F. reflexivity.
  - (* the quotient underflows *)
    assert (Hs : s = 1074) by lia. rewrite Hs.
    apply binary_round_aux_small. split.
    + apply Z.div_pos; nia.
    + apply Z.div_lt_upper_bound; [lia|].
      assert (2 ^ (d1 + 1021) <= 2 ^ (d2 - 1)) by (apply Z.pow_le_mono_r; lia).
      rewrite Z.pow_add_r in H by lia.
      change (2 ^ 1021 * 2 ^ 53) with (2 ^ 1074) in *.
      assert (X : 2 ^ 1021 * 2 ^ 53 = 2 ^ 1074) by reflexivity.
      nia.
Qed.

(** A division that returns, returns a [float]. *)
Lemma py_truediv_is_float x y v :
  py_truediv x y = Ok v -> exists f, v = PyFloat f.
Proof.
  destruct x as [a|a], y as [b|b]; simpl; intros H.
  - bind_inv H. inversion H. eauto.
  - bind_inv H. destruct (b =? 0)%float; [discriminate|]. inversion H. eauto.
  - bind_inv H. destruct (v0 =? 0)%float; [discriminate|]. inversion H. eauto.
  - destruct (b =? 0)%float; [discriminate|]. inversion H. eauto.
Qed.

End FloatFacts.

(** ** Products of floats *)

Module MulFacts.
Import FloatFacts.

Lemma shr_1_m mrs : 0 <= shr_m mrs -> shr_m (shr_1 mrs) = shr_m mrs / 2.
Proof.
  destruct mrs as [m r s]. cbn [shr_m]. intros H.
  rewrite shr_1_nonneg by exact H. reflexivity.
Qed.

Lemma iter_pos_shr_m p :
  forall mrs, 0 <= shr_m mrs ->
  shr_m (iter_pos shr_1 p mrs) = shr_m mrs / 2 ^ Zpos p.
Proof.
  induction p as [p IH|p IH|]; intros mrs H; cbn [iter_pos].
  - assert (H1 : 0 <= shr_m (shr_1 mrs)) by (rewrite shr_1_m by exact H; apply Z.div_pos; lia).
    assert (H2 : 0 <= shr_m (iter_pos shr_1 p (shr_1 mrs)))
      by (rewrite IH by exact H1; apply Z.div_pos; lia).
    rewrite IH by exact H2. rewrite IH by exact H1. rewrite shr_1_m by exact H.
    assert (Pp : 0 < 2 ^ Z.pos p) by (apply Z.pow_pos_nonneg; lia).
    rewrite !Z.div_div by lia. f_equal.
    rewrite Pos2Z.inj_xI.
    replace (2 * Z.pos p + 1) with (1 + Z.pos p + Z.pos p) by lia.
    rewrite !Z.pow_add_r by lia. change (2 ^ 1) with 2. ring.
  - assert (H2 : 0 <= shr_m (iter_pos shr_1 p mrs))
      by (rewrite IH by exact H; apply Z.div_pos; lia).
    rewrite IH by exact H2. rewrite IH by exact H.
    assert (Pp : 0 < 2 ^ Z.pos p) by (apply Z.pow_pos_nonneg; lia).
    rewrite Z.div_div by lia. f_equal.
    rewrite Pos2Z.inj_xO. rewrite <- Z.pow_add_r by lia. f_equal. lia.
  - rewrite shr_1_m by exact H. reflexivity.
Qed.

(** The first shift of a rounding: a mantissa of [53 + n] bits loses [n]. *)
Lemma shr_fexp_shift Q e l n :
  1 <= n -> 2 ^ (52 + n) <= Q < 2 ^ (53 + n) -> -1074 <= e + n ->
  exists mrs, shr_fexp prec emax Q e l = (mrs, e + n) /\ shr_m mrs = Q / 2 ^ n.
Proof.
  intros Hn HQ He. unfold shr_fexp.
  rewrite (Zdigits2_unique Q (53 + n)), fexp_val by (try lia;
    replace (53 + n - 1) with (52 + n) by lia; exact HQ).
  replace (Z.max (53 + n + e - 53) (-1074) - e) with n by lia.
  destruct n as [|p|p]; try lia. cbn [shr].
  eexists. split; [reflexivity|].
  rewrite iter_pos_shr_m; [now rewrite shr_m_of_loc|].
  rewrite shr_m_of_loc.
  assert (0 < 2 ^ (52 + Z.pos p)) by (apply Z.pow_pos_nonneg; lia). lia.
Qed.

(** The sign of a rounding is the sign it is given. *)
Lemma binary_round_aux_sign s Q e l :
  binary_round_aux prec emax s Q e l
  = match binary_round_aux prec emax false Q e l with
    | S754_zero _ => S754_zero s
    | S754_infinity _ => S754_infinity s
    | S754_nan => S754_nan
    | S754_finite _ m e' => S754_finite s m e'
    end.
Proof.
  unfold binary_round_aux.
  destruct (shr_fexp prec emax Q e l) as [mrs' e'].
  destruct (shr_fexp prec emax _ e' loc_Exact) as [mrs'' e''].
  destruct (shr_m mrs''); [reflexivity| |reflexivity].
  destruct (e'' <=? emax - prec); reflexivity.
Qed.

(** Rounding a mantissa of [53 + n] bits: the result is one of the two
    neighbours of the quotient by [2 ^ n]. *)
Lemma binary_round_aux_long s Q e n :
  1 <= n -> 2 ^ (52 + n) <= Q < 2 ^ (53 + n) -> -1074 <= e + n <= 960 ->
  exists M k,
    binary_round_aux prec emax s Q e loc_Exact = S754_finite s M (e + n + k) /\
    2 ^ 52 <= Zpos M < 2 ^ 53 /\ 0 <= k <= 1 /\
    (Zpos M * 2 ^ k = Q / 2 ^ n \/ Zpos M * 2 ^ k = Q / 2 ^ n + 1).
Proof.
  intros Hn HQ He. rewrite binary_round_aux_sign, binary_round_aux_finish.
  destruct (shr_fexp_shift Q e loc_Exact n Hn HQ ltac:(lia)) as (mrs & -> & Hm).
  assert (Pn : 0 < 2 ^ n) by (apply Z.pow_pos_nonneg; lia).
  assert (B : 2 ^ 52 <= Q / 2 ^ n < 2 ^ 53).
  { rewrite !Z.pow_add_r in HQ by lia. split.
    - apply Z.div_le_lower_bound; lia.
    - apply Z.div_lt_upper_bound; lia. }
  rewrite Hm.
  destruct (round_nearest_even_cases (Q / 2 ^ n) (loc_of_shr_record mrs)) as [R|[R _]];
    rewrite R.
  - destruct (round_finish_spec (Q / 2 ^ n) (e + n)) as (M & k & F & BM & K & V); try lia.
    exists M, k. rewrite F. repeat split; try lia.
  - destruct (round_finish_spec (Q / 2 ^ n + 1) (e + n)) as (M & k & F & BM & K & V);
      try lia.
    exists M, k. rewrite F. repeat split; try lia.
Qed.

(** The product of two normal floats, away from overflow and underflow, is
    a normal float within a relative error of [2 ^ -52] of the exact
    product. *)
Lemma mul_normal x y sx mx ex sy my ey :
  Prim2SF x = S754_finite sx mx ex -> Prim2SF y = S754_finite sy my ey ->
  2 ^ 52 <= Zpos mx < 2 ^ 53 -> 2 ^ 52 <= Zpos my < 2 ^ 53 ->
  -1126 <= ex + ey <= 906 ->
  exists M n,
    Prim2SF (x * y) = S754_finite (xorb sx sy) M (ex + ey + n) /\
    2 ^ 52 <= Zpos M < 2 ^ 53 /\ 52 <= n <= 54 /\
    2 ^ 52 * Z.abs (Zpos M * 2 ^ n - Zpos mx * Zpos my) <= Zpos mx * Zpos my.
Proof.
  intros Hx Hy Bx By He.
  rewrite mul_spec, Hx, Hy. unfold SF64mul, SFmul.
  rewrite Pos2Z.inj_mul.
  set (Q := Zpos mx * Zpos my).
  assert (HQ : 2 ^ 104 <= Q < 2 ^ 106).
  { unfold Q. change (2 ^ 104) with (2 ^ 52 * 2 ^ 52).
    change (2 ^ 106) with (2 ^ 53 * 2 ^ 53). nia. }
  assert (C : exists n0, 52 <= n0 <= 53 /\ 2 ^ (52 + n0) <= Q < 2 ^ (53 + n0)).
  { destruct (Z_lt_le_dec Q (2 ^ 105)) as [L|G].
    - exists 52. change (2 ^ (52 + 52)) with (2 ^ 104).
      change (2 ^ (53 + 52)) with (2 ^ 105). lia.
    - exists 53. change (2 ^ (52 + 53)) with (2 ^ 105).
      change (2 ^ (53 + 53)) with (2 ^ 106). lia. }
  destruct C as (n0 & Hn0 & HQ0).
  destruct (binary_round_aux_long (xorb sx sy) Q (ex + ey) n0 ltac:(lia) HQ0 ltac:(lia))
    as (M & k & F & BM & K & V).
  exists M, (n0 + k). rewrite F.
  replace (ex + ey + n0 + k) with (ex + ey + (n0 + k)) by lia.
  split; [reflexivity|]. split; [exact BM|]. split; [lia|].
  assert (Pn : 0 < 2 ^ n0) by (apply Z.pow_pos_nonneg; lia).
  pose proof (Z.div_mod Q (2 ^ n0) ltac:(lia)) as D.
  pose proof (Z.mod_pos_bound Q (2 ^ n0) ltac:(lia)) as R.
  rewrite (Z.add_comm n0 k), Z.pow_add_r by lia.
  rewrite (Z.pow_add_r 2 52 n0) in HQ0 by lia.
  rewrite Z.mul_assoc.
  set (q := Q / 2 ^ n0) in *. set (r := Q mod 2 ^ n0) in *.
  set (P := 2 ^ n0) in *. set (m := Zpos M * 2 ^ k) in *.
  change (2 ^ 52) with 4503599627370496 in *.
  destruct V as [V|V]; rewrite V; nia.
Qed.

(** How [close] is shown for two floats of one sign. *)
Lemma close_intro x y s m e M k :
  Prim2SF x = S754_finite s m e -> Prim2SF y = S754_finite s M (e + k) ->
  (0 <= k -> 2 ^ 50 * Z.abs (Zpos M * 2 ^ k - Zpos m) <= Zpos m) ->
  (k < 0 -> 2 ^ 50 * Z.abs (Zpos M - Zpos m * 2 ^ (- k)) <= Zpos m * 2 ^ (- k)) ->
  close x y = true.
Proof.
  intros Hx Hy P N. unfold close. rewrite Hx, Hy. cbv zeta.
  rewrite eqb_reflx. cbn [andb]. apply Z.leb_le.
  destruct (Z_le_gt_dec 0 k) as [L|G].
  - replace (Z.min e (e + k)) with e by lia.
    replace (e - e) with 0 by lia. replace (e + k - e) with k by lia.
    change (2 ^ 0) with 1. rewrite Z.mul_1_r. exact (P L).
  - replace (Z.min e (e + k)) with (e + k) by lia.
    replace (e - (e + k)) with (- k) by lia. replace (e + k - (e + k)) with 0 by lia.
    change (2 ^ 0) with 1. rewrite Z.mul_1_r. apply N. lia.
Qed.

Lemma to_deg_SF : Prim2SF (180 / pi) = S754_finite false 8063664102031864 (-47).
Proof. vm_compute; reflexivity. Qed.

Lemma to_rad_SF : Prim2SF (pi / 180) = S754_finite false 5030569068109113 (-58).
Proof. vm_compute; reflexivity. Qed.

(** A product chain: the three possible shifts of each rounding. *)
Ltac shifts H := 
  match type of H with
  | 52 <= ?n <= 54 =>
      let C := fresh in
      assert (C : n = 52 \/ n = 53 \/ n = 54) by lia;
      clear H; destruct C as [->|[->| ->]]
  end.

(** Radians to degrees and back. *)
Lemma deg_rad_close v s m e :
  Prim2SF v = S754_finite s m e -> 2 ^ 52 <= Zpos m < 2 ^ 53 -> -1052 <= e <= 947 ->
  close v (v * (180 / pi) * (pi / 180)) = true.
Proof.
  intros Hv Bm Be.
  destruct (mul_normal v (180 / pi) s m e false _ _ Hv to_deg_SF Bm ltac:(lia) ltac:(lia))
    as (M1 & n1 & H1 & B1 & N1 & E1).
  rewrite xorb_false_r in H1.
  destruct (mul_normal _ (pi / 180) s M1 _ false _ _ H1 to_rad_SF B1 ltac:(lia) ltac:(lia))
    as (M2 & n2 & H2 & B2 & N2 & E2).
  rewrite xorb_false_r in H2.
  replace (e + -47 + n1 + -58 + n2) with (e + (n1 + n2 - 105)) in H2 by lia.
  apply (close_intro _ _ s m e M2 (n1 + n2 - 105) Hv H2);
    shifts N1; shifts N2; intros K; try lia;
    cbn [Z.add Z.sub Z.opp Pos.add Pos.succ Z.pos_sub Pos.pred_double Z.succ_double
         Z.pred_double Z.double] in *;
    change (2 ^ 52) with 4503599627370496 in *;
    change (2 ^ 53) with 9007199254740992 in *;
    change (2 ^ 54) with 18014398509481984 in *;
    change (2 ^ 50) with 1125899906842624 in *;
    change (2 ^ 0) with 1 in *; change (2 ^ 1) with 2 in *;
    change (2 ^ 2) with 4 in *; change (2 ^ 3) with 8 in *;
    lia.
Qed.

(** Degrees to radians and back. *)
Lemma rad_deg_close v s m e :
  Prim2SF v = S754_finite s m e -> 2 ^ 52 <= Zpos m < 2 ^ 53 -> -1052 <= e <= 947 ->
  close v (v * (pi / 180) * (180 / pi)) = true.
Proof.
  intros Hv Bm Be.
  destruct (mul_normal v (pi / 180) s m e false _ _ Hv to_rad_SF Bm ltac:(lia) ltac:(lia))
    as (M1 & n1 & H1 & B1 & N1 & E1).
  rewrite xorb_false_r in H1.
  destruct (mul_normal _ (180 / pi) s M1 _ false _ _ H1 to_deg_SF B1 ltac:(lia) ltac:(lia))
    as (M2 & n2 & H2 & B2 & N2 & E2).
  rewrite xorb_false_r in H2.
  replace (e + -58 + n1 + -47 + n2) with (e + (n1 + n2 - 105)) in H2 by lia.
  apply (close_intro _ _ s m e M2 (n1 + n2 - 105) Hv H2);
    shifts N1; shifts N2; intros K; try lia;
    cbn [Z.add Z.sub Z.opp Pos.add Pos.succ Z.pos_sub Pos.pred_double Z.succ_double
         Z.pred_double Z.double] in *;
    change (2 ^ 52) with 4503599627370496 in *;
    change (2 ^ 53) with 9007199254740992 in *;
    change (2 ^ 54) with 18014398509481984 in *;
    change (2 ^ 50) with 1125899906842624 in *;
    change (2 ^ 0) with 1 in *; change (2 ^ 1) with 2 in *;
    change (2 ^ 2) with 4 in *; change (2 ^ 3) with 8 in *;
    lia.
Qed.

(** The mantissa of a float has at most 53 bits. *)
Lemma mantissa_53 v s m e : Prim2SF v = S754_finite s m e -> Zpos m < 2 ^ 53.
Proof.
  intros H. pose proof (Prim2SF_valid v) as V. rewrite H in V.
  unfold SpecFloat.valid_binary, bounded, canonical_mantissa in V.
  apply andb_true_iff in V as [V _]. apply Z.eqb_eq in V.
  change (Zpos (digits2_pos m)) with (Zdigits2 (Zpos m)) in V.
  rewrite fexp_val in V.
  pose proof (Zdigits2_bounds m) as B.
  assert (D : Zdigits2 (Zpos m) <= 53) by lia.
  assert (2 ^ Zdigits2 (Zpos m) <= 2 ^ 53) by (apply Z.pow_le_mono_r; lia).
  lia.
Qed.

Lemma in_range_cases v :
  float_in_range v = true ->
  (exists s, Prim2SF v = S754_zero s) \/
  (exists s m e, Prim2SF v = S754_finite s m e /\
                 2 ^ 52 <= Zpos m < 2 ^ 53 /\ -1052 <= e <= 947).
Proof.
  unfold float_in_range. intros H.
  destruct (Prim2SF v) as [s| | |s m e] eqn:E; try discriminate.
  - left. eauto.
  - right. exists s, m, e.
    apply andb_true_iff in H as [H H3]. apply andb_true_iff in H as [H1 H2].
    apply Z.leb_le in H1, H2, H3.
    pose proof (mantissa_53 v s m e E). repeat split; try lia.
Qed.

Lemma mul_zero v s c sc mc ec :
  Prim2SF v = S754_zero s -> Prim2SF c = S754_finite sc mc ec ->
  Prim2SF (v * c) = S754_zero (xorb s sc).
Proof. intros Hv Hc. rewrite mul_spec, Hv, Hc. reflexivity. Qed.

(** A value in range survives a conversion and the conversion back, in
    either order, to within [2 ^ -50]. *)
Lemma round_trip_close v :
  float_in_range v = true ->
  close v (v * (180 / pi) * (pi / 180)) = true /\
  close v (v * (pi / 180) * (180 / pi)) = true.
Proof.
  intros H. destruct (in_range_cases v H) as [[s Hz]|(s & m & e & Hv & Bm & Be)].
  - split; unfold close; rewrite Hz.
    + rewrite (mul_zero _ _ _ _ _ _ (mul_zero _ _ _ _ _ _ Hz to_deg_SF) to_rad_SF).
      reflexivity.
    + rewrite (mul_zero _ _ _ _ _ _ (mul_zero _ _ _ _ _ _ Hz to_rad_SF) to_deg_SF).
      reflexivity.
  - split; [eapply deg_rad_close|eapply rad_deg_close]; eassumption.
Qed.

(** A finite non-zero float is not equal to the integer 0. *)
Lemma finite_not_zero d s m e :
  Prim2SF d = S754_finite s m e -> float_eqb_int d 0 = false.
Proof.
  intros H. unfold float_eqb_int. rewrite H.
  destruct (Z.leb_spec 0 e) as [L|G].
  - apply Z.eqb_neq. assert (0 < 2 ^ e) by (apply Z.pow_pos_nonneg; lia).
    assert (0 < Zpos m * 2 ^ e) by nia.
    destruct s; unfold cond_Zopp; lia.
  - assert (P : 0 < 2 ^ (- e)) by (apply Z.pow_pos_nonneg; lia).
    pose proof (Z.div_mod (Zpos m) (2 ^ (- e)) ltac:(lia)) as D.
    destruct (Z.eqb_spec (Zpos m mod 2 ^ (- e)) 0) as [E0|]; [|reflexivity].
    cbn [andb]. apply Z.eqb_neq.
    assert (Zpos m / 2 ^ (- e) <> 0) by nia.
    destruct s; unfold cond_Zopp; lia.
Qed.

(** A float that is not equal to the integer 0 is not a zero. *)
Lemma not_zero_finite d :
  float_eqb_int d 0 = false -> float_in_range d = true ->
  exists s m e, Prim2SF d = S754_finite s m e /\
                2 ^ 52 <= Zpos m < 2 ^ 53 /\ -1052 <= e <= 947.
Proof.
  intros N R. destruct (in_range_cases d R) as [[s Hz]|F]; [|exact F].
  unfold float_eqb_int in N. rewrite Hz in N. discriminate.
Qed.

(** The product of a non-zero value in range with a conversion factor is
    finite, hence true in a condition. *)
Lemma converted_finite v s m e :
  Prim2SF v = S754_finite s m e -> 2 ^ 52 <= Zpos m < 2 ^ 53 -> -1052 <= e <= 947 ->
  float_eqb_int (v * (180 / pi)) 0 = false /\
  float_eqb_int (v * (pi / 180)) 0 = false.
Proof.
  intros Hv Bm Be. split.
  - destruct (mul_normal v (180 / pi) s m e false _ _ Hv to_deg_SF Bm ltac:(lia) ltac:(lia))
      as (M1 & n1 & H1 & _). eapply finite_not_zero. exact H1.
  - destruct (mul_normal v (pi / 180) s m e false _ _ Hv to_rad_SF Bm ltac:(lia) ltac:(lia))
      as (M1 & n1 & H1 & _). eapply finite_not_zero. exact H1.
Qed.

End MulFacts.

(** ** Name sanitization *)

Module CleanName.

Lemma has_append c s1 s2 :
  has c (String.append s1 s2) = has c s1 || has c s2.
Proof.
  induction s1 as [|c' s1 IH]; simpl; [reflexivity|].
  now rewrite IH, orb_assoc.
Qed.

(** Replacing [c] leaves no [c] behind, unless the replacement brings one. *)
Lemma has_replace_same c new s :
  has c new = false -> has c (replace c new s) = false.
Proof.
  intros Hnew; induction s as [|c' s IH]; simpl; [reflexivity|].
  destruct (Ascii.eqb c' c) eqn:E.
  - now rewrite has_append, Hnew, IH.
  - simpl. now rewrite E, IH.
Qed.

(** Replacing another character does not bring [c] back. *)
Lemma has_replace_other c d new s :
  has c new = false -> has c s = false -> has c (replace d new s) = false.
Proof.
  intros Hnew; induction s as [|c' s IH]; simpl; [reflexivity|].
  intros H. apply orb_false_iff in H as [H1 H2].
  destruct (Ascii.eqb c' d).
  - now rewrite has_append, Hnew, IH.
  - simpl. now rewrite H1, IH.
Qed.

Lemma replace_absent c new s :
  has c s = false -> replace c new s = s.
Proof.
  induction s as [|c' s IH]; simpl; [reflexivity|].
  intros H. apply orb_false_iff in H as [H1 H2].
  now rewrite H1, IH.
Qed.

Lemma clean_name_has_none x :
  has " " (clean_name x) = false /\
  has "(" (clean_name x) = false /\
  has ")" (clean_name x) = false.
Proof.
  unfold clean_name. repeat split.
  - apply has_replace_other; [reflexivity|].
    apply has_replace_other; [reflexivity|].
    apply has_replace_same; reflexivity.
  - apply has_replace_other; [reflexivity|].
    apply has_replace_same; reflexivity.
  - apply has_replace_same; reflexivity.
Qed.

(** The three chained replacements are one pass over the name. *)
Lemma clean_name_pass s : clean_name s = sanitize_pass s.
Proof.
  unfold clean_name. induction s as [|c s IH]; [reflexivity|].
  cbn [replace sanitize_pass].
  destruct (Ascii.eqb_spec c " ") as [->|N1].
  - cbn. rewrite IH. reflexivity.
  - cbn [replace]. destruct (Ascii.eqb_spec c "(") as [->|N2].
    + cbn. exact IH.
    + cbn [replace orb]. destruct (Ascii.eqb_spec c ")") as [->|N3].
      * cbn. exact IH.
      * rewrite IH. reflexivity.
Qed.

End CleanName.

(** C7.  Name sanitization is idempotent, [clean_name (clean_name x)] is
    [clean_name x] for every string [x], and it maps ["ISS (ZARYA)"] to
    ["ISS_ZARYA"].  It turns every space into an underscore, removes every
    parenthesis and keeps every other character: the empty name is kept,
    and a name that begins with a character [c] becomes the sanitized rest
    behind an underscore when [c] is a space, the sanitized rest alone when
    [c] is a parenthesis, and the sanitized rest behind [c] otherwise; the
    result holds no space and no parenthesis. *)
Theorem clean_name_idempotent :
  (forall x : string, clean_name (clean_name x) = clean_name x) /\
  clean_name "ISS (ZARYA)" = "ISS_ZARYA"%string /\
  clean_name "" = ""%string /\
  (forall c x,
     clean_name (String c x)
     = if Ascii.eqb c " " then String "_" (clean_name x)
       else if Ascii.eqb c "(" || Ascii.eqb c ")" then clean_name x
       else String c (clean_name x)) /\
  (forall x, has " " (clean_name x) = false /\
             has "(" (clean_name x) = false /\
             has ")" (clean_name x) = false).
Proof.
  split; [|split; [reflexivity|split; [reflexivity|split]]].
  - intros x. destruct (CleanName.clean_name_has_none x) as (Hs & Ho & Hc).
    unfold clean_name at 1.
    rewrite (CleanName.replace_absent " " "_" _ Hs).
    rewrite (CleanName.replace_absent "(" "" _ Ho).
    apply CleanName.replace_absent, Hc.
  - intros c x. rewrite !CleanName.clean_name_pass. reflexivity.
  - apply CleanName.clean_name_has_none.
Qed.

(** ** Satellite construction *)

Module SatelliteFacts.

(** [180 / pi] and [pi / 180] as the conversion methods compute them. *)
Lemma to_deg_value : py_truediv (PyInt 180) (PyFloat pi) = Ok (PyFloat (180 / pi)).
Proof. reflexivity. Qed.

Lemma to_rad_value : py_truediv (PyFloat pi) (PyInt 180) = Ok (PyFloat (pi / 180)).
Proof. reflexivity. Qed.

(** What the constructor stores, by the [rads] flag. *)
Lemma init_fields ext name altitude eccentricity inclination right_ascension
    perigee ta effective_area focus rads s :
  Satellite.__init__ ext name altitude eccentricity inclination right_ascension
    perigee ta effective_area focus rads = Ok s ->
  Satellite._name s = name /\
  Satellite._altitude s = altitude /\
  Satellite._eccentricity s = eccentricity /\
  Satellite._effective_area s = effective_area /\
  Satellite._compute_position ext altitude eccentricity
    (Satellite._inclination_r s) (Satellite._perigee_r s)
    (Satellite._right_ascension_r s)
  = Ok (Satellite._ra s, Satellite._dec s, Satellite._xyz s) /\
  (if rads then
     Satellite._convert_to_degs inclination right_ascension perigee ta None
     = Ok (Satellite.Four (Satellite._inclination s) (Satellite._right_ascension s)
             (Satellite._perigee s) (Satellite._ta s)) /\
     (Satellite._inclination_r s, Satellite._right_ascension_r s,
      Satellite._perigee_r s, Satellite._ta_r s)
     = (inclination, right_ascension, perigee, ta)
   else
     Satellite._convert_to_rads inclination right_ascension perigee ta None
     = Ok (Satellite.Four (Satellite._inclination_r s)
             (Satellite._right_ascension_r s)
             (Satellite._perigee_r s) (Satellite._ta_r s)) /\
     (Satellite._inclination s, Satellite._right_ascension s,
      Satellite._perigee s, Satellite._ta s)
     = (inclination, right_ascension, perigee, ta)).
Proof.
  unfold Satellite.__init__. intros H.
  bind_inv H. bind_inv H. bind_inv H. bind_inv H.
  destruct v2 as [[[[inc raan] per] ta_d] [[[inc_r raan_r] per_r] ta_r]].
  bind_inv H. destruct v2 as [[ra dec] xyz].
  inversion H; subst; clear H; simpl.
  repeat (split; [reflexivity|]).
  split; [assumption|].
  destruct rads; simpl in E2.
  - bind_inv E2. bind_inv E2. inversion E2; subst; clear E2.
    destruct v2 as [x|i r p a]; [discriminate|].
    inversion E5; subst. auto.
  - bind_inv E2. bind_inv E2. inversion E2; subst; clear E2.
    destruct v2 as [x|i r p a]; [discriminate|].
    inversion E5; subst. auto.
Qed.

(** The four angles a conversion returns without a [value]. *)
Lemma convert_to_degs_None i r p a i' r' p' a' :
  Satellite._convert_to_degs i r p a None = Ok (Satellite.Four i' r' p' a') ->
  py_mul i (PyFloat (180 / pi)) = Ok i' /\
  py_mul r (PyFloat (180 / pi)) = Ok r' /\
  py_mul p (PyFloat (180 / pi)) = Ok p' /\
  py_mul a (PyFloat (180 / pi)) = Ok a'.
Proof.
  unfold Satellite._convert_to_degs. rewrite to_deg_value. simpl.
  intros H. bind_inv H. bind_inv H. bind_inv H. bind_inv H.
  inversion H; subst. auto.
Qed.

Lemma convert_to_rads_None i r p a i' r' p' a' :
  Satellite._convert_to_rads i r p a None = Ok (Satellite.Four i' r' p' a') ->
  py_mul i (PyFloat (pi / 180)) = Ok i' /\
  py_mul r (PyFloat (pi / 180)) = Ok r' /\
  py_mul p (PyFloat (pi / 180)) = Ok p' /\
  py_mul a (PyFloat (pi / 180)) = Ok a'.
Proof.
  unfold Satellite._convert_to_rads. rewrite to_rad_value. simpl.
  intros H. bind_inv H. bind_inv H. bind_inv H. bind_inv H.
  inversion H; subst. auto.
Qed.

(** A constructed satellite has an altitude that converts to a float. *)
Lemma init_altitude ext name altitude eccentricity inclination right_ascension
    perigee ta effective_area focus rads s :
  Satellite.__init__ ext name altitude eccentricity inclination right_ascension
    perigee ta effective_area focus rads = Ok s ->
  is_ok (Satellite.altitude s) = true.
Proof.
  intros H. pose proof (init_fields _ _ _ _ _ _ _ _ _ _ _ _ H) as (_ & A & _).
  unfold Satellite.__init__ in H. bind_inv H.
  unfold Satellite.altitude. rewrite A, E. reflexivity.
Qed.

End SatelliteFacts.

(** ** Angles stored twice *)

Module PairFacts.

Lemma product_float x c y :
  py_mul x (PyFloat c) = Ok y ->
  exists g, py_float x = Ok g /\ y = PyFloat (g * c).
Proof.
  destruct x as [z|f]; cbn [py_mul py_float bind]; intros H.
  - bind_inv H. inversion H. eauto.
  - inversion H. eauto.
Qed.

Lemma pair_deg x y :
  py_mul x (PyFloat (180 / pi)) = Ok y -> stored_pair (180 / pi) (pi / 180) x y.
Proof.
  intros H. split; [exact H|]. intros R.
  destruct (product_float _ _ _ H) as (g & G & ->).
  unfold angle_in_range in R. rewrite G in R.
  exists g, (g * (180 / pi) * (pi / 180))%float.
  split; [exact G|]. split; [reflexivity|].
  apply MulFacts.round_trip_close, R.
Qed.

Lemma pair_rad x y :
  py_mul x (PyFloat (pi / 180)) = Ok y -> stored_pair (pi / 180) (180 / pi) x y.
Proof.
  intros H. split; [exact H|]. intros R.
  destruct (product_float _ _ _ H) as (g & G & ->).
  unfold angle_in_range in R. rewrite G in R.
  exists g, (g * (pi / 180) * (180 / pi))%float.
  split; [exact G|]. split; [reflexivity|].
  apply MulFacts.round_trip_close, R.
Qed.

(** A value whose float is not zero is true in a condition. *)
Lemma truthy_nonzero v g :
  py_float v = Ok g -> float_eqb_int g 0 = false ->
  Satellite.truthy (Some v) = Some v.
Proof.
  intros G N. unfold Satellite.truthy.
  destruct v as [z|f]; cbn [py_eqb py_float] in *.
  - destruct (Z.eqb_spec z 0) as [->|]; [|reflexivity].
    vm_compute in G. inversion G; subst g. vm_compute in N. discriminate.
  - inversion G; subst g. now rewrite N.
Qed.

Lemma to_degs_value i r p a v g :
  py_float v = Ok g -> float_eqb_int g 0 = false ->
  Satellite._convert_to_degs i r p a (Some v)
  = Ok (Satellite.One (PyFloat (g * (180 / pi)))).
Proof.
  intros G N. unfold Satellite._convert_to_degs.
  rewrite SatelliteFacts.to_deg_value. cbn [bind].
  rewrite (truthy_nonzero v g G N).
  destruct v as [z|f]; cbn [py_mul py_float bind] in *.
  - rewrite G. reflexivity.
  - inversion G. reflexivity.
Qed.

Lemma to_rads_value i r p a v g :
  py_float v = Ok g -> float_eqb_int g 0 = false ->
  Satellite._convert_to_rads i r p a (Some v)
  = Ok (Satellite.One (PyFloat (g * (pi / 180)))).
Proof.
  intros G N. unfold Satellite._convert_to_rads.
  rewrite SatelliteFacts.to_rad_value. cbn [bind].
  rewrite (truthy_nonzero v g G N).
  destruct v as [z|f]; cbn [py_mul py_float bind] in *.
  - rewrite G. reflexivity.
  - inversion G. reflexivity.
Qed.

End PairFacts.

(** C9.  The derived position does not depend on the true anomaly: two
    satellites constructed from the same altitude, eccentricity, inclination,
    RAAN, argument of perigee and focus (in the same unit), with any two true
    anomalies, have the same Cartesian position and the same sky coordinates. *)
Theorem position_independent_of_ta ext name1 name2 altitude eccentricity
    inclination right_ascension perigee ta1 ta2 area1 area2 focus rads s1 s2 :
  Satellite.__init__ ext name1 altitude eccentricity inclination right_ascension
    perigee ta1 area1 focus rads = Ok s1 ->
  Satellite.__init__ ext name2 altitude eccentricity inclination right_ascension
    perigee ta2 area2 focus rads = Ok s2 ->
  Satellite.xyz s1 = Satellite.xyz s2 /\
  Satellite.ra s1 = Satellite.ra s2 /\
  Satellite.dec s1 = Satellite.dec s2.
Proof.
  intros H1 H2.
  apply SatelliteFacts.init_fields in H1 as (_ & _ & _ & _ & P1 & A1).
  apply SatelliteFacts.init_fields in H2 as (_ & _ & _ & _ & P2 & A2).
  assert (R : (Satellite._inclination_r s1, Satellite._perigee_r s1,
               Satellite._right_ascension_r s1)
              = (Satellite._inclination_r s2, Satellite._perigee_r s2,
                 Satellite._right_ascension_r s2)).
  { destruct rads.
    - destruct A1 as [_ A1], A2 as [_ A2]. congruence.
    - destruct A1 as [A1 _], A2 as [A2 _].
      apply SatelliteFacts.convert_to_rads_None in A1 as (I1 & R1 & G1 & _).
      apply SatelliteFacts.convert_to_rads_None in A2 as (I2 & R2 & G2 & _).
      congruence. }
  inversion R as [[Ri Rp Rr]]. rewrite Ri, Rp, Rr in P1. rewrite P1 in P2.
  unfold Satellite.xyz, Satellite.ra, Satellite.dec.
  inversion P2; auto.
Qed.

(** Two satellites that differ in name, effective area and true anomaly. *)
Lemma position_independent_of_ta_witness :
  exists s1 s2,
    Satellite.__init__ on_x_axis "a" (PyInt 550) (PyInt 0) (PyInt 53) (PyInt 180)
      (PyInt 120) (PyInt 0) (PyFloat 1) "earth" false = Ok s1 /\
    Satellite.__init__ on_x_axis "b" (PyInt 550) (PyInt 0) (PyInt 53) (PyInt 180)
      (PyInt 120) (PyFloat 60) (PyFloat 2) "earth" false = Ok s2 /\
    Satellite.xyz s1 = Satellite.xyz s2 /\
    Satellite.ra s1 = Satellite.ra s2 /\
    Satellite.dec s1 = Satellite.dec s2.
Proof.
  eexists. eexists.
  split; [vm_compute; reflexivity|].
  split; [vm_compute; reflexivity|].
  apply (position_independent_of_ta on_x_axis "a" "b" (PyInt 550) (PyInt 0)
           (PyInt 53) (PyInt 180) (PyInt 120) (PyInt 0) (PyFloat 60)
           (PyFloat 1) (PyFloat 2) "earth" false);
    vm_compute; reflexivity.
Defined.

(** C5 (as amended).  A satellite stores each of its four angles twice.  The
    derived value is exactly the product the constructor computes: built
    from degrees, radians are degrees times [pi / 180]; built from radians
    (the default), degrees are radians times [180 / pi].  For an angle that
    is zero or of magnitude at least [2 ^ -1000] and below [2 ^ 1000], the
    derived value converted back is the given value to within a relative
    error of [2 ^ -50], so [radians = degrees * pi / 180] holds to that
    tolerance for a satellite built from radians as well.  The conversion
    methods, called with a non-zero value in that range, round-trip to
    within [2 ^ -50] in both directions. *)
Theorem angles_degree_radian ext name altitude eccentricity inclination
    right_ascension perigee ta effective_area focus rads s :
  Satellite.__init__ ext name altitude eccentricity inclination right_ascension
    perigee ta effective_area focus rads = Ok s ->
  (if rads then
     stored_pair (180 / pi) (pi / 180)
       (Satellite._inclination_r s) (Satellite._inclination s) /\
     stored_pair (180 / pi) (pi / 180)
       (Satellite._right_ascension_r s) (Satellite._right_ascension s) /\
     stored_pair (180 / pi) (pi / 180)
       (Satellite._perigee_r s) (Satellite._perigee s) /\
     stored_pair (180 / pi) (pi / 180) (Satellite._ta_r s) (Satellite._ta s)
   else
     stored_pair (pi / 180) (180 / pi)
       (Satellite._inclination s) (Satellite._inclination_r s) /\
     stored_pair (pi / 180) (180 / pi)
       (Satellite._right_ascension s) (Satellite._right_ascension_r s) /\
     stored_pair (pi / 180) (180 / pi)
       (Satellite._perigee s) (Satellite._perigee_r s) /\
     stored_pair (pi / 180) (180 / pi) (Satellite._ta s) (Satellite._ta_r s)) /\
  forall v g,
    py_float v = Ok g -> float_in_range g = true -> float_eqb_int g 0 = false ->
    let to_degs := Satellite._convert_to_degs (Satellite._inclination_r s)
                      (Satellite._right_ascension_r s) (Satellite._perigee_r s)
                      (Satellite._ta_r s) in
    let to_rads := Satellite._convert_to_rads (Satellite._inclination s)
                      (Satellite._right_ascension s) (Satellite._perigee s)
                      (Satellite._ta s) in
    (to_degs (Some v) = Ok (Satellite.One (PyFloat (g * (180 / pi)))) /\
     to_rads (Some (PyFloat (g * (180 / pi))))
     = Ok (Satellite.One (PyFloat (g * (180 / pi) * (pi / 180)))) /\
     close g (g * (180 / pi) * (pi / 180)) = true) /\
    (to_rads (Some v) = Ok (Satellite.One (PyFloat (g * (pi / 180)))) /\
     to_degs (Some (PyFloat (g * (pi / 180))))
     = Ok (Satellite.One (PyFloat (g * (pi / 180) * (180 / pi)))) /\
     close g (g * (pi / 180) * (180 / pi)) = true).
Proof.
  intros H. split.
  - apply SatelliteFacts.init_fields in H as (_ & _ & _ & _ & _ & A).
    destruct rads; destruct A as [A R]; inversion R as [[Ri Rr Rp Ra]].
    + rewrite Ri, Rr, Rp, Ra.
      apply SatelliteFacts.convert_to_degs_None in A as (A1 & A2 & A3 & A4).
      repeat split; apply PairFacts.pair_deg; assumption.
    + rewrite Ri, Rr, Rp, Ra.
      apply SatelliteFacts.convert_to_rads_None in A as (A1 & A2 & A3 & A4).
      repeat split; apply PairFacts.pair_rad; assumption.
  - intros v g G R N. cbv zeta.
    destruct (MulFacts.not_zero_finite g N R) as (sg & m & e & Hg & Bm & Be).
    destruct (MulFacts.converted_finite g sg m e Hg Bm Be) as [Nd Nr].
    destruct (MulFacts.round_trip_close g R) as [C1 C2].
    split; (split; [|split]);
      first [ apply PairFacts.to_degs_value; [assumption + reflexivity|assumption]
            | apply PairFacts.to_rads_value; [assumption + reflexivity|assumption]
            | assumption ].
Qed.

(** A satellite built from degrees, and the value 45 converted. *)
Lemma angles_degree_radian_witness :
  exists s,
    Satellite.__init__ on_x_axis "det1" (PyInt 550) (PyInt 0) (PyInt 53)
      (PyFloat 180) (PyInt 120) (PyFloat 60) (PyFloat 1) "earth" false = Ok s /\
    (stored_pair (pi / 180) (180 / pi)
       (Satellite._inclination s) (Satellite._inclination_r s) /\
     stored_pair (pi / 180) (180 / pi)
       (Satellite._right_ascension s) (Satellite._right_ascension_r s) /\
     stored_pair (pi / 180) (180 / pi)
       (Satellite._perigee s) (Satellite._perigee_r s) /\
     stored_pair (pi / 180) (180 / pi) (Satellite._ta s) (Satellite._ta_r s)) /\
    forall v g,
      py_float v = Ok g -> float_in_range g = true -> float_eqb_int g 0 = false ->
      let to_degs := Satellite._convert_to_degs (Satellite._inclination_r s)
                        (Satellite._right_ascension_r s) (Satellite._perigee_r s)
                        (Satellite._ta_r s) in
      let to_rads := Satellite._convert_to_rads (Satellite._inclination s)
                        (Satellite._right_ascension s) (Satellite._perigee s)
                        (Satellite._ta s) in
      (to_degs (Some v) = Ok (Satellite.One (PyFloat (g * (180 / pi)))) /\
       to_rads (Some (PyFloat (g * (180 / pi))))
       = Ok (Satellite.One (PyFloat (g * (180 / pi) * (pi / 180)))) /\
       close g (g * (180 / pi) * (pi / 180)) = true) /\
      (to_rads (Some v) = Ok (Satellite.One (PyFloat (g * (pi / 180)))) /\
       to_degs (Some (PyFloat (g * (pi / 180))))
       = Ok (Satellite.One (PyFloat (g * (pi / 180) * (180 / pi)))) /\
       close g (g * (pi / 180) * (180 / pi)) = true).
Proof.
  eexists. split; [vm_compute; reflexivity|].
  apply (angles_degree_radian on_x_axis "det1" (PyInt 550) (PyInt 0) (PyInt 53)
           (PyFloat 180) (PyInt 120) (PyFloat 60) (PyFloat 1) "earth" false).
  vm_compute; reflexivity.
Defined.

(** C5 as stated fails in binary64.  A satellite built from an inclination of
    9 radians stores 9 and [9 * (180 / pi)] degrees, and that degree value
    times [pi / 180] is not 9; the conversion of 9 to degrees and back is not
    9, and the conversion of 3 to radians and back is not 3.  Outside the
    normal range the relation fails beyond any tolerance: an inclination of
    [2 ** 1020] radians is stored as infinitely many degrees, and one of
    [2 ** -1074] degrees as 0 radians. *)
Lemma degree_radian_not_exact :
  exists s back,
    Satellite.__init__ on_x_axis "det1" (PyInt 550) (PyInt 0) (PyFloat 9)
      (PyInt 0) (PyInt 0) (PyInt 0) (PyFloat 1) "earth" true = Ok s /\
    Satellite._inclination_r s = PyFloat 9 /\
    py_mul (Satellite._inclination s) (PyFloat (pi / 180)) = Ok back /\
    py_eqb back (Satellite._inclination_r s) = false /\
    (exists d r,
        Satellite._convert_to_degs (PyInt 0) (PyInt 0) (PyInt 0) (PyInt 0)
          (Some (PyFloat 9)) = Ok (Satellite.One d) /\
        Satellite._convert_to_rads (PyInt 0) (PyInt 0) (PyInt 0) (PyInt 0)
          (Some d) = Ok (Satellite.One r) /\
        py_eqb r (PyFloat 9) = false) /\
    (exists r d,
        Satellite._convert_to_rads (PyInt 0) (PyInt 0) (PyInt 0) (PyInt 0)
          (Some (PyFloat 3)) = Ok (Satellite.One r) /\
        Satellite._convert_to_degs (PyInt 0) (PyInt 0) (PyInt 0) (PyInt 0)
          (Some r) = Ok (Satellite.One d) /\
        py_eqb d (PyFloat 3) = false) /\
    (exists s' back',
        Satellite.__init__ on_x_axis "det1" (PyInt 550) (PyInt 0)
          (PyFloat 0x1p+1020) (PyInt 0) (PyInt 0) (PyInt 0) (PyFloat 1) "earth" true
        = Ok s' /\
        Satellite._inclination s' = PyFloat infinity /\
        py_mul (Satellite._inclination s') (PyFloat (pi / 180)) = Ok (PyFloat back') /\
        close 0x1p+1020 back' = false) /\
    (exists s' back',
        Satellite.__init__ on_x_axis "det1" (PyInt 550) (PyInt 0)
          (PyFloat 0x1p-1074) (PyInt 0) (PyInt 0) (PyInt 0) (PyFloat 1) "earth" false
        = Ok s' /\
        Satellite._inclination_r s' = PyFloat 0 /\
        py_mul (Satellite._inclination_r s') (PyFloat (180 / pi)) = Ok (PyFloat back') /\
        close 0x1p-1074 back' = false).
Proof.
  eexists. eexists.
  split; [vm_compute; reflexivity|].
  split; [reflexivity|].
  split; [vm_compute; reflexivity|].
  split; [vm_compute; reflexivity|].
  split; [eexists; eexists; (split; [vm_compute; reflexivity|]);
          (split; [vm_compute; reflexivity|]); vm_compute; reflexivity|].
  split; [eexists; eexists; (split; [vm_compute; reflexivity|]);
          (split; [vm_compute; reflexivity|]); vm_compute; reflexivity|].
  split; eexists; eexists; (split; [vm_compute; reflexivity|]);
    (split; [vm_compute; reflexivity|]);
    (split; [vm_compute; reflexivity|]); vm_compute; reflexivity.
Qed.

(** ** Collections *)

Module CollectionFacts.

Lemma od_set_In {V : Type} (d : odict V) k v k' v' :
  In (k', v') (od_set d k v) -> (k', v') = (k, v) \/ In (k', v') d.
Proof.
  induction d as [|[k0 v0] d IH]; simpl.
  - intros [H|[]]; auto.
  - destruct (String.eqb k0 k); simpl; intros [H|H]; auto.
    destruct (IH H); auto.
Qed.

Lemma od_set_keys {V : Type} (d : odict V) k v k' :
  In k' (od_keys (od_set d k v)) <-> k' = k \/ In k' (od_keys d).
Proof.
  unfold od_keys. induction d as [|[k0 v0] d IH]; simpl.
  - intuition.
  - destruct (String.eqb k0 k) eqn:E; simpl.
    + apply String.eqb_eq in E; subst. intuition.
    + rewrite IH. intuition.
Qed.

(** Assigning to a new key makes the dictionary one longer; assigning to
    an existing key leaves its length alone. *)
Lemma od_set_len_fresh {V : Type} (d : odict V) k v :
  ~ In k (od_keys d) -> od_len (od_set d k v) = od_len d + 1.
Proof.
  unfold od_len, od_keys. induction d as [|[k0 v0] d IH]; simpl; intros H.
  - reflexivity.
  - destruct (String.eqb k0 k) eqn:E.
    + apply String.eqb_eq in E. tauto.
    + assert (IH' := IH (fun i => H (or_intror i))). cbn [List.length]. lia.
Qed.

Lemma od_set_len_existing {V : Type} (d : odict V) k v :
  In k (od_keys d) -> od_len (od_set d k v) = od_len d.
Proof.
  unfold od_len, od_keys. induction d as [|[k0 v0] d IH]; simpl; intros H.
  - tauto.
  - destruct (String.eqb k0 k) eqn:E; [reflexivity|].
    destruct H as [H|H]; [subst; rewrite String.eqb_refl in E; discriminate|].
    specialize (IH H). cbn [List.length]. lia.
Qed.

(** The count stays equal to the size of the mapping when the name is new. *)
Lemma add_satellite_fresh self sat :
  SatelliteCollection.n_satellites self
  = od_len (SatelliteCollection.satellites self) ->
  ~ In (Satellite.name sat) (od_keys (SatelliteCollection.satellites self)) ->
  SatelliteCollection.n_satellites (SatelliteCollection.add_satellite self sat)
  = od_len (SatelliteCollection.satellites
              (SatelliteCollection.add_satellite self sat)).
Proof.
  unfold SatelliteCollection.n_satellites, SatelliteCollection.satellites.
  simpl; intros H F. now rewrite od_set_len_fresh, H.
Qed.

(** It runs one ahead of it when the name is already a key. *)
Lemma add_satellite_existing self sat :
  SatelliteCollection.n_satellites self
  = od_len (SatelliteCollection.satellites self) ->
  In (Satellite.name sat) (od_keys (SatelliteCollection.satellites self)) ->
  SatelliteCollection.n_satellites (SatelliteCollection.add_satellite self sat)
  = od_len (SatelliteCollection.satellites
              (SatelliteCollection.add_satellite self sat)) + 1.
Proof.
  unfold SatelliteCollection.n_satellites, SatelliteCollection.satellites.
  simpl; intros H F. now rewrite od_set_len_existing, H.
Qed.

(** The constructor leaves the count equal to the size of the mapping. *)
Lemma init_count satellites normal_pointing :
  SatelliteCollection.n_satellites
    (SatelliteCollection.__init__ satellites normal_pointing)
  = od_len (SatelliteCollection.satellites
              (SatelliteCollection.__init__ satellites normal_pointing)).
Proof. reflexivity. Qed.

(** The loop of [as_dict]: every entry of the result was there before or
    was built from an item, and every key is kept. *)
Lemma detectors_loop np (items : odict Satellite.t) :
  forall acc det,
  foldM (fun det_dict item =>
           let '(name, sat) := item in
           alt <- Satellite.altitude sat ;;
           Ok (od_set det_dict name (detector_of np sat alt)))
        items acc = Ok det ->
  (forall name d, In (name, d) det ->
     In (name, d) acc \/
     exists sat alt, In (name, sat) items /\ Satellite.altitude sat = Ok alt /\
                     d = detector_of np sat alt) /\
  (forall name, In name (od_keys acc) \/ In name (od_keys items) ->
                In name (od_keys det)).
Proof.
  induction items as [|[n0 s0] items IH]; simpl; intros acc det H.
  - inversion H; subst. split; [auto|]. intros name [K|[]]; exact K.
  - bind_inv H. bind_inv E. inversion E; subst; clear E.
    destruct (IH _ _ H) as [I1 I2]. split.
    + intros name d Hd. destruct (I1 name d Hd) as [Hacc|(sat & alt & Hi & Ha & Hd')].
      * apply od_set_In in Hacc as [Hnew|Hold]; [|auto].
        inversion Hnew; subst. right. exists s0, v0. auto.
      * right. exists sat, alt. auto.
    + intros name K. apply I2. destruct K as [K|[K|K]].
      * left. apply od_set_keys. auto.
      * left. apply od_set_keys. left. symmetry. exact K.
      * right. exact K.
Qed.

Lemma as_dict_detectors self grb g :
  SatelliteCollection.as_dict self grb = Ok g ->
  (forall name d, In (name, d) (SatelliteCollection.g_detectors g) ->
     exists sat alt, In (name, sat) (SatelliteCollection.satellites self) /\
                     Satellite.altitude sat = Ok alt /\
                     d = detector_of (SatelliteCollection._normal_pointing self) sat alt) /\
  (forall name, In name (od_keys (SatelliteCollection.satellites self)) ->
                In name (od_keys (SatelliteCollection.g_detectors g))).
Proof.
  unfold SatelliteCollection.as_dict. intros H. bind_inv H.
  inversion H; subst; clear H. simpl.
  apply detectors_loop in E as [I1 I2]. split.
  - intros name d Hd. destruct (I1 name d Hd) as [[]|X]; exact X.
  - intros name K. apply I2. auto.
Qed.

Lemma detectors_loop_Ok np (items : odict Satellite.t) :
  (forall name sat, In (name, sat) items -> is_ok (Satellite.altitude sat) = true) ->
  forall acc, exists det,
    foldM (fun det_dict item =>
             let '(name, sat) := item in
             alt <- Satellite.altitude sat ;;
             Ok (od_set det_dict name (detector_of np sat alt)))
          items acc = Ok det.
Proof.
  induction items as [|[n0 s0] items IH]; simpl; intros H acc; [eauto|].
  destruct (is_ok_Ok _ (H n0 s0 (or_introl eq_refl))) as [alt ->]. cbn [bind].
  apply IH. intros name sat Hin. apply (H name sat). auto.
Qed.

(** The export returns when every altitude is representable as a float, as
    it is for every satellite a constructor returned. *)
Lemma as_dict_returns self grb :
  (forall name sat,
     In (name, sat) (SatelliteCollection.satellites self) ->
     is_ok (Satellite.altitude sat) = true) ->
  exists g, SatelliteCollection.as_dict self grb = Ok g.
Proof.
  intros H. unfold SatelliteCollection.as_dict.
  destruct (detectors_loop_Ok (SatelliteCollection._normal_pointing self)
              (SatelliteCollection._satellites self) H []) as [det E].
  change (foldM _ (SatelliteCollection._satellites self) [])
    with (foldM (fun det_dict item =>
             let '(name, sat) := item in
             alt <- Satellite.altitude sat ;;
             Ok (od_set det_dict name
                   (detector_of (SatelliteCollection._normal_pointing self) sat alt)))
          (SatelliteCollection._satellites self) []).
  rewrite E. cbn [bind]. eauto.
Qed.

End CollectionFacts.

(** C4 (the code breaks it).  Adding a satellite whose name is already a key
    of the collection replaces the entry and still increments the count: the
    collection built from one satellite named ["det1"] has count 1 and one
    entry, and after [add_satellite] of a second satellite named ["det1"] it
    has count 2 and one entry. *)
Theorem add_satellite_duplicate_name :
  exists s1 s2,
    Satellite.__init__ on_x_axis "det1" (PyInt 550) (PyInt 0) (PyInt 53)
      (PyInt 0) (PyInt 0) (PyInt 0) (PyFloat 1) "earth" true = Ok s1 /\
    Satellite.__init__ on_x_axis "det1" (PyInt 700) (PyInt 0) (PyInt 53)
      (PyInt 0) (PyInt 0) (PyInt 0) (PyFloat 1) "earth" true = Ok s2 /\
    let c := SatelliteCollection.__init__ [s1] false in
    let c' := SatelliteCollection.add_satellite c s2 in
    SatelliteCollection.n_satellites c = 1 /\
    od_len (SatelliteCollection.satellites c) = 1 /\
    SatelliteCollection.n_satellites c' = 2 /\
    od_len (SatelliteCollection.satellites c') = 1.
Proof.
  eexists. eexists.
  split; [vm_compute; reflexivity|].
  split; [vm_compute; reflexivity|].
  vm_compute. auto.
Qed.

(** C8.  A collection of constructed satellites exports a mapping in which
    every detector stands for a satellite of the collection stored under the
    same name, and its pointing is that satellite's own [(ra, dec)] when
    nadir pointing is enabled and the fixed direction [{ra: 80, dec: -30}]
    when it is disabled; every satellite name has a detector. *)
Theorem as_dict_pointing self grb_dict :
  (forall name sat,
     In (name, sat) (SatelliteCollection.satellites self) ->
     is_ok (Satellite.altitude sat) = true) ->
  exists g,
    SatelliteCollection.as_dict self grb_dict = Ok g /\
    (forall name d,
       In (name, d) (SatelliteCollection.g_detectors g) ->
       exists sat,
         In (name, sat) (SatelliteCollection.satellites self) /\
         SatelliteCollection.d_ra d = Satellite.ra sat /\
         SatelliteCollection.d_dec d = Satellite.dec sat /\
         SatelliteCollection.d_pointing d
         = if SatelliteCollection._normal_pointing self
           then {| SatelliteCollection.p_ra := PyFloat (Satellite.ra sat);
                   SatelliteCollection.p_dec := PyFloat (Satellite.dec sat) |}
           else {| SatelliteCollection.p_ra := PyInt 80;
                   SatelliteCollection.p_dec := PyInt (-30) |}) /\
    (forall name,
       In name (od_keys (SatelliteCollection.satellites self)) ->
       In name (od_keys (SatelliteCollection.g_detectors g))).
Proof.
  intros Halt.
  destruct (CollectionFacts.as_dict_returns self grb_dict Halt) as [g H].
  exists g. split; [exact H|].
  apply CollectionFacts.as_dict_detectors in H as [I1 I2].
  split; [|exact I2].
  intros name d Hd. destruct (I1 name d Hd) as (sat & alt & Hs & _ & ->).
  exists sat. simpl. auto.
Qed.

(** Three satellites in one plane, with nadir pointing. *)
Lemma as_dict_pointing_witness :
  exists c,
    SatelliteCollection.from_constellation on_x_axis 3 1 (PyInt 1) (PyInt 53)
      (PyInt 550) (PyInt 0) "det" true = Ok c /\
    exists g,
      SatelliteCollection.as_dict c None = Ok g /\
      (forall name d,
         In (name, d) (SatelliteCollection.g_detectors g) ->
         exists sat,
           In (name, sat) (SatelliteCollection.satellites c) /\
           SatelliteCollection.d_ra d = Satellite.ra sat /\
           SatelliteCollection.d_dec d = Satellite.dec sat /\
           SatelliteCollection.d_pointing d
           = if SatelliteCollection._normal_pointing c
             then {| SatelliteCollection.p_ra := PyFloat (Satellite.ra sat);
                     SatelliteCollection.p_dec := PyFloat (Satellite.dec sat) |}
             else {| SatelliteCollection.p_ra := PyInt 80;
                     SatelliteCollection.p_dec := PyInt (-30) |}) /\
      (forall name,
         In name (od_keys (SatelliteCollection.satellites c)) ->
         In name (od_keys (SatelliteCollection.g_detectors g))).
Proof.
  eexists. split; [vm_compute; reflexivity|].
  apply as_dict_pointing.
  intros name sat [H|[H|[H|[]]]]; inversion H; reflexivity.
Defined.

(** C10.  [from_tle_file] does not use its [normal_pointing] argument: the
    collection it returns is the one it returns for [False], its flag is
    [False], and every detector of its export points at the fixed direction
    [{ra: 80, dec: -30}]. *)
Theorem from_tle_file_ignores_normal_pointing ext tles normal_pointing c :
  SatelliteCollection.from_tle_file ext tles normal_pointing = Ok c ->
  SatelliteCollection.from_tle_file ext tles false = Ok c /\
  SatelliteCollection._normal_pointing c = false /\
  forall grb_dict g name d,
    SatelliteCollection.as_dict c grb_dict = Ok g ->
    In (name, d) (SatelliteCollection.g_detectors g) ->
    SatelliteCollection.d_pointing d
    = {| SatelliteCollection.p_ra := PyInt 80;
         SatelliteCollection.p_dec := PyInt (-30) |}.
Proof.
  intros H. split; [exact H|].
  assert (F : SatelliteCollection._normal_pointing c = false).
  { unfold SatelliteCollection.from_tle_file in H. bind_inv H.
    inversion H; subst. reflexivity. }
  split; [exact F|].
  intros grb_dict g name d Hg Hd.
  apply CollectionFacts.as_dict_detectors in Hg as [P _].
  destruct (P name d Hd) as (sat & alt & _ & _ & ->).
  simpl. rewrite F. reflexivity.
Qed.

(** Two tracking records, loaded with [normal_pointing=True]. *)
Lemma from_tle_file_ignores_normal_pointing_witness :
  exists c,
    let tles :=
      [ {| tle_name := "ISS (ZARYA)"; tle_a := 6798; tle_ecc := 0.00048828125;
           tle_inc := 51.625; tle_raan := 208.5; tle_argp := 69.5 |};
        {| tle_name := "NOAA 19"; tle_a := 7229; tle_ecc := 0.001953125;
           tle_inc := 99.1875; tle_raan := 44.25; tle_argp := 112.75 |} ] in
    SatelliteCollection.from_tle_file on_x_axis tles true = Ok c /\
    SatelliteCollection.from_tle_file on_x_axis tles false = Ok c /\
    SatelliteCollection._normal_pointing c = false /\
    forall grb_dict g name d,
      SatelliteCollection.as_dict c grb_dict = Ok g ->
      In (name, d) (SatelliteCollection.g_detectors g) ->
      SatelliteCollection.d_pointing d
      = {| SatelliteCollection.p_ra := PyInt 80;
           SatelliteCollection.p_dec := PyInt (-30) |}.
Proof.
  eexists. cbv zeta.
  split; [vm_compute; reflexivity|].
  apply (from_tle_file_ignores_normal_pointing on_x_axis _ true).
  vm_compute; reflexivity.
Defined.

(** ** Sequences *)

Module SeqFacts.

Lemma range2_nil a b : b <= a -> range2 a b = [].
Proof.
  intros H. unfold range2. replace (Z.to_nat (b - a)) with O by lia. reflexivity.
Qed.

Lemma range2_cons a b : a < b -> range2 a b = a :: range2 (a + 1) b.
Proof.
  intros H. unfold range2.
  replace (Z.to_nat (b - a)) with (S (Z.to_nat (b - (a + 1)))) by lia.
  cbn [seq map]. f_equal; [lia|].
  rewrite <- seq_shift, map_map. apply map_ext. intros k. lia.
Qed.

Lemma range2_length a b : List.length (range2 a b) = Z.to_nat (b - a).
Proof. unfold range2. now rewrite length_map, length_seq. Qed.

Lemma range2_In a b i : In i (range2 a b) <-> a <= i < b.
Proof.
  unfold range2. rewrite in_map_iff. split.
  - intros (k & <- & Hk). apply in_seq in Hk. lia.
  - intros H. exists (Z.to_nat (i - a)). split; [lia|]. apply in_seq. lia.
Qed.

Lemma range2_nth a b i :
  (i < Z.to_nat (b - a))%nat -> nth_error (range2 a b) i = Some (a + Z.of_nat i).
Proof.
  intros H. unfold range2.
  rewrite nth_error_map, nth_error_seq.
  destruct (Nat.ltb_spec i (Z.to_nat (b - a))); [reflexivity|lia].
Qed.

Lemma getitem_nth {A : Type} (l : list A) i :
  0 <= i ->
  getitem l i = match nth_error l (Z.to_nat i) with
                | Some x => Ok x
                | None => Raise IndexError
                end.
Proof.
  intros H. unfold getitem, norm_index.
  destruct (Z.ltb_spec i 0); [lia|].
  replace (0 <=? i) with true by (symmetry; apply Z.leb_le; lia). simpl.
  destruct (Z.ltb_spec i (Z.of_nat (List.length l))); [reflexivity|].
  assert (N : nth_error l (Z.to_nat i) = None) by (apply nth_error_None; lia).
  now rewrite N.
Qed.

Lemma getitem_Ok {A : Type} (l : list A) i :
  0 <= i < Z.of_nat (List.length l) -> exists x, getitem l i = Ok x.
Proof.
  intros H. rewrite getitem_nth by lia.
  destruct (nth_error l (Z.to_nat i)) as [x|] eqn:E; [eauto|].
  apply nth_error_None in E. lia.
Qed.

Lemma getitem_In {A : Type} (l : list A) i x :
  0 <= i -> getitem l i = Ok x -> In x l.
Proof.
  intros H. rewrite getitem_nth by lia.
  destruct (nth_error l (Z.to_nat i)) as [y|] eqn:E; [|discriminate].
  intros Hx; inversion Hx; subst. eapply nth_error_In; eauto.
Qed.

Lemma update_length {A : Type} (l : list A) k x :
  List.length (update l k x) = List.length l.
Proof.
  revert k; induction l as [|y l IH]; intros [|k]; simpl; auto.
Qed.

Lemma update_nth_same {A : Type} (l : list A) k x :
  (k < List.length l)%nat -> nth_error (update l k x) k = Some x.
Proof.
  revert k; induction l as [|y l IH]; intros [|k]; simpl; intros H; try lia; auto.
  apply IH. lia.
Qed.

Lemma update_nth_other {A : Type} (l : list A) k j x :
  j <> k -> nth_error (update l k x) j = nth_error l j.
Proof.
  revert k j; induction l as [|y l IH]; intros [|k] [|j]; simpl; intros H;
    try lia; auto.
Qed.

Lemma update_In {A : Type} (l : list A) k x y :
  In y (update l k x) -> y = x \/ In y l.
Proof.
  revert k; induction l as [|z l IH]; intros [|k]; simpl; intros H; auto.
  - destruct H; auto.
  - destruct H as [H|H]; auto. destruct (IH _ H); auto.
Qed.

Lemma setitem_Ok {A : Type} (l : list A) i x :
  0 <= i < Z.of_nat (List.length l) ->
  setitem l i x = Ok (update l (Z.to_nat i) x).
Proof.
  intros H. unfold setitem, norm_index.
  destruct (Z.ltb_spec i 0); [lia|].
  replace (0 <=? i) with true by (symmetry; apply Z.leb_le; lia).
  replace (i <? Z.of_nat (List.length l)) with true
    by (symmetry; apply Z.ltb_lt; lia).
  reflexivity.
Qed.

Lemma getitem_update_same {A : Type} (l : list A) i x :
  0 <= i < Z.of_nat (List.length l) ->
  getitem (update l (Z.to_nat i) x) i = Ok x.
Proof.
  intros H. rewrite getitem_nth, update_nth_same by lia. reflexivity.
Qed.

Lemma getitem_update_other {A : Type} (l : list A) i j x :
  0 <= i -> 0 <= j -> j <> i ->
  getitem (update l (Z.to_nat i) x) j = getitem l j.
Proof.
  intros Hi Hj N. rewrite !getitem_nth, update_nth_other by lia. reflexivity.
Qed.

Lemma getitem_repeat {A : Type} (x : A) n i :
  0 <= i < n -> getitem (list_mul x n) i = Ok x.
Proof.
  intros H. rewrite getitem_nth by lia. unfold list_mul.
  rewrite nth_error_repeat by lia. reflexivity.
Qed.

Lemma foldM_ext {A B : Type} (f g : A -> B -> result A) xs :
  (forall a x, In x xs -> f a x = g a x) ->
  forall a, foldM f xs a = foldM g xs a.
Proof.
  induction xs as [|x xs IH]; simpl; intros H a; [reflexivity|].
  rewrite (H a x) by auto. destruct (g a x); simpl; [|reflexivity].
  apply IH. auto.
Qed.

End SeqFacts.

(** ** The tables of a constellation *)

Module TableFacts.
Import SeqFacts.

Lemma py_add_zero_or_float x d :
  zero_or_float x -> exists f, py_add x (PyFloat d) = Ok (PyFloat f).
Proof.
  destruct x as [z|f]; simpl; intros H.
  - subst z. eexists. reflexivity.
  - eexists. reflexivity.
Qed.

Lemma plane_loop_from spp d n m :
  1 <= spp ->
  forall k T, spp <= k -> k <= n -> m = Z.to_nat (n - k) ->
    plane_table_upto spp d n k T ->
    exists T', foldM (plane_step spp (PyFloat d)) (range2 k n) T = Ok T' /\
               plane_table_upto spp d n n T'.
Proof.
  intros Hspp. induction m as [|m IH]; intros k T Hk Hkn Hm Inv.
  - rewrite range2_nil by lia. assert (k = n) by lia. subst k.
    exists T. split; [reflexivity|exact Inv].
  - rewrite range2_cons by lia. cbn [foldM].
    destruct Inv as (Len & Zero & Rec & Shape).
    destruct (getitem_Ok T (k - spp)) as [x Hx]; [lia|].
    assert (Sx : zero_or_float x).
    { eapply Forall_forall; [exact Shape|]. eapply getitem_In; [|exact Hx]. lia. }
    destruct (py_add_zero_or_float x d Sx) as [f Hf].
    unfold plane_step at 1. rewrite Hx. cbn [bind]. rewrite Hf. cbn [bind].
    rewrite setitem_Ok by lia.
    apply (IH (k + 1)); try lia.
    repeat split.
    + rewrite update_length. exact Len.
    + intros i Hi Hc. rewrite getitem_update_other by lia. apply Zero; lia.
    + intros i Hi. destruct (Z.eq_dec i k) as [->|Ne].
      * exists x, (PyFloat f).
        rewrite getitem_update_other by lia.
        rewrite getitem_update_same by lia. auto.
      * destruct (Rec i ltac:(lia)) as (x' & y' & H1 & H2 & H3).
        exists x', y'. rewrite !getitem_update_other by lia. auto.
    + apply Forall_forall. intros y Hy. apply update_In in Hy as [->|Hy].
      * exact I.
      * eapply Forall_forall; [exact Shape|exact Hy].
Qed.

Lemma plane_loop spp d n :
  1 <= spp -> 0 <= n ->
  exists T, foldM (plane_step spp (PyFloat d)) (range2 spp n) (list_mul (PyInt 0) n)
            = Ok T /\ plane_table spp d n T.
Proof.
  intros Hspp Hn.
  assert (Z0 : Forall zero_or_float (list_mul (PyInt 0) n)).
  { apply Forall_forall. intros x Hx. apply repeat_spec in Hx. subst. reflexivity. }
  destruct (Z_le_gt_dec spp n) as [L|G].
  - destruct (plane_loop_from spp d n (Z.to_nat (n - spp)) Hspp spp
                (list_mul (PyInt 0) n)) as (T & F & Len & Zero & Rec & Shape);
      try lia.
    + repeat split.
      * unfold list_mul. apply repeat_length.
      * intros i Hi _. apply getitem_repeat. lia.
      * intros i Hi. lia.
      * exact Z0.
    + exists T. split; [exact F|]. repeat split; auto.
  - rewrite range2_nil by lia. exists (list_mul (PyInt 0) n).
    split; [reflexivity|]. repeat split.
    + unfold list_mul. apply repeat_length.
    + intros i Hi _. apply getitem_repeat. lia.
    + intros i Hi. lia.
    + exact Z0.
Qed.

(** Satellites of one plane share the table value. *)
Lemma plane_table_same_plane spp d n T :
  1 <= spp -> plane_table spp d n T ->
  forall i j, 0 <= i < n -> 0 <= j < n -> i / spp = j / spp ->
    getitem T i = getitem T j.
Proof.
  intros Hspp (Len & Zero & Rec & _).
  assert (P : forall p, 0 <= p -> forall i j, 0 <= i < n -> 0 <= j < n ->
              i / spp = p -> j / spp = p -> getitem T i = getitem T j).
  { intros p Hp. pattern p. apply natlike_ind; [| |exact Hp].
    - intros i j Hi Hj Di Dj.
      assert (i < spp) by (apply Z.div_small_iff in Di; lia).
      assert (j < spp) by (apply Z.div_small_iff in Dj; lia).
      rewrite !Zero by lia. reflexivity.
    - intros q Hq IHq i j Hi Hj Di Dj.
      assert (Si : spp <= i).
      { destruct (Z_le_gt_dec spp i); [assumption|].
        rewrite Z.div_small in Di by lia. lia. }
      assert (Sj : spp <= j).
      { destruct (Z_le_gt_dec spp j); [assumption|].
        rewrite Z.div_small in Dj by lia. lia. }
      destruct (Rec i ltac:(lia)) as (xi & yi & A1 & A2 & A3).
      destruct (Rec j ltac:(lia)) as (xj & yj & B1 & B2 & B3).
      assert (E : getitem T (i - spp) = getitem T (j - spp)).
      { apply IHq; try lia.
        - replace (i - spp) with (i + (-1) * spp) by lia.
          rewrite Z.div_add by lia. lia.
        - replace (j - spp) with (j + (-1) * spp) by lia.
          rewrite Z.div_add by lia. lia. }
      rewrite A1, B1 in E. inversion E; subst.
      rewrite A3, B3. congruence. }
  intros i j Hi Hj E. apply (P (i / spp)); auto.
  apply Z.div_pos; lia.
Qed.

Lemma extend_loop {A B : Type} (P : list A) (xs : list B) acc :
  fold_left (fun all _ => all ++ P) xs acc
  = acc ++ List.concat (repeat P (List.length xs)).
Proof.
  revert acc; induction xs as [|x xs IH]; intros acc; simpl.
  - now rewrite app_nil_r.
  - rewrite IH, <- app_assoc. reflexivity.
Qed.

(** Reading the replicated list wraps around the anchor list. *)
Lemma concat_repeat_nth {A : Type} (P : list A) n i :
  (i < n * List.length P)%nat ->
  nth_error (List.concat (repeat P n)) i = nth_error P (i mod List.length P).
Proof.
  revert i; induction n as [|n IH]; intros i H; [lia|].
  simpl. destruct (Nat.ltb_spec i (List.length P)) as [L|G].
  - rewrite nth_error_app1, Nat.mod_small by lia. reflexivity.
  - rewrite nth_error_app2, IH by lia.
    f_equal.
    replace i with ((i - List.length P) + 1 * List.length P)%nat at 2 by lia.
    rewrite Nat.Div0.mod_add. reflexivity.
Qed.

Lemma perigee_step spp :
  1 <= spp <= 360 ->
  exists f, py_truediv (PyInt 360) (PyInt spp) = Ok (PyFloat f) /\
            py_int (PyFloat f) = Ok (360 / spp).
Proof.
  intros H.
  destruct (FloatFacts.int_truediv_floor 360 spp) as (f & F1 & F2); try lia.
  - apply Z.div_lt_upper_bound; lia.
  - exists f. simpl. rewrite F1. auto.
Qed.

Lemma perigee_positions_spec spp n :
  1 <= spp <= 360 -> 0 <= n ->
  exists anchors,
    range3 0 360 (360 / spp) = Ok anchors /\ anchors <> [] /\
    (forall a, In a anchors -> 0 <= a < 360) /\
    Constellation._perigee_positions spp n
    = Ok (List.concat (repeat (map PyInt anchors) (Z.to_nat n))).
Proof.
  intros Hspp Hn.
  destruct (perigee_step spp Hspp) as (f & F1 & F2).
  assert (Hstep : 1 <= 360 / spp) by (apply Z.div_le_lower_bound; lia).
  set (step := 360 / spp) in *.
  assert (Hlen : range3_len 0 360 step = 359 / step + 1).
  { unfold range3_len.
    replace (0 <? step) with true by (symmetry; apply Z.ltb_lt; lia).
    reflexivity. }
  assert (H359 : 0 <= 359 / step) by (apply Z.div_pos; lia).
  exists (map (fun k => 0 + Z.of_nat k * step)
              (seq 0 (Z.to_nat (range3_len 0 360 step)))).
  assert (R : range3 0 360 step
              = Ok (map (fun k => 0 + Z.of_nat k * step)
                        (seq 0 (Z.to_nat (range3_len 0 360 step))))).
  { unfold range3. replace (step =? 0) with false
      by (symmetry; apply Z.eqb_neq; lia). reflexivity. }
  split; [exact R|]. split; [|split].
  - rewrite Hlen. replace (Z.to_nat (359 / step + 1)) with (S (Z.to_nat (359 / step))) by lia.
    discriminate.
  - intros a Ha. apply in_map_iff in Ha as (k & <- & Hk). apply in_seq in Hk.
    rewrite Hlen in Hk.
    assert (Z.of_nat k <= 359 / step) by lia.
    assert (step * (359 / step) <= 359) by (apply Z.mul_div_le; lia).
    nia.
  - unfold Constellation._perigee_positions. rewrite F1. cbn [bind].
    rewrite F2. cbn [bind]. fold step. rewrite R. cbn [bind].
    rewrite extend_loop. cbn [app]. unfold range1. rewrite range2_length.
    replace (n - 0) with n by lia. reflexivity.
Qed.

End TableFacts.

(** ** Building a constellation *)

Module BuildFacts.
Import SeqFacts TableFacts.

Lemma mapM_nth {A B : Type} (f : A -> result B) xs ys i x :
  mapM f xs = Ok ys -> nth_error xs i = Some x ->
  exists y, nth_error ys i = Some y /\ f x = Ok y.
Proof.
  revert ys i; induction xs as [|x0 xs IH]; simpl; intros ys i H Hi.
  - destruct i; discriminate.
  - bind_inv H. bind_inv H. inversion H; subst; clear H.
    destruct i as [|i]; simpl in *.
    + inversion Hi; subst. eauto.
    + eapply IH; eauto.
Qed.

Lemma corrected_planes_spec num_sats num_planes phasing :
  1 <= num_planes -> 1 <= num_sats / num_planes < 2 ^ 50 ->
  num_sats mod num_planes = 0 \/ num_sats < 2 ^ 53 ->
  phasing_ok num_sats phasing = true ->
  exists cp, Constellation._corrected_planes num_sats num_planes phasing
             = Ok (num_sats / num_planes, PyFloat cp).
Proof.
  intros Hp Hq Hc Hph.
  assert (num_planes <= num_sats).
  { pose proof (Z.mul_div_le num_sats num_planes ltac:(lia)). nia. }
  destruct (FloatFacts.int_truediv_floor num_sats num_planes)
    as (f & F1 & F2); try lia.
  unfold Constellation._corrected_planes. cbn [py_truediv].
  rewrite F1. cbn [bind py_int]. rewrite F2. cbn [bind].
  unfold phasing_ok in Hph. apply is_ok_Ok in Hph as [v Hv].
  bind_inv Hv. rewrite E. cbn [bind].
  destruct (FloatFacts.py_truediv_is_float _ _ _ Hv) as [cp ->].
  rewrite Hv. cbn [bind]. eauto.
Qed.

Lemma calculate_raan_spec num_sats spp num_planes :
  1 <= spp -> 0 <= num_sats -> 1 <= num_planes ->
  exists d T,
    py_truediv (PyInt 360) (PyInt num_planes) = Ok (PyFloat d) /\
    Constellation._calculate_raan num_sats spp num_planes = Ok T /\
    plane_table spp d num_sats T.
Proof.
  intros Hs Hn Hp.
  destruct (is_ok_Ok _ (FloatFacts.int_truediv_ok 360 num_planes ltac:(lia) ltac:(lia)))
    as [d Hd].
  assert (D : py_truediv (PyInt 360) (PyInt num_planes) = Ok (PyFloat d))
    by (cbn [py_truediv]; rewrite Hd; reflexivity).
  destruct (plane_loop spp d num_sats Hs Hn) as (T & F & PT).
  exists d, T. split; [exact D|]. split; [|exact PT].
  unfold Constellation._calculate_raan. rewrite <- F.
  apply foldM_ext. intros a i _. unfold plane_step.
  destruct (getitem a (i - spp)); cbn [bind]; [|reflexivity].
  rewrite D. reflexivity.
Qed.

Lemma calculate_ta_spec num_sats spp cp :
  1 <= spp -> 0 <= num_sats ->
  exists T, Constellation._calculate_ta num_sats spp (PyFloat cp) = Ok T /\
            plane_table spp cp num_sats T.
Proof.
  intros Hs Hn. destruct (plane_loop spp cp num_sats Hs Hn) as (T & F & PT).
  exists T. split; [exact F|exact PT].
Qed.

Lemma perigee_table_angle anchors n i :
  anchors <> [] -> (forall a, In a anchors -> 0 <= a < 360) -> 0 <= i < n ->
  exists x, getitem (List.concat (repeat (map PyInt anchors) (Z.to_nat n))) i = Ok x /\
            angle_like x /\
            getitem (map PyInt anchors) (i mod Z.of_nat (List.length anchors)) = Ok x.
Proof.
  intros Hne Hin Hi.
  assert (L : (0 < List.length anchors)%nat) by (destruct anchors; [tauto|simpl; lia]).
  assert (B : (Z.to_nat i < Z.to_nat n * List.length (map PyInt anchors))%nat).
  { rewrite length_map. nia. }
  pose proof (concat_repeat_nth (map PyInt anchors) (Z.to_nat n) (Z.to_nat i) B) as N.
  rewrite length_map in N.
  assert (M : (Z.to_nat i mod List.length anchors)%nat
              = Z.to_nat (i mod Z.of_nat (List.length anchors))).
  { rewrite <- (Nat2Z.id (Z.to_nat i mod List.length anchors)).
    rewrite Nat2Z.inj_mod, Z2Nat.id by lia. reflexivity. }
  rewrite M in N.
  pose proof (Z.mod_pos_bound i (Z.of_nat (List.length anchors)) ltac:(lia)) as MB.
  rewrite !getitem_nth by lia. rewrite N.
  destruct (nth_error (map PyInt anchors)
              (Z.to_nat (i mod Z.of_nat (List.length anchors)))) as [x|] eqn:E.
  - exists x. repeat split.
    apply nth_error_In in E. apply in_map_iff in E as (a & <- & Ha).
    simpl. auto.
  - apply nth_error_None in E. rewrite length_map in E. lia.
Qed.

(** A constellation that was constructed, part by part. *)
Lemma init_tables ext num_sats num_planes phasing inclination altitude
    eccentricity name c :
  Constellation.__init__ ext num_sats num_planes phasing inclination altitude
    eccentricity name = Ok c ->
  Constellation._corrected_planes num_sats num_planes phasing
  = Ok (Constellation._sats_per_plane c, Constellation._correct_phasing c) /\
  Constellation._perigee_positions (Constellation._sats_per_plane c) num_sats
  = Ok (Constellation._perigee_positions_tbl c) /\
  Constellation._calculate_raan num_sats (Constellation._sats_per_plane c) num_planes
  = Ok (Constellation._raan c) /\
  Constellation._calculate_ta num_sats (Constellation._sats_per_plane c)
    (Constellation._correct_phasing c) = Ok (Constellation._ta c) /\
  Constellation._build_satellites ext num_sats 0 name altitude eccentricity
    inclination (Constellation._raan c) (Constellation._perigee_positions_tbl c)
    (Constellation._ta c) "earth" = Ok (Constellation.satellites c) /\
  Constellation._constellation_name c = name /\
  Constellation._start_num c = 0 /\
  Constellation._inclination c = inclination.
Proof.
  unfold Constellation.__init__. cbv zeta. intros H.
  apply bind_Ok in H as ([spp cp] & E1 & H).
  apply bind_Ok in H as (per & E2 & H).
  apply bind_Ok in H as (raan & E3 & H).
  apply bind_Ok in H as (ta & E4 & H).
  apply bind_Ok in H as (sats & E5 & H).
  inversion H; subst; clear H. cbn.
  repeat split; assumption.
Qed.

(** The corrected phasing angle of a constellation that was constructed. *)
Lemma corrected_planes_phasing num_sats num_planes phasing spp cp :
  Constellation._corrected_planes num_sats num_planes phasing = Ok (spp, cp) ->
  (p <- py_mul (PyInt 360) phasing ;; py_truediv p (PyInt num_sats)) = Ok cp /\
  phasing_ok num_sats phasing = true.
Proof.
  unfold Constellation._corrected_planes, phasing_ok. intros C.
  apply bind_Ok in C as (q & _ & C). apply bind_Ok in C as (s & _ & C).
  apply bind_Ok in C as (p & Ep & C). apply bind_Ok in C as (x & Ex & C).
  inversion C; subst. rewrite Ep. cbn [bind]. rewrite Ex. split; reflexivity.
Qed.

(** The satellites built, slot by slot. *)
Lemma build_slots ext num_sats name altitude e inclination raan perigees ta sats :
  Constellation._build_satellites ext num_sats 0 name altitude e inclination
    raan perigees ta "earth" = Ok sats ->
  List.length sats = Z.to_nat num_sats /\
  forall i, 0 <= i < num_sats ->
    exists s, getitem sats i = Ok s /\
      Satellite.name s = String.append name (str_of_int (i + 0 + 1)) /\
      Satellite._inclination_r s = inclination /\
      getitem raan i = Ok (Satellite._right_ascension_r s) /\
      getitem perigees i = Ok (Satellite._perigee_r s) /\
      getitem ta i = Ok (Satellite._ta_r s).
Proof.
  unfold Constellation._build_satellites. intros Hs.
  assert (Len : List.length sats = Z.to_nat num_sats).
  { rewrite (mapM_length _ _ _ Hs). unfold range1. rewrite range2_length. f_equal. lia. }
  split; [exact Len|].
  intros i Hi.
  assert (N : nth_error (range1 num_sats) (Z.to_nat i) = Some i).
  { unfold range1. rewrite range2_nth by lia. f_equal. lia. }
  destruct (mapM_nth _ _ _ _ _ Hs N) as (s & Ns & Bs).
  exists s. rewrite getitem_nth, Ns by lia. split; [reflexivity|].
  cbv beta zeta in Bs.
  bind_inv Bs. bind_inv Bs. bind_inv Bs.
  apply SatelliteFacts.init_fields in Bs as (Nm & _ & _ & _ & _ & _ & R).
  inversion R as [[Ri Rr Rp Rt]].
  unfold Satellite.name. rewrite Nm. repeat split; congruence.
Qed.

(** The tables and satellites of a constellation that was constructed with
    a per-plane count between 1 and 360. *)
Lemma constellation_tables ext num_sats num_planes phasing inclination altitude
    eccentricity name c :
  1 <= num_planes -> 1 <= num_sats / num_planes <= 360 ->
  num_sats mod num_planes = 0 \/ num_sats < 2 ^ 53 ->
  Constellation.__init__ ext num_sats num_planes phasing inclination altitude
    eccentricity name = Ok c ->
  exists d cp anchors,
    Constellation._sats_per_plane c = num_sats / num_planes /\
    Constellation._correct_phasing c = PyFloat cp /\
    (p <- py_mul (PyInt 360) phasing ;; py_truediv p (PyInt num_sats))
    = Ok (PyFloat cp) /\
    py_truediv (PyInt 360) (PyInt num_planes) = Ok (PyFloat d) /\
    plane_table (num_sats / num_planes) d num_sats (Constellation._raan c) /\
    plane_table (num_sats / num_planes) cp num_sats (Constellation._ta c) /\
    range3 0 360 (360 / (num_sats / num_planes)) = Ok anchors /\
    anchors <> [] /\
    (forall a, In a anchors -> 0 <= a < 360) /\
    Constellation._perigee_positions_tbl c
    = List.concat (repeat (map PyInt anchors) (Z.to_nat num_sats)) /\
    List.length (Constellation.satellites c) = Z.to_nat num_sats /\
    forall i, 0 <= i < num_sats -> exists s, slot_of c i s.
Proof.
  intros Hp Hq Hc H.
  set (spp := num_sats / num_planes) in *.
  assert (Hn : 1 <= num_sats).
  { pose proof (Z.mul_div_le num_sats num_planes ltac:(lia)) as L. fold spp in L. nia. }
  destruct (init_tables _ _ _ _ _ _ _ _ _ H) as (C & PP & R & T & B & Nm & St & Inc).
  destruct (corrected_planes_phasing _ _ _ _ _ C) as [Ph Hph].
  destruct (corrected_planes_spec num_sats num_planes phasing) as [cp Ecp];
    try assumption; [fold spp; lia|].
  fold spp in Ecp. rewrite Ecp in C. inversion C as [[Cs Cc]].
  rewrite <- Cs in PP, R, T. rewrite <- Cc in T, Ph.
  destruct (perigee_positions_spec spp num_sats) as (anchors & Ra & Ne & Ia & Epp);
    try lia.
  rewrite Epp in PP. inversion PP as [Tbl].
  destruct (calculate_raan_spec num_sats spp num_planes) as (d & raan & Ed & Eraan & Praan);
    try lia.
  rewrite Eraan in R. inversion R as [Rr]. rewrite Rr in Praan.
  destruct (calculate_ta_spec num_sats spp cp) as (ta & Eta & Pta); try lia.
  rewrite Eta in T. inversion T as [Tt]. rewrite Tt in Pta.
  destruct (build_slots _ _ _ _ _ _ _ _ _ _ B) as [Len Slots].
  exists d, cp, anchors.
  repeat (split; [first [reflexivity | assumption]|]).
  intros i Hi. destruct (Slots i Hi) as (s & G & Ns & Is & Rs & Ps & Ts).
  exists s. unfold slot_of. rewrite Nm, St, Inc. repeat split; assumption.
Qed.

End BuildFacts.

(** ** Constellations of any size *)







(** ** The scenario of six satellites in two planes *)

(** C2 (as amended).  For the constellation with [num_sats=6], [num_planes=2],
    [phasing=1], [inclination=53], [altitude=550], [eccentricity=0] the
    per-plane count is 3, the corrected phasing angle is 60 degrees, the RAAN
    table is [[0, 0, 0, 180, 180, 180]] and the true-anomaly table is
    [[0, 0, 0, 60, 60, 60]]: the second plane is offset by the phasing angle
    and all satellites of a plane share one true anomaly.  The three methods
    return these values, and they are the tables of the constellation
    whenever it is constructed, with any collaborators and any name. *)
Theorem scenario_six_in_two_planes :
  Constellation._corrected_planes 6 2 (PyInt 1) = Ok (3, PyFloat 60) /\
  Constellation._calculate_raan 6 3 2
  = Ok [PyInt 0; PyInt 0; PyInt 0; PyFloat 180; PyFloat 180; PyFloat 180] /\
  Constellation._calculate_ta 6 3 (PyFloat 60)
  = Ok [PyInt 0; PyInt 0; PyInt 0; PyFloat 60; PyFloat 60; PyFloat 60] /\
  forall ext name c,
    Constellation.__init__ ext 6 2 (PyInt 1) (PyInt 53) (PyInt 550) (PyInt 0) name
    = Ok c ->
    Constellation._sats_per_plane c = 3 /\
    Constellation._correct_phasing c = PyFloat 60 /\
    Constellation._raan c
    = [PyInt 0; PyInt 0; PyInt 0; PyFloat 180; PyFloat 180; PyFloat 180] /\
    py_list_eqb (Constellation._raan c)
      [PyInt 0; PyInt 0; PyInt 0; PyInt 180; PyInt 180; PyInt 180] = true /\
    Constellation._ta c
    = [PyInt 0; PyInt 0; PyInt 0; PyFloat 60; PyFloat 60; PyFloat 60] /\
    py_list_eqb (Constellation._ta c)
      [PyInt 0; PyInt 0; PyInt 0; PyInt 60; PyInt 60; PyInt 60] = true.
Proof.
  assert (C : Constellation._corrected_planes 6 2 (PyInt 1) = Ok (3, PyFloat 60))
    by (vm_compute; reflexivity).
  assert (R : Constellation._calculate_raan 6 3 2
              = Ok [PyInt 0; PyInt 0; PyInt 0; PyFloat 180; PyFloat 180; PyFloat 180])
    by (vm_compute; reflexivity).
  assert (T : Constellation._calculate_ta 6 3 (PyFloat 60)
              = Ok [PyInt 0; PyInt 0; PyInt 0; PyFloat 60; PyFloat 60; PyFloat 60])
    by (vm_compute; reflexivity).
  repeat (split; [assumption|]).
  intros ext name c H.
  destruct (BuildFacts.init_tables _ _ _ _ _ _ _ _ _ H) as (C' & _ & R' & T' & _).
  rewrite C in C'. inversion C' as [[Cs Cc]].
  rewrite <- Cs in R', T'. rewrite <- Cc in T'.
  rewrite R in R'. inversion R' as [Rr]. rewrite T in T'. inversion T' as [Tt].
  repeat split; vm_compute; reflexivity.
Qed.

(** The scenario with the collaborator [on_x_axis]. *)
Lemma scenario_six_in_two_planes_witness :
  exists c,
    Constellation.__init__ on_x_axis 6 2 (PyInt 1) (PyInt 53) (PyInt 550)
      (PyInt 0) "det" = Ok c /\
    Constellation._sats_per_plane c = 3 /\
    Constellation._correct_phasing c = PyFloat 60 /\
    Constellation._raan c
    = [PyInt 0; PyInt 0; PyInt 0; PyFloat 180; PyFloat 180; PyFloat 180] /\
    py_list_eqb (Constellation._raan c)
      [PyInt 0; PyInt 0; PyInt 0; PyInt 180; PyInt 180; PyInt 180] = true /\
    Constellation._ta c
    = [PyInt 0; PyInt 0; PyInt 0; PyFloat 60; PyFloat 60; PyFloat 60] /\
    py_list_eqb (Constellation._ta c)
      [PyInt 0; PyInt 0; PyInt 0; PyInt 60; PyInt 60; PyInt 60] = true.
Proof.
  eexists. split; [vm_compute; reflexivity|].
  apply (proj2 (proj2 (proj2 scenario_six_in_two_planes)) on_x_axis "det"%string).
  vm_compute; reflexivity.
Defined.

(** C2 as stated fails on its last table: the true-anomaly table of that
    constellation is not [[0, 60, 120, 0, 60, 120]]. *)
Lemma scenario_true_anomaly_table :
  Constellation._corrected_planes 6 2 (PyInt 1) = Ok (3, PyFloat 60) /\
  Constellation._calculate_ta 6 3 (PyFloat 60)
  = Ok [PyInt 0; PyInt 0; PyInt 0; PyFloat 60; PyFloat 60; PyFloat 60] /\
  exists c,
    Constellation.__init__ on_x_axis 6 2 (PyInt 1) (PyInt 53) (PyInt 550)
      (PyInt 0) "det" = Ok c /\
    py_list_eqb (Constellation._ta c)
      [PyInt 0; PyInt 60; PyInt 120; PyInt 0; PyInt 60; PyInt 120] = false.
Proof.
  split; [vm_compute; reflexivity|].
  split; [vm_compute; reflexivity|].
  eexists. split; [vm_compute; reflexivity|].
  vm_compute; reflexivity.
Qed.

(** C1 (the code breaks it).  The constellation of the scenario names its
    satellites [det1 .. det6], but hands the degree-valued inclination 53 and
    the RAAN table to a constructor that reads them as radians: every
    satellite stores 53 as its radian inclination, and its degree-valued
    inclination is [53 * (180 / pi)], which is not 53; the RAAN 180 of the
    second plane becomes [180 * (180 / pi)] degrees. *)
Theorem constellation_angles_read_as_radians :
  exists c,
    Constellation.__init__ on_x_axis 6 2 (PyInt 1) (PyInt 53) (PyInt 550)
      (PyInt 0) "det" = Ok c /\
    map Satellite.name (Constellation.satellites c)
    = ["det1"; "det2"; "det3"; "det4"; "det5"; "det6"]%string /\
    map Satellite._inclination_r (Constellation.satellites c)
    = repeat (PyInt 53) 6 /\
    map Satellite.inclination (Constellation.satellites c)
    = repeat (Ok (53 * (180 / pi))%float) 6 /\
    (53 * (180 / pi) =? 53)%float = false /\
    map Satellite._right_ascension_r (Constellation.satellites c)
    = Constellation._raan c /\
    map Satellite.right_ascension (Constellation.satellites c)
    = [Ok 0; Ok 0; Ok 0; Ok (180 * (180 / pi)); Ok (180 * (180 / pi));
       Ok (180 * (180 / pi))]%float /\
    (180 * (180 / pi) =? 180)%float = false.
Proof.
  eexists. split; [vm_compute; reflexivity|].
  repeat split; vm_compute; reflexivity.
Qed.

(** * Further properties *)

(** ** Ordered dictionaries *)

Module DictFacts.

Lemma od_get_set_same {V : Type} (d : odict V) k v :
  od_get (od_set d k v) k = Ok v.
Proof.
  induction d as [|[k0 v0] d IH]; simpl.
  - now rewrite String.eqb_refl.
  - destruct (String.eqb k0 k) eqn:E; simpl.
    + now rewrite String.eqb_refl.
    + now rewrite E.
Qed.

Lemma od_get_set_other {V : Type} (d : odict V) k v k' :
  k' <> k -> od_get (od_set d k v) k' = od_get d k'.
Proof.
  intros N. induction d as [|[k0 v0] d IH]; simpl.
  - destruct (String.eqb k k') eqn:E; [|reflexivity].
    apply String.eqb_eq in E. congruence.
  - destruct (String.eqb k0 k) eqn:E; simpl.
    + apply String.eqb_eq in E. subst k0.
      destruct (String.eqb k k') eqn:E'; [|reflexivity].
      apply String.eqb_eq in E'. congruence.
    + now rewrite IH.
Qed.

Lemma od_set_keys_existing {V : Type} (d : odict V) k v :
  In k (od_keys d) -> od_keys (od_set d k v) = od_keys d.
Proof.
  unfold od_keys. induction d as [|[k0 v0] d IH]; simpl; intros H; [tauto|].
  destruct (String.eqb k0 k) eqn:E; simpl.
  - apply String.eqb_eq in E. now subst.
  - destruct H as [H|H]; [subst; rewrite String.eqb_refl in E; discriminate|].
    now rewrite IH.
Qed.

Lemma od_set_keys_fresh {V : Type} (d : odict V) k v :
  ~ In k (od_keys d) -> od_keys (od_set d k v) = od_keys d ++ [k].
Proof.
  unfold od_keys. induction d as [|[k0 v0] d IH]; simpl; intros H; [reflexivity|].
  destruct (String.eqb k0 k) eqn:E; simpl.
  - apply String.eqb_eq in E. tauto.
  - rewrite IH by tauto. reflexivity.
Qed.

Lemma od_set_NoDup {V : Type} (d : odict V) k v :
  NoDup (od_keys d) -> NoDup (od_keys (od_set d k v)).
Proof.
  intros H. destruct (in_dec string_dec k (od_keys d)) as [I|N].
  - now rewrite od_set_keys_existing.
  - rewrite od_set_keys_fresh by assumption.
    apply NoDup_app; [assumption|repeat constructor; simpl; tauto|].
    intros x Hx [<-|[]]. contradiction.
Qed.

Lemma od_In_get {V : Type} (d : odict V) k v :
  NoDup (od_keys d) -> In (k, v) d -> od_get d k = Ok v.
Proof.
  unfold od_keys. induction d as [|[k0 v0] d IH]; simpl; intros N H; [tauto|].
  inversion N as [|? ? N1 N2]; subst.
  destruct H as [H|H].
  - inversion H; subst. now rewrite String.eqb_refl.
  - destruct (String.eqb k0 k) eqn:E.
    + apply String.eqb_eq in E. subst k0. exfalso. apply N1.
      apply in_map_iff. exists (k, v). auto.
    + auto.
Qed.

Lemma od_get_missing {V : Type} (d : odict V) k :
  ~ In k (od_keys d) -> od_get d k = Raise KeyError.
Proof.
  unfold od_keys. induction d as [|[k0 v0] d IH]; simpl; intros H; [reflexivity|].
  destruct (String.eqb k0 k) eqn:E.
  - apply String.eqb_eq in E. tauto.
  - apply IH. tauto.
Qed.

End DictFacts.

(** ** Collections as dictionaries *)

Module CollectionMore.
Import DictFacts.

Lemma first_occurrences_ext names :
  forall seen seen', (forall x, In x seen <-> In x seen') ->
  first_occurrences names seen = first_occurrences names seen'.
Proof.
  induction names as [|n names IH]; simpl; intros seen seen' H; [reflexivity|].
  destruct (in_dec string_dec n seen) as [I|N], (in_dec string_dec n seen') as [I'|N'].
  - apply IH, H.
  - apply H in I. contradiction.
  - apply H in I'. contradiction.
  - f_equal. apply IH. intros x. simpl. rewrite H. tauto.
Qed.

Lemma first_occurrences_NoDup names seen :
  NoDup (first_occurrences names seen) /\
  forall x, In x (first_occurrences names seen) <-> In x names /\ ~ In x seen.
Proof.
  revert seen; induction names as [|n names IH]; intros seen; simpl.
  - split; [constructor|]. tauto.
  - destruct (in_dec string_dec n seen) as [I|N].
    + destruct (IH seen) as [ND M]. split; [exact ND|].
      intros x. rewrite M. split; [tauto|]. intros [[<-|H] H']; tauto.
    + destruct (IH (n :: seen)) as [ND M]. split.
      * constructor; [|exact ND]. rewrite M. simpl. tauto.
      * intros x. simpl. rewrite M. simpl.
        destruct (string_dec n x); subst; tauto.
Qed.

(** Names that are pairwise distinct are their own first occurrences. *)
Lemma first_occurrences_distinct names :
  forall seen, NoDup names -> (forall x, In x names -> ~ In x seen) ->
  first_occurrences names seen = names.
Proof.
  induction names as [|n names IH]; intros seen N D; simpl; [reflexivity|].
  inversion N as [|? ? N1 N2]; subst.
  destruct (in_dec string_dec n seen) as [I|_].
  - exfalso. apply (D n); simpl; auto.
  - f_equal. apply IH; [exact N2|].
    intros x Hx [<-|Hs]; [contradiction|]. apply (D x); simpl; auto.
Qed.

(** The keys after a run of [add_satellite] calls. *)
Lemma adds_keys sats :
  forall c,
  od_keys (SatelliteCollection._satellites (fold_left SatelliteCollection.add_satellite sats c))
  = od_keys (SatelliteCollection._satellites c)
    ++ first_occurrences (map Satellite.name sats)
         (od_keys (SatelliteCollection._satellites c)).
Proof.
  induction sats as [|s sats IH]; intros c; simpl.
  - now rewrite app_nil_r.
  - rewrite IH. cbn [SatelliteCollection.add_satellite SatelliteCollection._satellites].
    destruct (in_dec string_dec (Satellite.name s)
                (od_keys (SatelliteCollection._satellites c))) as [I|N].
    + rewrite od_set_keys_existing by assumption. reflexivity.
    + rewrite od_set_keys_fresh by assumption. rewrite <- app_assoc. simpl.
      do 2 f_equal. apply first_occurrences_ext. intros x.
      rewrite in_app_iff. simpl. tauto.
Qed.

(** The lookups after a run of [add_satellite] calls. *)
Lemma adds_lookup sats k :
  forall c,
  od_get (SatelliteCollection._satellites (fold_left SatelliteCollection.add_satellite sats c)) k
  = match last_named k sats with
    | Some s => Ok s
    | None => od_get (SatelliteCollection._satellites c) k
    end.
Proof.
  induction sats as [|s sats IH]; intros c; simpl; [reflexivity|].
  rewrite IH. destruct (last_named k sats) as [s'|]; [reflexivity|].
  cbn [SatelliteCollection.add_satellite SatelliteCollection._satellites].
  destruct (String.eqb (Satellite.name s) k) eqn:E.
  - apply String.eqb_eq in E. subst k. apply od_get_set_same.
  - apply od_get_set_other. intros ->. rewrite String.eqb_refl in E. discriminate.
Qed.

Lemma add_satellite_well_keyed c s :
  well_keyed (SatelliteCollection._satellites c) ->
  well_keyed (SatelliteCollection._satellites (SatelliteCollection.add_satellite c s)).
Proof.
  intros [N K]. split; simpl.
  - apply od_set_NoDup, N.
  - intros k s' H. apply CollectionFacts.od_set_In in H as [H|H].
    + inversion H; subst. reflexivity.
    + apply K, H.
Qed.

Lemma adds_well_keyed sats :
  forall c, well_keyed (SatelliteCollection._satellites c) ->
  well_keyed (SatelliteCollection._satellites
                (fold_left SatelliteCollection.add_satellite sats c)).
Proof.
  induction sats as [|s sats IH]; intros c H; simpl; [exact H|].
  apply IH, add_satellite_well_keyed, H.
Qed.

Lemma last_named_In k sats s :
  last_named k sats = Some s -> In s sats /\ Satellite.name s = k.
Proof.
  induction sats as [|s0 sats IH]; simpl; [discriminate|].
  destruct (last_named k sats) as [s'|].
  - intros H. inversion H; subst. destruct IH; auto.
  - destruct (String.eqb (Satellite.name s0) k) eqn:Eq; [|discriminate].
    intros H. inversion H; subst. apply String.eqb_eq in Eq. auto.
Qed.

Lemma last_named_distinct sats s :
  NoDup (map Satellite.name sats) -> In s sats ->
  last_named (Satellite.name s) sats = Some s.
Proof.
  induction sats as [|s0 sats IH]; simpl; intros N H; [tauto|].
  inversion N as [|? ? N1 N2]; subst.
  destruct H as [->|H].
  - destruct (last_named (Satellite.name s) sats) as [s'|] eqn:L.
    + apply last_named_In in L as [L1 L2]. exfalso. apply N1.
      rewrite <- L2. now apply in_map.
    + now rewrite String.eqb_refl.
  - now rewrite (IH N2 H).
Qed.

(** The keys of a constructed collection. *)
Lemma init_keys sats normal_pointing :
  od_keys (SatelliteCollection.satellites
             (SatelliteCollection.__init__ sats normal_pointing))
  = first_occurrences (map Satellite.name sats) [].
Proof.
  unfold SatelliteCollection.satellites, SatelliteCollection.__init__.
  cbn [SatelliteCollection._satellites].
  rewrite adds_keys. reflexivity.
Qed.

(** The lookups of a constructed collection. *)
Lemma init_lookup sats normal_pointing k :
  od_get (SatelliteCollection.satellites
            (SatelliteCollection.__init__ sats normal_pointing)) k
  = match last_named k sats with
    | Some s => Ok s
    | None => Raise KeyError
    end.
Proof.
  unfold SatelliteCollection.satellites, SatelliteCollection.__init__.
  cbn [SatelliteCollection._satellites].
  rewrite adds_lookup. reflexivity.
Qed.

(** The count of a constructed collection is the number of its keys. *)
Lemma init_count_keys sats normal_pointing :
  SatelliteCollection.n_satellites (SatelliteCollection.__init__ sats normal_pointing)
  = Z.of_nat (List.length (first_occurrences (map Satellite.name sats) [])).
Proof.
  rewrite <- (init_keys sats normal_pointing).
  rewrite CollectionFacts.init_count. unfold od_len, od_keys.
  now rewrite length_map.
Qed.

End CollectionMore.

(** ** The exported mapping *)

Module ExportFacts.
Import DictFacts.

Lemma detectors_keys np (items : odict Satellite.t) :
  forall acc det,
  foldM (fun det_dict item =>
           let '(name, sat) := item in
           alt <- Satellite.altitude sat ;;
           Ok (od_set det_dict name (detector_of np sat alt)))
        items acc = Ok det ->
  NoDup (od_keys items) ->
  (forall k, In k (od_keys acc) -> ~ In k (od_keys items)) ->
  od_keys det = od_keys acc ++ od_keys items.
Proof.
  induction items as [|[n0 s0] items IH]; simpl; intros acc det H N D.
  - inversion H; subst. now rewrite app_nil_r.
  - bind_inv H. bind_inv E. inversion E; subst; clear E.
    inversion N as [|? ? N1 N2]; subst.
    rewrite (IH _ _ H N2).
    + rewrite od_set_keys_fresh.
      * rewrite <- app_assoc. reflexivity.
      * intros I. apply (D n0 I). simpl. auto.
    + intros k Hk Hk'. apply CollectionFacts.od_set_keys in Hk as [->|Hk].
      * contradiction.
      * apply (D k Hk). simpl. auto.
Qed.

Lemma mapM_map {A B C : Type} (f : A -> result B) (g : B -> C) (h : A -> C) xs ys :
  mapM f xs = Ok ys -> (forall x y, f x = Ok y -> g y = h x) ->
  map g ys = map h xs.
Proof.
  revert ys; induction xs as [|x xs IH]; simpl; intros ys H P.
  - inversion H; reflexivity.
  - bind_inv H. bind_inv H. inversion H; subst; simpl.
    rewrite (P x v E), (IH v0 E0 P). reflexivity.
Qed.

Lemma mapM_In {A B : Type} (f : A -> result B) xs ys y :
  mapM f xs = Ok ys -> In y ys -> exists x, In x xs /\ f x = Ok y.
Proof.
  revert ys; induction xs as [|x xs IH]; simpl; intros ys H Hin.
  - inversion H; subst. destruct Hin.
  - bind_inv H. bind_inv H. inversion H; subst; clear H.
    destruct Hin as [<-|Hin]; [eauto|].
    destruct (IH _ E0 Hin) as (x' & I & F). eauto.
Qed.

Lemma from_TLE_name ext tle s :
  Satellite.from_TLE ext tle = Ok s -> Satellite.name s = clean_name (tle_name tle).
Proof.
  unfold Satellite.from_TLE. intros H.
  apply SatelliteFacts.init_fields in H as (N & _). exact N.
Qed.

End ExportFacts.

(** ** The constructor of a satellite *)

Module SatelliteMore.

Lemma init_true_alt ext name altitude eccentricity inclination right_ascension
    perigee ta effective_area focus rads s :
  Satellite.__init__ ext name altitude eccentricity inclination right_ascension
    perigee ta effective_area focus rads = Ok s ->
  exists alt radius rf,
    py_float altitude = Ok alt /\
    od_get heavenly_body_radius (lower focus) = Ok radius /\
    float_of_int radius = Ok rf /\
    Satellite._true_alt s = PyFloat (alt + rf) /\
    Satellite._focus s = focus /\
    Satellite._effective_area s = effective_area.
Proof.
  unfold Satellite.__init__. intros H.
  bind_inv H. bind_inv H. bind_inv H. bind_inv H.
  destruct v2 as [[[[inc raan] per] ta_d] [[[inc_r raan_r] per_r] ta_r]].
  bind_inv H. destruct v2 as [[ra dec] xyz].
  inversion H; subst; clear H.
  cbn [Satellite._true_alt Satellite._focus Satellite._effective_area].
  cbn [py_add py_float bind] in E1. bind_inv E1. inversion E1; subst.
  exists v, v0, v2. repeat split; first [assumption | reflexivity].
Qed.

End SatelliteMore.

(** ** Names of the satellites of a constellation *)

Module NameFacts.

Lemma str_of_int_inj a b : str_of_int a = str_of_int b -> a = b.
Proof.
  unfold str_of_int. intros H. apply DecimalZ.to_int_inj.
  assert (N : forall z, Z.to_int z <> Decimal.Pos Decimal.Nil /\
                        Z.to_int z <> Decimal.Neg Decimal.Nil).
  { intros [|p|p]; simpl; split; try discriminate;
      intros E; inversion E as [E'];
      exact (DecimalPos.Unsigned.to_uint_nonnil p E'). }
  assert (S : Some (Z.to_int a) = Some (Z.to_int b)).
  { rewrite <- (NilZero.isi (Z.to_int a)) by apply N.
    rewrite <- (NilZero.isi (Z.to_int b)) by apply N.
    now rewrite H. }
  now inversion S.
Qed.

Lemma append_inj_r (p a b : string) :
  String.append p a = String.append p b -> a = b.
Proof.
  induction p as [|c p IH]; simpl; intros H; [exact H|].
  inversion H. auto.
Qed.

Lemma slot_names_NoDup name n : NoDup (slot_names name n).
Proof.
  unfold slot_names, range1, range2.
  rewrite map_map.
  generalize (Z.to_nat (n - 0)). intros m.
  assert (G : forall k, NoDup (map (fun x => String.append name
                                       (str_of_int (0 + Z.of_nat x + 1))) (seq k m))).
  { induction m as [|m IH]; intros k; simpl; constructor; [|apply IH].
    intros H. apply in_map_iff in H as (j & Hj & Hin).
    apply append_inj_r, str_of_int_inj in Hj. apply in_seq in Hin. lia. }
  apply G.
Qed.

Lemma slot_names_nth name n i :
  0 <= i < n ->
  nth_error (slot_names name n) (Z.to_nat i)
  = Some (String.append name (str_of_int (i + 1))).
Proof.
  intros H. unfold slot_names, range1.
  rewrite nth_error_map, SeqFacts.range2_nth by lia.
  simpl. do 3 f_equal. lia.
Qed.

End NameFacts.

(** ** Quotients below one *)

Module FloatMore.
Import FloatFacts.

(** [int(a / b)] is 0 for [0 < a < b], when the dividend is below [2 ^ 53]
    and the divisor below [2 ^ 1022]. *)
Lemma int_truediv_below a b :
  0 < a < b -> a < 2 ^ 53 -> b < 2 ^ 1022 ->
  exists f, int_truediv a b = Ok f /\ int_of_float f = Ok 0.
Proof.
  intros Hab Ha Hb.
  destruct a as [|a|a]; try lia. destruct b as [|b|b]; try lia.
  unfold int_truediv. replace (Z.pos b =? 0) with false by reflexivity.
  pose proof (Zdigits2_bounds a) as Da. pose proof (Zdigits2_bounds b) as Db.
  pose proof (Zdigits2_le_53 (Zpos a) ltac:(lia)) as D53.
  set (d1 := Zdigits2 (Zpos a)) in *. set (d2 := Zdigits2 (Zpos b)) in *.
  assert (D1 : 1 <= d1) by (unfold d1; simpl; lia).
  assert (D2 : 1 <= d2) by (unfold d2; simpl; lia).
  assert (L : d1 <= d2).
  { destruct (Z_le_gt_dec d1 d2) as [|G]; [assumption|].
    assert (2 ^ d2 <= 2 ^ (d1 - 1)) by (apply Z.pow_le_mono_r; lia). lia. }
  assert (U : d2 <= 1022).
  { destruct (Z_le_gt_dec d2 1022) as [|G]; [assumption|].
    assert (2 ^ 1022 <= 2 ^ (d2 - 1)) by (apply Z.pow_le_mono_r; lia). lia. }
  set (s := 53 - d1 + d2).
  rewrite (SF64div_ints a b s) by (fold d1 d2; lia).
  assert (PS0 : 0 < 2 ^ s) by (apply Z.pow_pos_nonneg; lia).
  assert (P10 : 0 < 2 ^ (d1 - 1)) by (apply Z.pow_pos_nonneg; lia).
  assert (P20 : 0 < 2 ^ (d2 - 1)) by (apply Z.pow_pos_nonneg; lia).
  assert (E1 : 2 ^ d1 = 2 * 2 ^ (d1 - 1)).
  { replace d1 with (1 + (d1 - 1)) at 1 by lia. rewrite Z.pow_add_r by lia. reflexivity. }
  assert (E2 : 2 ^ d2 = 2 * 2 ^ (d2 - 1)).
  { replace d2 with (1 + (d2 - 1)) at 1 by lia. rewrite Z.pow_add_r by lia. reflexivity. }
  assert (PS : 2 ^ (d1 - 1) * 2 ^ s = 2 ^ 53 * 2 ^ (d2 - 1)).
  { rewrite <- !Z.pow_add_r by lia. f_equal. lia. }
  assert (HQ : 2 ^ 52 <= (Zpos a * 2 ^ s) / Zpos b < 2 ^ 54).
  { split.
    - apply Z.div_le_lower_bound; [lia|].
      change (2 ^ 52) with 4503599627370496.
      change (2 ^ 53) with 9007199254740992 in PS. nia.
    - apply Z.div_lt_upper_bound; [lia|].
      change (2 ^ 54) with 18014398509481984.
      change (2 ^ 53) with 9007199254740992 in PS. nia. }
  set (Q := Zpos a * 2 ^ s / Zpos b) in *.
  destruct (binary_round_aux_spec Q (- s)
              (new_location (Zpos b) ((Zpos a * 2 ^ s) mod Zpos b)) HQ ltac:(lia))
    as (M & k & F & BM & K & V).
  rewrite F. cbn [checked]. eexists. split; [reflexivity|].
  rewrite int_of_float_finite by lia. f_equal.
  replace (- (- s + k)) with (s - k) by lia.
  assert (PSk : 2 ^ s = 2 ^ k * 2 ^ (s - k)).
  { rewrite <- Z.pow_add_r by lia. f_equal. lia. }
  assert (Pk : 0 < 2 ^ k) by (apply Z.pow_pos_nonneg; lia).
  assert (Psk : 0 < 2 ^ (s - k)) by (apply Z.pow_pos_nonneg; lia).
  assert (Bs : Zpos b < 2 ^ s).
  { assert (2 ^ d2 <= 2 ^ s) by (apply Z.pow_le_mono_r; lia). lia. }
  assert (Q1 : Q + 1 < 2 ^ s).
  { assert (Q < 2 ^ s - 1); [|lia].
    apply Z.div_lt_upper_bound; [lia|].
    assert ((Zpos b - Zpos a) * 2 ^ s >= 2 ^ s) by nia. nia. }
  apply Z.div_small. split; [lia|].
  destruct V as [V|[V _]].
  - rewrite V. apply Z.div_lt_upper_bound; lia.
  - nia.
Qed.

End FloatMore.

(** ** What the constructor of a constellation returns *)

Module ConstellationMore.
Import SeqFacts.

(** A constellation that was constructed, part by part. *)
Lemma init_parts ext num_sats num_planes phasing inclination altitude
    eccentricity name c :
  Constellation.__init__ ext num_sats num_planes phasing inclination altitude
    eccentricity name = Ok c ->
  Constellation._corrected_planes num_sats num_planes phasing
  = Ok (Constellation._sats_per_plane c, Constellation._correct_phasing c) /\
  Constellation._perigee_positions (Constellation._sats_per_plane c) num_sats
  = Ok (Constellation._perigee_positions_tbl c) /\
  Constellation._calculate_raan num_sats (Constellation._sats_per_plane c) num_planes
  = Ok (Constellation._raan c) /\
  Constellation._calculate_ta num_sats (Constellation._sats_per_plane c)
    (Constellation._correct_phasing c) = Ok (Constellation._ta c) /\
  Constellation._build_satellites ext num_sats 0 name altitude eccentricity
    inclination (Constellation._raan c) (Constellation._perigee_positions_tbl c)
    (Constellation._ta c) "earth" = Ok (Constellation.satellites c) /\
  Constellation._constellation_name c = name /\
  Constellation._num_sats c = num_sats /\
  Constellation._num_planes c = num_planes.
Proof.
  unfold Constellation.__init__. cbv zeta. intros H.
  apply bind_Ok in H as ([spp cp] & E1 & H).
  apply bind_Ok in H as (per & E2 & H).
  apply bind_Ok in H as (raan & E3 & H).
  apply bind_Ok in H as (ta & E4 & H).
  apply bind_Ok in H as (sats & E5 & H).
  inversion H; subst; clear H. cbn.
  repeat split; assumption.
Qed.

(** The names of the satellites built. *)
Lemma build_names ext num_sats name altitude e inclination raan perigees ta focus sats :
  Constellation._build_satellites ext num_sats 0 name altitude e inclination
    raan perigees ta focus = Ok sats ->
  map Satellite.name sats = slot_names name num_sats.
Proof.
  unfold Constellation._build_satellites, slot_names. intros H.
  eapply ExportFacts.mapM_map; [exact H|].
  intros i s B. cbv beta zeta in B.
  bind_inv B. bind_inv B. bind_inv B.
  apply SatelliteFacts.init_fields in B as (Nm & _).
  unfold Satellite.name. rewrite Nm. do 2 f_equal. lia.
Qed.

(** Every satellite built has the focus, the effective area and the
    radian reading [_build_satellites] gives it. *)
Lemma build_In ext num_sats name altitude e inclination raan perigees ta sats s :
  Constellation._build_satellites ext num_sats 0 name altitude e inclination
    raan perigees ta "earth" = Ok sats ->
  In s sats ->
  exists i r p t,
    0 <= i < num_sats /\
    getitem raan i = Ok r /\ getitem perigees i = Ok p /\ getitem ta i = Ok t /\
    Satellite.__init__ ext (String.append name (str_of_int (i + 1))) altitude e
      inclination r p t (PyFloat 1) "earth" true = Ok s.
Proof.
  unfold Constellation._build_satellites. intros H Hin.
  destruct (ExportFacts.mapM_In _ _ _ _ H Hin) as (i & Hi & B).
  apply range2_In in Hi. cbv beta zeta in B.
  bind_inv B. bind_inv B. bind_inv B.
  replace (i + 0 + 1) with (i + 1) in B by lia.
  exists i, v, v0, v1. repeat split; first [assumption | lia].
Qed.

(** The anchors of the perigee table. *)
Lemma anchors_nth step j :
  1 <= step -> 0 <= j < 359 / step + 1 ->
  exists anchors,
    range3 0 360 step = Ok anchors /\
    Z.of_nat (List.length anchors) = 359 / step + 1 /\
    getitem (map PyInt anchors) j = Ok (PyInt (j * step)).
Proof.
  intros Hs Hj.
  assert (Hlen : range3_len 0 360 step = 359 / step + 1).
  { unfold range3_len.
    replace (0 <? step) with true by (symmetry; apply Z.ltb_lt; lia).
    reflexivity. }
  eexists. split.
  { unfold range3. replace (step =? 0) with false
      by (symmetry; apply Z.eqb_neq; lia). reflexivity. }
  rewrite Hlen. split.
  - rewrite length_map, length_seq. lia.
  - rewrite getitem_nth by lia. rewrite !nth_error_map.
    rewrite nth_error_seq.
    replace (Z.to_nat j <? Z.to_nat (359 / step + 1))%nat with true
      by (symmetry; apply Nat.ltb_lt; lia).
    simpl. do 2 f_equal. lia.
Qed.

End ConstellationMore.

(** ** Names *)

(** X1.  [clean_name] is one pass over the name that turns every space into
    an underscore, drops every parenthesis and keeps every other character;
    the result is never longer than the name and holds no space and no
    parenthesis. *)
Theorem clean_name_one_pass s :
  clean_name s = sanitize_pass s /\
  (String.length (clean_name s) <= String.length s)%nat /\
  has " " (clean_name s) = false /\
  has "(" (clean_name s) = false /\
  has ")" (clean_name s) = false.
Proof.
  assert (P : clean_name s = sanitize_pass s).
  { unfold clean_name. induction s as [|c s IH]; [reflexivity|].
    cbn [replace sanitize_pass].
    destruct (Ascii.eqb_spec c " ") as [->|N1].
    - cbn. rewrite IH. reflexivity.
    - cbn [replace]. destruct (Ascii.eqb_spec c "(") as [->|N2].
      + cbn. exact IH.
      + cbn [replace orb]. destruct (Ascii.eqb_spec c ")") as [->|N3].
        * cbn. exact IH.
        * rewrite IH. reflexivity. }
  split; [exact P|]. split; [|apply CleanName.clean_name_has_none].
  rewrite P. clear P. induction s as [|c s IH]; cbn [sanitize_pass String.length]; [lia|].
  destruct (Ascii.eqb c " "); [cbn [String.length]; lia|].
  destruct (Ascii.eqb c "(" || Ascii.eqb c ")"); cbn [String.length]; lia.
Qed.

(** ** Satellites *)

(** X2.  A constructed satellite's true altitude is its altitude as a float
    plus the radius of its focus, looked up under the lower-cased focus
    name. *)
Theorem true_alt_adds_body_radius ext name altitude eccentricity inclination
    right_ascension perigee ta effective_area focus rads s :
  Satellite.__init__ ext name altitude eccentricity inclination right_ascension
    perigee ta effective_area focus rads = Ok s ->
  exists alt radius rf,
    Satellite.altitude s = Ok alt /\
    od_get heavenly_body_radius (lower focus) = Ok radius /\
    float_of_int radius = Ok rf /\
    Satellite.true_alt s = Ok (alt + rf)%float.
Proof.
  intros H.
  destruct (SatelliteMore.init_true_alt _ _ _ _ _ _ _ _ _ _ _ _ H)
    as (alt & radius & rf & A & R & F & T & _).
  apply SatelliteFacts.init_fields in H as (_ & Al & _).
  exists alt, radius, rf. unfold Satellite.altitude, Satellite.true_alt.
  rewrite Al, T. auto.
Qed.

(** A probe 100 km above ["Luna"]: its true altitude is 1837 km. *)
Lemma true_alt_adds_body_radius_witness :
  exists s,
    Satellite.__init__ on_x_axis "probe" (PyInt 100) (PyInt 0) (PyInt 0) (PyInt 0)
      (PyInt 0) (PyInt 0) (PyFloat 1) "Luna" true = Ok s /\
    exists alt radius rf,
      Satellite.altitude s = Ok alt /\
      od_get heavenly_body_radius (lower "Luna") = Ok radius /\
      float_of_int radius = Ok rf /\
      Satellite.true_alt s = Ok (alt + rf)%float.
Proof.
  eexists. split; [vm_compute; reflexivity|].
  apply (true_alt_adds_body_radius on_x_axis "probe" (PyInt 100) (PyInt 0) (PyInt 0)
           (PyInt 0) (PyInt 0) (PyInt 0) (PyFloat 1) "Luna" true).
  vm_compute; reflexivity.
Defined.

(** X3.  A focus that is none of the eleven bodies of the radius table
    (compared in lower case) makes the constructor raise [KeyError], whatever
    the other arguments are, once the altitude converts to a float. *)
Theorem unknown_focus_raises ext name altitude eccentricity inclination
    right_ascension perigee ta effective_area focus rads :
  is_ok (py_float altitude) = true ->
  ~ In (lower focus) (od_keys heavenly_body_radius) ->
  Satellite.__init__ ext name altitude eccentricity inclination right_ascension
    perigee ta effective_area focus rads = Raise KeyError.
Proof.
  intros Ha Hf. apply is_ok_Ok in Ha as [alt Ha].
  unfold Satellite.__init__. rewrite Ha. cbn [bind].
  unfold Satellite._get_radius. rewrite DictFacts.od_get_missing by exact Hf.
  reflexivity.
Qed.

(** The table calls the Moon ["luna"]: the focus ["Moon"] is a [KeyError]. *)
Lemma unknown_focus_raises_witness :
  Satellite.__init__ on_x_axis "probe" (PyInt 100) (PyInt 0) (PyInt 0) (PyInt 0)
    (PyInt 0) (PyInt 0) (PyFloat 1) "Moon" true = Raise KeyError.
Proof.
  apply (unknown_focus_raises on_x_axis "probe" (PyInt 100) (PyInt 0) (PyInt 0)
           (PyInt 0) (PyInt 0) (PyInt 0) (PyFloat 1) "Moon" true).
  - vm_compute; reflexivity.
  - vm_compute. intros H.
    repeat (destruct H as [H|H]; [discriminate H|]). exact H.
Defined.

(** X4.  The position of a satellite does not depend on its focus, its name
    or its effective area: two satellites constructed from the same
    altitude, eccentricity, inclination, right ascension and perigee in the
    same angle unit have the same [xyz], [ra] and [dec], whatever their
    foci are. *)
Theorem position_independent_of_focus ext name1 name2 altitude eccentricity
    inclination right_ascension perigee ta1 ta2 area1 area2 focus1 focus2 rads s1 s2 :
  Satellite.__init__ ext name1 altitude eccentricity inclination right_ascension
    perigee ta1 area1 focus1 rads = Ok s1 ->
  Satellite.__init__ ext name2 altitude eccentricity inclination right_ascension
    perigee ta2 area2 focus2 rads = Ok s2 ->
  Satellite.xyz s1 = Satellite.xyz s2 /\
  Satellite.ra s1 = Satellite.ra s2 /\
  Satellite.dec s1 = Satellite.dec s2.
Proof.
  intros H1 H2.
  apply SatelliteFacts.init_fields in H1 as (_ & _ & _ & _ & P1 & A1).
  apply SatelliteFacts.init_fields in H2 as (_ & _ & _ & _ & P2 & A2).
  assert (R : (Satellite._inclination_r s1, Satellite._perigee_r s1,
               Satellite._right_ascension_r s1)
              = (Satellite._inclination_r s2, Satellite._perigee_r s2,
                 Satellite._right_ascension_r s2)).
  { destruct rads.
    - destruct A1 as [_ A1], A2 as [_ A2]. congruence.
    - destruct A1 as [A1 _], A2 as [A2 _].
      apply SatelliteFacts.convert_to_rads_None in A1 as (I1 & R1 & G1 & _).
      apply SatelliteFacts.convert_to_rads_None in A2 as (I2 & R2 & G2 & _).
      congruence. }
  inversion R as [[Ri Rp Rr]]. rewrite Ri, Rp, Rr in P1. rewrite P1 in P2.
  unfold Satellite.xyz, Satellite.ra, Satellite.dec.
  inversion P2; auto.
Qed.

(** The same orbit around the Earth and around Mars. *)
Lemma position_independent_of_focus_witness :
  exists s1 s2,
    Satellite.__init__ on_x_axis "a" (PyInt 400) (PyInt 0) (PyInt 1) (PyInt 2)
      (PyInt 3) (PyInt 0) (PyFloat 1) "earth" true = Ok s1 /\
    Satellite.__init__ on_x_axis "b" (PyInt 400) (PyInt 0) (PyInt 1) (PyInt 2)
      (PyInt 3) (PyInt 4) (PyFloat 2) "mars" true = Ok s2 /\
    Satellite.xyz s1 = Satellite.xyz s2 /\
    Satellite.ra s1 = Satellite.ra s2 /\
    Satellite.dec s1 = Satellite.dec s2.
Proof.
  eexists. eexists.
  split; [vm_compute; reflexivity|].
  split; [vm_compute; reflexivity|].
  apply (position_independent_of_focus on_x_axis "a" "b" (PyInt 400) (PyInt 0)
           (PyInt 1) (PyInt 2) (PyInt 3) (PyInt 0) (PyInt 4) (PyFloat 1) (PyFloat 2)
           "earth" "mars" true).
  - vm_compute; reflexivity.
  - vm_compute; reflexivity.
Defined.

(** X5.  A satellite made from a tracking record has the sanitized name of
    the record, the record's semi-major axis as its altitude (so its true
    altitude is that axis plus 6371), the record's angles as its degree
    fields and [pi / 180] times them as its radian fields, true anomaly 0 and
    effective area 1. *)
Theorem from_TLE_fields ext tle s :
  Satellite.from_TLE ext tle = Ok s ->
  Satellite.name s = clean_name (tle_name tle) /\
  Satellite._altitude s = PyFloat (tle_a tle) /\
  Satellite._eccentricity s = PyFloat (tle_ecc tle) /\
  Satellite._inclination s = PyFloat (tle_inc tle) /\
  Satellite._right_ascension s = PyFloat (tle_raan tle) /\
  Satellite._perigee s = PyFloat (tle_argp tle) /\
  Satellite._ta s = PyInt 0 /\
  Satellite._inclination_r s = PyFloat (tle_inc tle * (pi / 180)) /\
  Satellite._right_ascension_r s = PyFloat (tle_raan tle * (pi / 180)) /\
  Satellite._perigee_r s = PyFloat (tle_argp tle * (pi / 180)) /\
  Satellite._ta_r s = PyFloat 0 /\
  Satellite._true_alt s = PyFloat (tle_a tle + 6371) /\
  Satellite._effective_area s = PyFloat 1.
Proof.
  unfold Satellite.from_TLE. intros H.
  destruct (SatelliteMore.init_true_alt _ _ _ _ _ _ _ _ _ _ _ _ H)
    as (alt & radius & rf & A & R & F & T & _ & Ar).
  apply SatelliteFacts.init_fields in H as (N & Al & Ec & Ef & _ & C & D).
  inversion D as [[Di Dr Dp Dt]].
  apply SatelliteFacts.convert_to_rads_None in C as (Ci & Cr & Cp & Ct).
  cbn [py_mul py_float bind] in Ci, Cr, Cp.
  inversion Ci. inversion Cr. inversion Cp.
  assert (Z0 : py_mul (PyInt 0) (PyFloat (pi / 180)) = Ok (PyFloat 0))
    by (vm_compute; reflexivity).
  rewrite Z0 in Ct. inversion Ct.
  vm_compute in R. inversion R; subst radius.
  vm_compute in F. inversion F; subst rf.
  cbn [py_float] in A. inversion A; subst alt.
  unfold Satellite.name. repeat split; congruence.
Qed.

(** The record of a station. *)
Lemma from_TLE_fields_witness :
  exists s,
    let tle := {| tle_name := "ISS (ZARYA)"; tle_a := 6798; tle_ecc := 0.00048828125;
                  tle_inc := 51.625; tle_raan := 208.5; tle_argp := 69.5 |} in
    Satellite.from_TLE on_x_axis tle = Ok s /\
    Satellite.name s = clean_name (tle_name tle) /\
    Satellite._altitude s = PyFloat (tle_a tle) /\
    Satellite._eccentricity s = PyFloat (tle_ecc tle) /\
    Satellite._inclination s = PyFloat (tle_inc tle) /\
    Satellite._right_ascension s = PyFloat (tle_raan tle) /\
    Satellite._perigee s = PyFloat (tle_argp tle) /\
    Satellite._ta s = PyInt 0 /\
    Satellite._inclination_r s = PyFloat (tle_inc tle * (pi / 180)) /\
    Satellite._right_ascension_r s = PyFloat (tle_raan tle * (pi / 180)) /\
    Satellite._perigee_r s = PyFloat (tle_argp tle * (pi / 180)) /\
    Satellite._ta_r s = PyFloat 0 /\
    Satellite._true_alt s = PyFloat (tle_a tle + 6371) /\
    Satellite._effective_area s = PyFloat 1.
Proof.
  eexists. cbv zeta.
  split; [vm_compute; reflexivity|].
  apply (from_TLE_fields on_x_axis
           {| tle_name := "ISS (ZARYA)"; tle_a := 6798; tle_ecc := 0.00048828125;
              tle_inc := 51.625; tle_raan := 208.5; tle_argp := 69.5 |}).
  vm_compute; reflexivity.
Defined.

(** X6.  The conversion methods test their [value] for truth, not for
    presence: a [value] equal to zero ([0], [0.0], [-0.0]) is handled as no
    value at all, and the call returns the four stored angles converted
    instead of the converted zero; any other [value] is returned multiplied
    by the conversion factor. *)
Theorem convert_value_zero i r p a v :
  (py_eqb v (PyInt 0) = true ->
   Satellite._convert_to_rads i r p a (Some v) = Satellite._convert_to_rads i r p a None /\
   Satellite._convert_to_degs i r p a (Some v) = Satellite._convert_to_degs i r p a None /\
   forall c, Satellite._convert_to_rads i r p a (Some v) = Ok c \/
             Satellite._convert_to_degs i r p a (Some v) = Ok c ->
             exists i' r' p' a', c = Satellite.Four i' r' p' a') /\
  (py_eqb v (PyInt 0) = false ->
   Satellite._convert_to_rads i r p a (Some v)
   = (x <- py_mul v (PyFloat (pi / 180)) ;; Ok (Satellite.One x)) /\
   Satellite._convert_to_degs i r p a (Some v)
   = (x <- py_mul v (PyFloat (180 / pi)) ;; Ok (Satellite.One x))).
Proof.
  unfold Satellite._convert_to_rads, Satellite._convert_to_degs.
  rewrite SatelliteFacts.to_rad_value, SatelliteFacts.to_deg_value.
  cbn [bind Satellite.truthy].
  split; intros ->; [|split; reflexivity].
  split; [reflexivity|]. split; [reflexivity|].
  intros c [H|H]; bind_inv H; bind_inv H; bind_inv H; bind_inv H;
    inversion H; eauto.
Qed.

(** ** Collections *)

(** X7.  Looking a name up in a constructed collection gives the last of the
    given satellites that bears the name, and [KeyError] when none does. *)
Theorem collection_lookup sats normal_pointing k :
  od_get (SatelliteCollection.satellites (SatelliteCollection.__init__ sats normal_pointing)) k
  = match last_named k sats with
    | Some s => Ok s
    | None => Raise KeyError
    end.
Proof. apply CollectionMore.init_lookup. Qed.

(** X8.  The keys of a constructed collection are the names of the given
    satellites in the order of their first occurrence, each once, and the
    count is the number of these keys: satellites given under one name count
    once. *)
Theorem collection_keys sats normal_pointing :
  let c := SatelliteCollection.__init__ sats normal_pointing in
  od_keys (SatelliteCollection.satellites c)
  = first_occurrences (map Satellite.name sats) [] /\
  SatelliteCollection.n_satellites c
  = Z.of_nat (List.length (od_keys (SatelliteCollection.satellites c))) /\
  NoDup (od_keys (SatelliteCollection.satellites c)) /\
  (NoDup (map Satellite.name sats) ->
   od_keys (SatelliteCollection.satellites c) = map Satellite.name sats /\
   SatelliteCollection.n_satellites c = Z.of_nat (List.length sats)).
Proof.
  cbv zeta.
  pose proof (CollectionMore.init_keys sats normal_pointing) as K.
  pose proof (CollectionMore.init_count_keys sats normal_pointing) as Cn.
  split; [exact K|]. split; [rewrite K; exact Cn|]. split.
  - rewrite K. apply CollectionMore.first_occurrences_NoDup.
  - intros N. rewrite Cn, K.
    rewrite CollectionMore.first_occurrences_distinct by (auto; intros x _ []).
    now rewrite length_map.
Qed.

(** X9.  In a constructed collection, and after any further [add_satellite]
    calls, every key occurs once and is the name of the satellite stored
    under it. *)
Theorem collection_well_keyed sats normal_pointing more :
  well_keyed (SatelliteCollection.satellites
                (fold_left SatelliteCollection.add_satellite more
                   (SatelliteCollection.__init__ sats normal_pointing))).
Proof.
  unfold SatelliteCollection.satellites.
  apply CollectionMore.adds_well_keyed.
  unfold SatelliteCollection.__init__. cbn [SatelliteCollection._satellites].
  apply CollectionMore.adds_well_keyed. split; simpl; [constructor|tauto].
Qed.

(** X10.  After [add_satellite] the satellite is found under its name, and
    the lookup of every other name is what it was. *)
Theorem add_satellite_lookup self sat :
  od_get (SatelliteCollection.satellites (SatelliteCollection.add_satellite self sat))
    (Satellite.name sat) = Ok sat /\
  forall k, k <> Satellite.name sat ->
    od_get (SatelliteCollection.satellites (SatelliteCollection.add_satellite self sat)) k
    = od_get (SatelliteCollection.satellites self) k.
Proof.
  unfold SatelliteCollection.satellites. simpl. split.
  - apply DictFacts.od_get_set_same.
  - intros k N. now apply DictFacts.od_get_set_other.
Qed.

(** X11.  Adding a satellite whose name is not yet a key to a collection
    whose count is its number of entries appends the name to the keys and
    keeps the count equal to the number of entries, one more than before. *)
Theorem add_satellite_new_name self sat :
  SatelliteCollection.n_satellites self = od_len (SatelliteCollection.satellites self) ->
  ~ In (Satellite.name sat) (od_keys (SatelliteCollection.satellites self)) ->
  let c := SatelliteCollection.add_satellite self sat in
  SatelliteCollection.n_satellites c = SatelliteCollection.n_satellites self + 1 /\
  SatelliteCollection.n_satellites c = od_len (SatelliteCollection.satellites c) /\
  od_keys (SatelliteCollection.satellites c)
  = od_keys (SatelliteCollection.satellites self) ++ [Satellite.name sat].
Proof.
  intros H F. cbv zeta. split; [reflexivity|]. split.
  - now apply CollectionFacts.add_satellite_fresh.
  - unfold SatelliteCollection.satellites in *. simpl.
    now apply DictFacts.od_set_keys_fresh.
Qed.

(** A second satellite with a name of its own. *)
Lemma add_satellite_new_name_witness :
  exists s1 s2,
    Satellite.__init__ on_x_axis "det1" (PyInt 550) (PyInt 0) (PyInt 53)
      (PyInt 0) (PyInt 0) (PyInt 0) (PyFloat 1) "earth" true = Ok s1 /\
    Satellite.__init__ on_x_axis "det2" (PyInt 700) (PyInt 0) (PyInt 53)
      (PyInt 0) (PyInt 0) (PyInt 0) (PyFloat 1) "earth" true = Ok s2 /\
    let self := SatelliteCollection.__init__ [s1] false in
    let c := SatelliteCollection.add_satellite self s2 in
    SatelliteCollection.n_satellites c = SatelliteCollection.n_satellites self + 1 /\
    SatelliteCollection.n_satellites c = od_len (SatelliteCollection.satellites c) /\
    od_keys (SatelliteCollection.satellites c)
    = od_keys (SatelliteCollection.satellites self) ++ [Satellite.name s2].
Proof.
  eexists. eexists.
  split; [vm_compute; reflexivity|].
  split; [vm_compute; reflexivity|].
  cbv zeta.
  apply (add_satellite_new_name (SatelliteCollection.__init__ [_] false) _).
  - vm_compute; reflexivity.
  - vm_compute. intros [H|H]; [discriminate H|exact H].
Defined.

(** X12.  [add_satellite_from_tle] stores the satellite made from the record
    under the record's sanitized name, increments the count, and leaves the
    lookups of the other names and the pointing flag as they were. *)
Theorem add_satellite_from_tle_stores ext self tle c :
  SatelliteCollection.add_satellite_from_tle ext self tle = Ok c ->
  exists s,
    Satellite.from_TLE ext tle = Ok s /\
    od_get (SatelliteCollection.satellites c) (clean_name (tle_name tle)) = Ok s /\
    SatelliteCollection.n_satellites c = SatelliteCollection.n_satellites self + 1 /\
    SatelliteCollection._normal_pointing c = SatelliteCollection._normal_pointing self /\
    forall k, k <> clean_name (tle_name tle) ->
      od_get (SatelliteCollection.satellites c) k
      = od_get (SatelliteCollection.satellites self) k.
Proof.
  unfold SatelliteCollection.add_satellite_from_tle. intros H. bind_inv H.
  inversion H; subst; clear H. exists v. split; [exact E|].
  rewrite <- (ExportFacts.from_TLE_name ext tle v E).
  unfold SatelliteCollection.satellites. simpl.
  split; [apply DictFacts.od_get_set_same|].
  split; [reflexivity|]. split; [reflexivity|].
  intros k N. now apply DictFacts.od_get_set_other.
Qed.

(** A record added to an empty collection. *)
Lemma add_satellite_from_tle_stores_witness :
  exists c,
    let tle := {| tle_name := "NOAA 19"; tle_a := 7229; tle_ecc := 0.001953125;
                  tle_inc := 99.1875; tle_raan := 44.25; tle_argp := 112.75 |} in
    let self := SatelliteCollection.__init__ [] true in
    SatelliteCollection.add_satellite_from_tle on_x_axis self tle = Ok c /\
    exists s,
      Satellite.from_TLE on_x_axis tle = Ok s /\
      od_get (SatelliteCollection.satellites c) (clean_name (tle_name tle)) = Ok s /\
      SatelliteCollection.n_satellites c = SatelliteCollection.n_satellites self + 1 /\
      SatelliteCollection._normal_pointing c = SatelliteCollection._normal_pointing self /\
      forall k, k <> clean_name (tle_name tle) ->
        od_get (SatelliteCollection.satellites c) k
        = od_get (SatelliteCollection.satellites self) k.
Proof.
  eexists. cbv zeta.
  split; [vm_compute; reflexivity|].
  apply (add_satellite_from_tle_stores on_x_axis (SatelliteCollection.__init__ [] true)
           {| tle_name := "NOAA 19"; tle_a := 7229; tle_ecc := 0.001953125;
              tle_inc := 99.1875; tle_raan := 44.25; tle_argp := 112.75 |}).
  vm_compute; reflexivity.
Defined.

(** X13.  The export of a collection whose keys are pairwise distinct has
    seed 1234, the given burst parameters or else the default ones, and one
    detector per satellite, under the satellite's key and in the order of
    the keys, holding the satellite's [ra], [dec], altitude and effective
    area and the fixed epoch. *)
Theorem as_dict_export self grb_dict g :
  NoDup (od_keys (SatelliteCollection.satellites self)) ->
  SatelliteCollection.as_dict self grb_dict = Ok g ->
  SatelliteCollection.g_seed g = 1234 /\
  SatelliteCollection.g_grb g
  = match grb_dict with
    | Some grb => grb
    | None => [("ra", PyInt 80); ("dec", PyInt (-30)); ("distance", PyInt 500);
               ("K", PyInt 500); ("t_rise", PyInt 1); ("t_decay", PyInt 7)]%string
    end /\
  od_keys (SatelliteCollection.g_detectors g)
  = od_keys (SatelliteCollection.satellites self) /\
  forall name sat,
    In (name, sat) (SatelliteCollection.satellites self) ->
    exists d,
      od_get (SatelliteCollection.g_detectors g) name = Ok d /\
      SatelliteCollection.d_ra d = Satellite.ra sat /\
      SatelliteCollection.d_dec d = Satellite.dec sat /\
      Ok (SatelliteCollection.d_altitude d) = Satellite.altitude sat /\
      SatelliteCollection.d_time d = "2010-01-01T00:00:00"%string /\
      SatelliteCollection.d_effective_area d = Satellite._effective_area sat.
Proof.
  intros N H.
  pose proof (CollectionFacts.as_dict_detectors self grb_dict g H) as [I1 I2].
  unfold SatelliteCollection.as_dict in H. bind_inv H.
  inversion H; subst; clear H.
  cbn [SatelliteCollection.g_seed SatelliteCollection.g_grb
       SatelliteCollection.g_detectors] in *.
  split; [reflexivity|]. split; [destruct grb_dict; reflexivity|].
  assert (K : od_keys v = od_keys (SatelliteCollection.satellites self)).
  { apply (ExportFacts.detectors_keys (SatelliteCollection._normal_pointing self)) in E;
      [exact E|exact N|]. intros k []. }
  split; [exact K|].
  intros name sat Hin.
  assert (Hk : In name (od_keys v)).
  { apply I2. unfold od_keys. apply in_map_iff. exists (name, sat). auto. }
  unfold od_keys in Hk. apply in_map_iff in Hk as ([n d] & Hn & Hd).
  simpl in Hn. subst n.
  destruct (I1 name d Hd) as (sat' & alt & Hs & Ha & ->).
  assert (sat' = sat).
  { apply (DictFacts.od_In_get _ _ _ N) in Hs.
    apply (DictFacts.od_In_get _ _ _ N) in Hin. congruence. }
  subst sat'.
  exists (detector_of (SatelliteCollection._normal_pointing self) sat alt).
  split; [apply DictFacts.od_In_get; [rewrite K; exact N|exact Hd]|].
  simpl. rewrite Ha. auto.
Qed.

(** The export of three satellites in one plane. *)
Lemma as_dict_export_witness :
  exists c g,
    SatelliteCollection.from_constellation on_x_axis 3 1 (PyInt 1) (PyInt 53)
      (PyInt 550) (PyInt 0) "det" false = Ok c /\
    SatelliteCollection.as_dict c None = Ok g /\
    SatelliteCollection.g_seed g = 1234 /\
    SatelliteCollection.g_grb g
    = [("ra", PyInt 80); ("dec", PyInt (-30)); ("distance", PyInt 500);
       ("K", PyInt 500); ("t_rise", PyInt 1); ("t_decay", PyInt 7)]%string /\
    od_keys (SatelliteCollection.g_detectors g)
    = od_keys (SatelliteCollection.satellites c) /\
    forall name sat,
      In (name, sat) (SatelliteCollection.satellites c) ->
      exists d,
        od_get (SatelliteCollection.g_detectors g) name = Ok d /\
        SatelliteCollection.d_ra d = Satellite.ra sat /\
        SatelliteCollection.d_dec d = Satellite.dec sat /\
        Ok (SatelliteCollection.d_altitude d) = Satellite.altitude sat /\
        SatelliteCollection.d_time d = "2010-01-01T00:00:00"%string /\
        SatelliteCollection.d_effective_area d = Satellite._effective_area sat.
Proof.
  eexists. eexists.
  split; [vm_compute; reflexivity|].
  split; [vm_compute; reflexivity|].
  apply (as_dict_export _ None _).
  - vm_compute. repeat constructor; simpl; intuition discriminate.
  - vm_compute; reflexivity.
Defined.

(** X14.  The collection read from tracking records has as keys the
    sanitized record names in the order of their first occurrence, none of
    them with a space or a parenthesis, and as count the number of keys;
    every satellite stored was made from a record of that sanitized name. *)
Theorem from_tle_file_keys ext tles normal_pointing c :
  SatelliteCollection.from_tle_file ext tles normal_pointing = Ok c ->
  od_keys (SatelliteCollection.satellites c)
  = first_occurrences (map (fun tle => clean_name (tle_name tle)) tles) [] /\
  SatelliteCollection.n_satellites c
  = Z.of_nat (List.length (od_keys (SatelliteCollection.satellites c))) /\
  (forall k, In k (od_keys (SatelliteCollection.satellites c)) ->
     has " " k = false /\ has "(" k = false /\ has ")" k = false) /\
  (forall k s, od_get (SatelliteCollection.satellites c) k = Ok s ->
     exists tle, In tle tles /\ k = clean_name (tle_name tle) /\
                 Satellite.from_TLE ext tle = Ok s).
Proof.
  unfold SatelliteCollection.from_tle_file. intros H. bind_inv H.
  inversion H; subst; clear H.
  pose proof (CollectionMore.init_keys v false) as K.
  pose proof (CollectionMore.init_count_keys v false) as Cn.
  assert (Nm : map Satellite.name v = map (fun tle => clean_name (tle_name tle)) tles).
  { eapply ExportFacts.mapM_map; [exact E|]. intros x y.
    apply ExportFacts.from_TLE_name. }
  rewrite Nm in K, Cn. split; [exact K|]. split; [rewrite K; exact Cn|]. split.
  - intros k Hk. rewrite K in Hk.
    apply CollectionMore.first_occurrences_NoDup in Hk as [Hk _].
    apply in_map_iff in Hk as (tle & <- & _). apply CleanName.clean_name_has_none.
  - intros k s Hs. rewrite CollectionMore.init_lookup in Hs.
    destruct (last_named k v) as [s'|] eqn:L; [|discriminate].
    inversion Hs; subst s'. clear Hs.
    apply CollectionMore.last_named_In in L as [Pin Pn].
    destruct (ExportFacts.mapM_In _ _ _ _ E Pin) as (tle & I & F).
    exists tle. split; [exact I|]. split; [|exact F].
    rewrite <- Pn. now apply (ExportFacts.from_TLE_name ext).
Qed.

(** Two records, one of them read twice. *)
Lemma from_tle_file_keys_witness :
  exists c,
    let iss := {| tle_name := "ISS (ZARYA)"; tle_a := 6798; tle_ecc := 0.00048828125;
                  tle_inc := 51.625; tle_raan := 208.5; tle_argp := 69.5 |} in
    let noaa := {| tle_name := "NOAA 19"; tle_a := 7229; tle_ecc := 0.001953125;
                   tle_inc := 99.1875; tle_raan := 44.25; tle_argp := 112.75 |} in
    let tles := [iss; noaa; iss] in
    SatelliteCollection.from_tle_file on_x_axis tles false = Ok c /\
    od_keys (SatelliteCollection.satellites c)
    = first_occurrences (map (fun tle => clean_name (tle_name tle)) tles) [] /\
    SatelliteCollection.n_satellites c
    = Z.of_nat (List.length (od_keys (SatelliteCollection.satellites c))) /\
    (forall k, In k (od_keys (SatelliteCollection.satellites c)) ->
       has " " k = false /\ has "(" k = false /\ has ")" k = false) /\
    (forall k s, od_get (SatelliteCollection.satellites c) k = Ok s ->
       exists tle, In tle tles /\ k = clean_name (tle_name tle) /\
                   Satellite.from_TLE on_x_axis tle = Ok s).
Proof.
  eexists. cbv zeta.
  split; [vm_compute; reflexivity|].
  apply (from_tle_file_keys on_x_axis _ false).
  vm_compute; reflexivity.
Defined.

(** ** Constellations: names and collections *)

(** X15.  The satellites of a constructed constellation are named by the
    constellation name followed by 1, 2, ... in slot order; the names are
    pairwise distinct, and every satellite was constructed with focus
    ["earth"], effective area 1 and its angles read as radians. *)
Theorem constellation_names ext num_sats num_planes phasing inclination altitude
    eccentricity name c :
  Constellation.__init__ ext num_sats num_planes phasing inclination altitude
    eccentricity name = Ok c ->
  map Satellite.name (Constellation.satellites c) = slot_names name num_sats /\
  NoDup (map Satellite.name (Constellation.satellites c)) /\
  List.length (Constellation.satellites c) = Z.to_nat num_sats /\
  forall s, In s (Constellation.satellites c) ->
    Satellite._focus s = "earth"%string /\
    Satellite._effective_area s = PyFloat 1 /\
    Satellite._altitude s = altitude /\
    Satellite._eccentricity s = eccentricity /\
    Satellite._inclination_r s = inclination.
Proof.
  intros H.
  apply ConstellationMore.init_parts in H as (_ & _ & _ & _ & B & _).
  pose proof (ConstellationMore.build_names _ _ _ _ _ _ _ _ _ _ _ B) as Nm.
  split; [exact Nm|]. split; [rewrite Nm; apply NameFacts.slot_names_NoDup|]. split.
  - rewrite <- (length_map Satellite.name), Nm. unfold slot_names, range1.
    rewrite length_map, SeqFacts.range2_length. f_equal. lia.
  - intros s Hs.
    destruct (ConstellationMore.build_In _ _ _ _ _ _ _ _ _ _ _ B Hs)
      as (i & r & p & t & _ & _ & _ & _ & I).
    destruct (SatelliteMore.init_true_alt _ _ _ _ _ _ _ _ _ _ _ _ I)
      as (_ & _ & _ & _ & _ & _ & _ & F & A).
    apply SatelliteFacts.init_fields in I as (_ & Al & Ec & _ & _ & _ & R).
    inversion R. auto.
Qed.

(** Six satellites in two planes. *)
Lemma constellation_names_witness :
  exists c,
    Constellation.__init__ on_x_axis 6 2 (PyInt 1) (PyInt 53) (PyInt 550)
      (PyInt 0) "det" = Ok c /\
    map Satellite.name (Constellation.satellites c) = slot_names "det" 6 /\
    NoDup (map Satellite.name (Constellation.satellites c)) /\
    List.length (Constellation.satellites c) = Z.to_nat 6 /\
    forall s, In s (Constellation.satellites c) ->
      Satellite._focus s = "earth"%string /\
      Satellite._effective_area s = PyFloat 1 /\
      Satellite._altitude s = PyInt 550 /\
      Satellite._eccentricity s = PyInt 0 /\
      Satellite._inclination_r s = PyInt 53.
Proof.
  eexists. split; [vm_compute; reflexivity|].
  apply (constellation_names on_x_axis 6 2 (PyInt 1) (PyInt 53) (PyInt 550)
           (PyInt 0) "det").
  vm_compute; reflexivity.
Defined.

(** X16.  The collection built from a constellation holds every satellite of
    the constellation under its own name: its keys are the constellation
    name followed by 1, 2, ... in slot order, its count is the number of
    satellites, it keeps the [normal_pointing] flag it was given, and the
    name of slot [i] looks up the satellite of slot [i]. *)
Theorem from_constellation_collection ext num_sats num_planes phasing inclination
    altitude eccentricity name normal_pointing coll :
  SatelliteCollection.from_constellation ext num_sats num_planes phasing
    inclination altitude eccentricity name normal_pointing = Ok coll ->
  exists c,
    Constellation.__init__ ext num_sats num_planes phasing inclination altitude
      eccentricity name = Ok c /\
    od_keys (SatelliteCollection.satellites coll) = slot_names name num_sats /\
    SatelliteCollection.n_satellites coll = Z.max 0 num_sats /\
    SatelliteCollection._normal_pointing coll = normal_pointing /\
    forall i, 0 <= i < num_sats ->
      exists s,
        getitem (Constellation.satellites c) i = Ok s /\
        od_get (SatelliteCollection.satellites coll)
          (String.append name (str_of_int (i + 1))) = Ok s.
Proof.
  unfold SatelliteCollection.from_constellation. intros H. bind_inv H.
  inversion H; subst; clear H. exists v. split; [exact E|].
  apply ConstellationMore.init_parts in E as (_ & _ & _ & _ & B & _).
  pose proof (ConstellationMore.build_names _ _ _ _ _ _ _ _ _ _ _ B) as Nm.
  pose proof (NameFacts.slot_names_NoDup name num_sats) as ND.
  assert (K : od_keys (SatelliteCollection.satellites
                (SatelliteCollection.__init__ (Constellation.satellites v) normal_pointing))
              = slot_names name num_sats).
  { rewrite CollectionMore.init_keys, Nm.
    apply CollectionMore.first_occurrences_distinct; [exact ND|]. intros x _ []. }
  split; [exact K|]. split; [|split; [reflexivity|]].
  - rewrite CollectionMore.init_count_keys, Nm.
    rewrite CollectionMore.first_occurrences_distinct by (auto; intros x _ []).
    unfold slot_names, range1. rewrite length_map, SeqFacts.range2_length. lia.
  - intros i Hi.
    pose proof (NameFacts.slot_names_nth name num_sats i Hi) as Ni.
    rewrite <- Nm, nth_error_map in Ni.
    destruct (nth_error (Constellation.satellites v) (Z.to_nat i)) as [s|] eqn:Ns;
      [|discriminate].
    simpl in Ni. inversion Ni as [Ni'].
    exists s. rewrite SeqFacts.getitem_nth, Ns by lia. split; [reflexivity|].
    rewrite CollectionMore.init_lookup.
    rewrite CollectionMore.last_named_distinct; [reflexivity| |].
    + rewrite Nm. exact ND.
    + eapply nth_error_In. exact Ns.
Qed.

(** The collection of six satellites in two planes, with nadir pointing. *)
Lemma from_constellation_collection_witness :
  exists coll,
    SatelliteCollection.from_constellation on_x_axis 6 2 (PyInt 1) (PyInt 53)
      (PyInt 550) (PyInt 0) "det" true = Ok coll /\
    exists c,
      Constellation.__init__ on_x_axis 6 2 (PyInt 1) (PyInt 53) (PyInt 550)
        (PyInt 0) "det" = Ok c /\
      od_keys (SatelliteCollection.satellites coll) = slot_names "det" 6 /\
      SatelliteCollection.n_satellites coll = Z.max 0 6 /\
      SatelliteCollection._normal_pointing coll = true /\
      forall i, 0 <= i < 6 ->
        exists s,
          getitem (Constellation.satellites c) i = Ok s /\
          od_get (SatelliteCollection.satellites coll)
            (String.append "det" (str_of_int (i + 1))) = Ok s.
Proof.
  eexists. split; [vm_compute; reflexivity|].
  apply (from_constellation_collection on_x_axis 6 2 (PyInt 1) (PyInt 53) (PyInt 550)
           (PyInt 0) "det" true).
  vm_compute; reflexivity.
Defined.

(** ** Constellations: the sizes that cannot be built *)

(** X17.  A constellation of zero planes or of zero satellites cannot be
    constructed: the constructor raises [ZeroDivisionError], whatever the
    other arguments are. *)
Theorem constellation_zero_division ext num_sats num_planes phasing inclination
    altitude eccentricity name :
  num_planes = 0 \/ num_sats = 0 ->
  Constellation.__init__ ext num_sats num_planes phasing inclination altitude
    eccentricity name = Raise ZeroDivisionError.
Proof.
  intros H. unfold Constellation.__init__, Constellation._corrected_planes. cbv zeta.
  destruct (Z.eq_dec num_planes 0) as [->|Np].
  - reflexivity.
  - destruct H as [H | ->]; [contradiction|].
    assert (Q : exists f, py_truediv (PyInt 0) (PyInt num_planes) = Ok (PyFloat f) /\
                          int_of_float f = Ok 0).
    { cbn [py_truediv]. unfold int_truediv.
      replace (num_planes =? 0) with false by (symmetry; apply Z.eqb_neq; exact Np).
      destruct num_planes as [|p|p]; [contradiction| |];
        eexists; (split; [reflexivity|vm_compute; reflexivity]). }
    destruct Q as (f & -> & F). cbn [bind py_int]. rewrite F. cbn [bind].
    destruct phasing as [z|x].
    + reflexivity.
    + cbn [py_mul py_float bind].
      replace (float_of_int 360) with (Ok 360%float) by (vm_compute; reflexivity).
      cbn [bind py_truediv py_float].
      replace (float_of_int 0) with (Ok 0%float) by (vm_compute; reflexivity).
      reflexivity.
Qed.

(** Six satellites in no plane. *)
Lemma constellation_zero_division_witness :
  Constellation.__init__ on_x_axis 6 0 (PyInt 1) (PyInt 53) (PyInt 550) (PyInt 0)
    "det" = Raise ZeroDivisionError.
Proof.
  apply (constellation_zero_division on_x_axis 6 0 (PyInt 1) (PyInt 53) (PyInt 550)
           (PyInt 0) "det").
  left. reflexivity.
Defined.

(** X18.  A constellation of fewer satellites than planes cannot be
    constructed: the per-plane count [int(num_sats / num_planes)] is 0 and
    the perigee step [360 / 0] raises [ZeroDivisionError]. *)
Theorem constellation_fewer_sats_than_planes ext num_sats num_planes phasing
    inclination altitude eccentricity name :
  0 < num_sats < num_planes -> num_sats < 2 ^ 53 -> num_planes < 2 ^ 1022 ->
  phasing_ok num_sats phasing = true ->
  Constellation._corrected_planes num_sats num_planes phasing
  = (p <- py_mul (PyInt 360) phasing ;; cp <- py_truediv p (PyInt num_sats) ;;
     Ok (0, cp)) /\
  Constellation.__init__ ext num_sats num_planes phasing inclination altitude
    eccentricity name = Raise ZeroDivisionError.
Proof.
  intros Hn H53 Hp Hph.
  destruct (FloatMore.int_truediv_below num_sats num_planes Hn H53 Hp)
    as (f & F1 & F2).
  assert (C : Constellation._corrected_planes num_sats num_planes phasing
              = (p <- py_mul (PyInt 360) phasing ;;
                 cp <- py_truediv p (PyInt num_sats) ;; Ok (0, cp))).
  { unfold Constellation._corrected_planes. cbn [py_truediv].
    rewrite F1. cbn [bind py_int]. rewrite F2. reflexivity. }
  split; [exact C|].
  unfold Constellation.__init__. cbv zeta. rewrite C.
  unfold phasing_ok in Hph. apply is_ok_Ok in Hph as [cp Hcp].
  bind_inv Hcp. rewrite E. cbn [bind]. rewrite Hcp. cbn [bind].
  reflexivity.
Qed.

(** Two satellites in five planes. *)
Lemma constellation_fewer_sats_than_planes_witness :
  Constellation._corrected_planes 2 5 (PyInt 1)
  = (p <- py_mul (PyInt 360) (PyInt 1) ;; cp <- py_truediv p (PyInt 2) ;;
     Ok (0, cp)) /\
  Constellation.__init__ on_x_axis 2 5 (PyInt 1) (PyInt 53) (PyInt 550) (PyInt 0)
    "det" = Raise ZeroDivisionError.
Proof.
  apply (constellation_fewer_sats_than_planes on_x_axis 2 5 (PyInt 1) (PyInt 53)
           (PyInt 550) (PyInt 0) "det").
  - lia.
  - reflexivity.
  - reflexivity.
  - vm_compute; reflexivity.
Defined.

(** X19.  A constellation of more than 360 satellites per plane cannot be
    constructed: the perigee step [int(360 / sats_per_plane)] is 0 and
    [range(0, 360, 0)] raises [ValueError]. *)
Theorem constellation_crowded_plane ext num_sats num_planes phasing inclination
    altitude eccentricity name :
  1 <= num_planes -> 360 < num_sats / num_planes < 2 ^ 50 ->
  num_sats mod num_planes = 0 \/ num_sats < 2 ^ 53 ->
  phasing_ok num_sats phasing = true ->
  Constellation._perigee_positions (num_sats / num_planes) num_sats
  = Raise ValueError /\
  Constellation.__init__ ext num_sats num_planes phasing inclination altitude
    eccentricity name = Raise ValueError.
Proof.
  intros Hp Hq Hc Hph.
  destruct (BuildFacts.corrected_planes_spec num_sats num_planes phasing)
    as [cp Ecp]; try assumption; [lia|].
  destruct (FloatMore.int_truediv_below 360 (num_sats / num_planes))
    as (f & F1 & F2); [lia|reflexivity| |].
  { assert (2 ^ 50 < 2 ^ 1022) by (apply Z.pow_lt_mono_r; lia). lia. }
  assert (P : Constellation._perigee_positions (num_sats / num_planes) num_sats
              = Raise ValueError).
  { unfold Constellation._perigee_positions. cbn [py_truediv].
    rewrite F1. cbn [bind py_int]. rewrite F2. reflexivity. }
  split; [exact P|].
  unfold Constellation.__init__. cbv zeta. rewrite Ecp. cbn [bind].
  rewrite P. reflexivity.
Qed.

(** Seven hundred and twenty-two satellites in two planes. *)
Lemma constellation_crowded_plane_witness :
  Constellation._perigee_positions (722 / 2) 722 = Raise ValueError /\
  Constellation.__init__ on_x_axis 722 2 (PyInt 1) (PyInt 53) (PyInt 550) (PyInt 0)
    "det" = Raise ValueError.
Proof.
  apply (constellation_crowded_plane on_x_axis 722 2 (PyInt 1) (PyInt 53)
           (PyInt 550) (PyInt 0) "det").
  - lia.
  - vm_compute. split; reflexivity.
  - left. reflexivity.
  - vm_compute; reflexivity.
Defined.

(** ** Constellations: perigees and true anomalies *)

(** X20.  For [num_planes >= 1], a per-plane count [num_sats / num_planes]
    between 1 and 360, and [num_sats] divisible by [num_planes] or below
    [2 ** 53]: in a constellation that is constructed, with any
    collaborators, the perigee of slot [i] is [(i mod len) * step] degrees,
    for the step [360 // sats_per_plane] and the number
    [len = 359 // step + 1] of anchors; the table holds [len * num_sats]
    entries, of which the satellites read the first [num_sats].  When the
    per-plane count divides 360 there are as many anchors as satellites in
    a plane, and each plane is filled evenly. *)
Theorem constellation_perigee_spacing ext num_sats num_planes phasing inclination
    altitude eccentricity name c :
  1 <= num_planes -> 1 <= num_sats / num_planes <= 360 ->
  num_sats mod num_planes = 0 \/ num_sats < 2 ^ 53 ->
  Constellation.__init__ ext num_sats num_planes phasing inclination altitude
    eccentricity name = Ok c ->
  let step := 360 / (num_sats / num_planes) in
  let len := 359 / step + 1 in
  Z.of_nat (List.length (Constellation._perigee_positions_tbl c)) = len * num_sats /\
  (forall i, 0 <= i < num_sats ->
     exists s, getitem (Constellation.satellites c) i = Ok s /\
               Satellite._perigee_r s = PyInt (i mod len * step)) /\
  (360 mod (num_sats / num_planes) = 0 -> len = num_sats / num_planes).
Proof.
  intros Hp Hq Hc Hb. cbv zeta.
  set (spp := num_sats / num_planes) in *.
  assert (Hstep : 1 <= 360 / spp) by (apply Z.div_le_lower_bound; lia).
  set (step := 360 / spp) in *.
  assert (H359 : 0 <= 359 / step) by (apply Z.div_pos; lia).
  set (len := 359 / step + 1).
  destruct (BuildFacts.constellation_tables ext num_sats num_planes phasing
              inclination altitude eccentricity name c)
    as (d & cp & anchors & Es & _ & _ & _ & _ & _ & Ra & Ne & Ia & Tbl & Len & Slots);
    auto.
  fold spp in Ra. fold step in Ra.
  assert (Hn : 0 <= num_sats).
  { pose proof (Z.mul_div_le num_sats num_planes ltac:(lia)). fold spp in H. nia. }
  assert (La : Z.of_nat (List.length anchors) = len).
  { destruct (ConstellationMore.anchors_nth step 0 Hstep ltac:(lia))
      as (anchors' & Ra' & L & _).
    rewrite Ra in Ra'. inversion Ra'; subst. exact L. }
  split; [|split].
  - rewrite Tbl.
    assert (G : forall (P : list pynum) m,
               List.length (List.concat (repeat P m)) = (m * List.length P)%nat).
    { intros P m. induction m as [|m IH]; simpl; [reflexivity|].
      rewrite length_app, IH. reflexivity. }
    rewrite G, length_map. rewrite Nat2Z.inj_mul, Z2Nat.id, La by lia. ring.
  - intros i Hi. destruct (Slots i Hi) as (s & G & _ & _ & _ & P & _).
    exists s. split; [exact G|].
    destruct (BuildFacts.perigee_table_angle anchors num_sats i Ne Ia Hi)
      as (x & G1 & _ & G2).
    rewrite Tbl, G1 in P. inversion P; subst x.
    rewrite La in G2.
    pose proof (Z.mod_pos_bound i len ltac:(lia)) as MB.
    destruct (ConstellationMore.anchors_nth step (i mod len) Hstep MB)
      as (anchors' & Ra' & _ & G3).
    rewrite Ra in Ra'. inversion Ra'; subst anchors'.
    rewrite G3 in G2. now inversion G2.
  - intros D. apply Z.mod_divide in D; [|lia]. destruct D as [q Dq].
    assert (Hs : step = q).
    { unfold step. rewrite Dq. apply Z.div_mul. lia. }
    unfold len. rewrite Hs in *.
    assert (359 / q = spp - 1); [|lia].
    symmetry. apply Z.div_unique with (q - 1); [lia|nia].
Qed.

(** Seven satellites in two planes: three per plane, on three anchors. *)
Lemma constellation_perigee_spacing_witness :
  exists c,
    Constellation.__init__ on_x_axis 7 2 (PyInt 1) (PyInt 53) (PyInt 550)
      (PyInt 0) "det" = Ok c /\
    let step := 360 / (7 / 2) in
    let len := 359 / step + 1 in
    Z.of_nat (List.length (Constellation._perigee_positions_tbl c)) = len * 7 /\
    (forall i, 0 <= i < 7 ->
       exists s, getitem (Constellation.satellites c) i = Ok s /\
                 Satellite._perigee_r s = PyInt (i mod len * step)) /\
    (360 mod (7 / 2) = 0 -> len = 7 / 2).
Proof.
  eexists. split; [vm_compute; reflexivity|].
  apply (constellation_perigee_spacing on_x_axis 7 2 (PyInt 1) (PyInt 53)
           (PyInt 550) (PyInt 0) "det").
  - lia.
  - vm_compute. split; discriminate.
  - right. reflexivity.
  - vm_compute; reflexivity.
Defined.

(** X21.  For [num_planes >= 1], a per-plane count [num_sats / num_planes]
    between 1 and 360, and [num_sats] divisible by [num_planes] or below
    [2 ** 53]: in a constellation that is constructed, with any
    collaborators, the corrected phasing angle is
    [360 * phasing / num_sats]; the true anomaly is 0 on the first plane and
    grows by the corrected phasing angle from each slot to the slot one
    per-plane count later, so the satellites of one plane (equal
    [i / sats_per_plane]) share one true anomaly, which is the one their
    satellite received. *)
Theorem constellation_true_anomaly ext num_sats num_planes phasing inclination
    altitude eccentricity name c :
  1 <= num_planes -> 1 <= num_sats / num_planes <= 360 ->
  num_sats mod num_planes = 0 \/ num_sats < 2 ^ 53 ->
  Constellation.__init__ ext num_sats num_planes phasing inclination altitude
    eccentricity name = Ok c ->
  exists cp,
    Constellation._correct_phasing c = PyFloat cp /\
    (p <- py_mul (PyInt 360) phasing ;; py_truediv p (PyInt num_sats))
    = Ok (PyFloat cp) /\
    List.length (Constellation._ta c) = Z.to_nat num_sats /\
    (forall i, 0 <= i < num_sats -> i < num_sats / num_planes ->
       getitem (Constellation._ta c) i = Ok (PyInt 0)) /\
    (forall i, num_sats / num_planes <= i < num_sats ->
       exists x y,
         getitem (Constellation._ta c) (i - num_sats / num_planes) = Ok x /\
         py_add x (PyFloat cp) = Ok y /\
         getitem (Constellation._ta c) i = Ok y) /\
    (forall i j, 0 <= i < num_sats -> 0 <= j < num_sats ->
       i / (num_sats / num_planes) = j / (num_sats / num_planes) ->
       getitem (Constellation._ta c) i = getitem (Constellation._ta c) j) /\
    (forall i, 0 <= i < num_sats ->
       exists s, getitem (Constellation.satellites c) i = Ok s /\
                 getitem (Constellation._ta c) i = Ok (Satellite._ta_r s)).
Proof.
  intros Hp Hq Hc Hb.
  destruct (BuildFacts.constellation_tables ext num_sats num_planes phasing
              inclination altitude eccentricity name c)
    as (d & cp & anchors & Es & Ecp & Eph & _ & _ & Pta & _ & _ & _ & _ & _ & Slots);
    auto.
  exists cp. split; [exact Ecp|]. split; [exact Eph|].
  assert (Hn : 1 <= num_sats).
  { pose proof (Z.mul_div_le num_sats num_planes ltac:(lia)). nia. }
  pose proof Pta as (LenT & Zero & Rec & _).
  split; [exact LenT|]. split; [exact Zero|]. split; [exact Rec|]. split.
  - apply (TableFacts.plane_table_same_plane _ cp num_sats); try assumption; lia.
  - intros i Hi. destruct (Slots i Hi) as (s & G & _ & _ & _ & _ & T).
    exists s. auto.
Qed.

(** Six satellites in two planes. *)
Lemma constellation_true_anomaly_witness :
  exists c,
    Constellation.__init__ on_x_axis 6 2 (PyInt 1) (PyInt 53) (PyInt 550)
      (PyInt 0) "det" = Ok c /\
    exists cp,
      Constellation._correct_phasing c = PyFloat cp /\
      (p <- py_mul (PyInt 360) (PyInt 1) ;; py_truediv p (PyInt 6))
      = Ok (PyFloat cp) /\
      List.length (Constellation._ta c) = Z.to_nat 6 /\
      (forall i, 0 <= i < 6 -> i < 6 / 2 ->
         getitem (Constellation._ta c) i = Ok (PyInt 0)) /\
      (forall i, 6 / 2 <= i < 6 ->
         exists x y,
           getitem (Constellation._ta c) (i - 6 / 2) = Ok x /\
           py_add x (PyFloat cp) = Ok y /\
           getitem (Constellation._ta c) i = Ok y) /\
      (forall i j, 0 <= i < 6 -> 0 <= j < 6 -> i / (6 / 2) = j / (6 / 2) ->
         getitem (Constellation._ta c) i = getitem (Constellation._ta c) j) /\
      (forall i, 0 <= i < 6 ->
         exists s, getitem (Constellation.satellites c) i = Ok s /\
                   getitem (Constellation._ta c) i = Ok (Satellite._ta_r s)).
Proof.
  eexists. split; [vm_compute; reflexivity|].
  apply (constellation_true_anomaly on_x_axis 6 2 (PyInt 1) (PyInt 53) (PyInt 550)
           (PyInt 0) "det").
  - lia.
  - vm_compute. split; discriminate.
  - left. reflexivity.
  - vm_compute; reflexivity.
Defined.
